(** * mini-shell: the command-tree executor of [src/cmd.c]

    A shallow embedding of [cmd.c] (shell_cd, shell_exit, open_files,
    fix_redirects, parse_simple, run_in_parallel, run_on_pipe,
    parse_command) over an explicit model of the process and of the
    system calls the file performs, followed by the properties of the
    executor.

    The C code is stateful: it changes the working directory, the
    environment and the descriptor table of the running process, creates
    processes and waits for them.  The embedding threads a [state]
    through a small state-and-halt monad [M]; a computation either
    returns a value to its caller ([Ret]) or ends the running process
    ([Halt], carrying the wait status a parent would observe). *)

From Stdlib Require Import ZArith List Ascii String Bool Lia.
Import ListNotations.
Set Warnings "-register-all".
Open Scope string_scope.
Open Scope list_scope.
Open Scope Z_scope.

(** ** The command tree (the types [cmd.c] receives from the parser) *)

(** [word_t]: the parser's header is not part of [src/]; [cmd.c] reads
    the fields [string] and [next_part] (the pieces of one token, e.g.
    [VAR], [=], [value] at cmd.c:135-137).  Further arguments of a
    command hang off [next_word], which [cmd.c] itself never reads. *)
Inductive word_t : Type :=
  Word (str : string) (next_part : option word_t) (next_word : option word_t).

Definition word_string (w : word_t) : string :=
  match w with Word s _ _ => s end.

Definition word_next_part (w : word_t) : option word_t :=
  match w with Word _ p _ => p end.

Definition word_next_word (w : word_t) : option word_t :=
  match w with Word _ _ n => n end.

(** [simple_command_t]: the fields [cmd.c] reads.  [in] is a reserved
    word, hence [in_]. *)
Record simple_command_t : Type := SimpleCommand {
  verb : option word_t;
  params : option word_t;
  in_ : option word_t;
  out : option word_t;
  err : option word_t;
  io_flags : Z
}.

(** [operator_t]: the six tags [parse_command] names; [OP_OTHER] stands
    for any other value of the enumeration (the [default:] label). *)
Inductive operator_t : Type :=
  | OP_NONE
  | OP_SEQUENTIAL
  | OP_PARALLEL
  | OP_CONDITIONAL_ZERO
  | OP_CONDITIONAL_NZERO
  | OP_PIPE
  | OP_OTHER (tag : Z).

(** [command_t]: the three pointers are nullable in C, hence [option]. *)
Inductive command_t : Type :=
  Command (op : operator_t) (cmd1 cmd2 : option command_t)
          (scmd : option simple_command_t).

Definition is_null {A : Type} (p : option A) : bool :=
  match p with None => true | Some _ => false end.

(** ** Constants of the system headers (Linux values) *)

Definition STDIN_FILENO : Z := 0.
Definition STDOUT_FILENO : Z := 1.
Definition STDERR_FILENO : Z := 2.

Definition O_RDONLY : Z := 0.
Definition O_WRONLY : Z := 1.
Definition O_CREAT : Z := 64.
Definition O_TRUNC : Z := 512.
Definition O_APPEND : Z := 1024.

Definition EXIT_SUCCESS : Z := 0.
Definition EXIT_FAILURE : Z := 1.

Definition SIGSEGV : Z := 11.
Definition WSTOPPED : Z := 2.

(** The wait-status macros of <sys/wait.h>. *)
Definition W_EXITCODE (ret sig : Z) : Z := Z.lor (Z.shiftl ret 8) sig.
Definition WEXITSTATUS (status : Z) : Z := Z.shiftr (Z.land status 65280) 8.
Definition WTERMSIG (status : Z) : Z := Z.land status 127.
Definition WIFEXITED (status : Z) : bool := WTERMSIG status =? 0.
Definition W_STOPCODE (sig : Z) : Z := Z.lor (Z.shiftl sig 8) 127.

(** ** The process and the events it produces *)

(** What a descriptor refers to. *)
Inductive ofd : Type :=
  | Inherited (name : string)
  | File (path : string) (flags : Z)
  | PipeRead (id : Z)
  | PipeWrite (id : Z).

(** One system or library call, with its arguments and result. *)
Inductive event : Type :=
  | EvDup (fd res : Z)
  | EvDup2 (oldfd newfd res : Z)
  | EvClose (fd : Z)
  | EvOpen (path : string) (flags res : Z)
  | EvChdir (path : string) (res : Z)
  | EvPerror (what : string)
  | EvStderr (msg : string)
  | EvSetenv (name value : string) (res : Z)
  | EvPipe (res : Z)
  | EvFork (res : Z)
  | EvExec (command : string) (argv : list string) (loaded : bool)
  | EvWait (pid status : Z)
  | EvExit (code : Z)
  | EvDie (what : string)
  | EvFault.

Definition fd_table : Type := list (option ofd).

(** The running process together with the history of the whole run.
    [log] (newest first) pairs every event with the pid of the process
    that performed it; [zombies] are the terminated children of this
    process that no wait has reported yet, oldest first. *)
Record state : Type := State {
  log : list (Z * event);
  next_pid : Z;
  self : Z;
  cwd : string;
  env : list (string * string);
  fdt : fd_table;
  zombies : list (Z * Z)
}.

Definition set_log (l : list (Z * event)) (st : state) : state :=
  State l (next_pid st) (self st) (cwd st) (env st) (fdt st) (zombies st).
Definition set_cwd (d : string) (st : state) : state :=
  State (log st) (next_pid st) (self st) d (env st) (fdt st) (zombies st).
Definition set_env (e : list (string * string)) (st : state) : state :=
  State (log st) (next_pid st) (self st) (cwd st) e (fdt st) (zombies st).
Definition set_fdt (t : fd_table) (st : state) : state :=
  State (log st) (next_pid st) (self st) (cwd st) (env st) t (zombies st).
Definition set_zombies (z : list (Z * Z)) (st : state) : state :=
  State (log st) (next_pid st) (self st) (cwd st) (env st) (fdt st) z.

Definition record (e : event) (st : state) : state :=
  set_log ((self st, e) :: log st) st.

(** Descriptor table: index = descriptor number. *)
Definition fd_get (t : fd_table) (fd : Z) : option ofd :=
  if fd <? 0 then None
  else match nth_error t (Z.to_nat fd) with
       | Some o => o
       | None => None
       end.

Fixpoint fd_put (t : fd_table) (n : nat) (o : option ofd) : fd_table :=
  match n, t with
  | O, [] => [o]
  | O, _ :: t' => o :: t'
  | S n', [] => None :: fd_put [] n' o
  | S n', x :: t' => x :: fd_put t' n' o
  end.

Definition fd_set (t : fd_table) (fd : Z) (o : option ofd) : fd_table :=
  if fd <? 0 then t else fd_put t (Z.to_nat fd) o.

(** The lowest unused descriptor, as open, dup and pipe allocate it. *)
Fixpoint lowest_free (t : fd_table) : nat :=
  match t with
  | [] => O
  | None :: _ => O
  | Some _ :: t' => S (lowest_free t')
  end.

(** Environment as an association list, first binding wins. *)
Fixpoint env_get (e : list (string * string)) (name : string) : option string :=
  match e with
  | [] => None
  | (k, v) :: e' => if String.eqb k name then Some v else env_get e' name
  end.

Fixpoint env_set (e : list (string * string)) (name value : string)
  : list (string * string) :=
  match e with
  | [] => [(name, value)]
  | (k, v) :: e' =>
      if String.eqb k name then (k, value) :: e'
      else (k, v) :: env_set e' name value
  end.

Fixpoint has_equals (s : string) : bool :=
  match s with
  | EmptyString => false
  | String c s' => if Ascii.eqb c "="%char then true else has_equals s'
  end.

(** ** What lies outside [cmd.c] *)

(** The parts of the program and of its host that [cmd.c] uses and that
    are not under [src/]: the macro [SHELL_EXIT] and the helpers
    [get_word] and [get_argv] (headers cmd.h and utils.h), and the
    answers of the kernel, which may depend on everything that happened
    so far (the [state] holds the history).
    - [die_status]: the wait status of a process ended by [DIE];
    - [sys_chdir]: the new working directory, [None] when chdir fails;
    - [sys_open_ok], [sys_fork_ok], [sys_pipe_ok]: whether the call
      succeeds;
    - [sys_execvp]: [None] when the program cannot be loaded, else the
      wait status with which the loaded program ends;
    - [sys_reap]: which unreported child a plain [wait] reports;
    - [sys_stopped]: for a child of the process, the signal that
      stopped it when the kernel has a stop of that child to report to
      a waitpid that asks for stopped children. *)
Record platform : Type := Platform {
  SHELL_EXIT : Z;
  get_word : list (string * string) -> option word_t -> string;
  get_argv : list (string * string) -> simple_command_t -> list string;
  die_status : Z;
  sys_chdir : state -> string -> option string;
  sys_open_ok : state -> string -> Z -> bool;
  sys_fork_ok : state -> bool;
  sys_pipe_ok : state -> bool;
  sys_execvp : state -> string -> list string -> option Z;
  sys_reap : state -> nat;
  sys_stopped : state -> Z -> option Z
}.

(** ** The monad *)

Inductive res (A : Type) : Type :=
  | Ret (a : A)
  | Halt (wstatus : Z).
Arguments Ret {A} a.
Arguments Halt {A} wstatus.

Definition M (A : Type) : Type := state -> res A * state.

Definition ret {A : Type} (a : A) : M A := fun st => (Ret a, st).

Definition bind {A B : Type} (m : M A) (k : A -> M B) : M B :=
  fun st =>
    match m st with
    | (Ret a, st') => k a st'
    | (Halt w, st') => (Halt w, st')
    end.

Declare Scope shell_scope.
Delimit Scope shell_scope with shell.
Notation "x <- m ;; k" := (bind m (fun x => k))
  (at level 61, m at next level, right associativity) : shell_scope.
Notation "m ;; k" := (bind m (fun _ => k))
  (at level 61, right associativity) : shell_scope.
Open Scope shell_scope.

Definition gets {A : Type} (f : state -> A) : M A := fun st => (Ret (f st), st).
Definition emit (e : event) : M unit := fun st => (Ret tt, record e st).
Definition halt {A : Type} (w : Z) : M A := fun st => (Halt w, st).

(** [exit(code)]: the process ends normally; only the low 8 bits of the
    code reach the parent. *)
Definition exit {A : Type} (code : Z) : M A :=
  emit (EvExit code) ;; halt (W_EXITCODE (Z.land code 255) 0).

(** Dereferencing a null pointer: the process is killed by SIGSEGV. *)
Definition segfault {A : Type} : M A :=
  emit EvFault ;; halt SIGSEGV.

(** The state in which a child forked at [st] starts, and the state of
    the parent once that child has ended in [stc] with wait status [w]:
    the history and the pid counter are shared, the rest is the
    parent's own. *)
Definition spawn (st : state) : state :=
  State ((self st, EvFork (next_pid st)) :: log st) (next_pid st + 1)
        (next_pid st) (cwd st) (env st) (fdt st) [].

Definition rejoin (st stc : state) (w : Z) : state :=
  State (log stc) (next_pid stc) (self st) (cwd st) (env st) (fdt st)
        (zombies st ++ [(next_pid st, w)]).

Definition halt_status (r : res Empty_set) : Z :=
  match r with
  | Halt w => w
  | Ret e => match e with end
  end.

Section Shell.

Variable P : platform.

(** Modelled from the spec: the macro [DIE] of utils.h, which is not
    under [src/].  The spec calls the three conditions it guards (fork,
    pipe, open) fatal: a diagnostic, then the process ends at once. *)
Definition DIE (assertion : bool) (call_description : string) : M unit :=
  if assertion then emit (EvDie call_description) ;; halt (die_status P)
  else ret tt.

(** *** System calls *)

Definition dup (fd : Z) : M Z :=
  fun st =>
    match fd_get (fdt st) fd with
    | Some o =>
        let n := Z.of_nat (lowest_free (fdt st)) in
        (Ret n, record (EvDup fd n) (set_fdt (fd_set (fdt st) n (Some o)) st))
    | None => (Ret (-1), record (EvDup fd (-1)) st)
    end.

Definition dup2 (oldfd newfd : Z) : M Z :=
  fun st =>
    match fd_get (fdt st) oldfd with
    | Some o =>
        if newfd <? 0 then (Ret (-1), record (EvDup2 oldfd newfd (-1)) st)
        else (Ret newfd,
              record (EvDup2 oldfd newfd newfd)
                     (set_fdt (fd_set (fdt st) newfd (Some o)) st))
    | None => (Ret (-1), record (EvDup2 oldfd newfd (-1)) st)
    end.

Definition close (fd : Z) : M unit :=
  fun st => (Ret tt, record (EvClose fd) (set_fdt (fd_set (fdt st) fd None) st)).

Definition open (path : string) (flags : Z) : M Z :=
  fun st =>
    if sys_open_ok P st path flags then
      let n := Z.of_nat (lowest_free (fdt st)) in
      (Ret n, record (EvOpen path flags n)
                     (set_fdt (fd_set (fdt st) n (Some (File path flags))) st))
    else (Ret (-1), record (EvOpen path flags (-1)) st).

Definition chdir (path : string) : M Z :=
  fun st =>
    match sys_chdir P st path with
    | Some d => (Ret 0, record (EvChdir path 0) (set_cwd d st))
    | None => (Ret (-1), record (EvChdir path (-1)) st)
    end.

Definition perror (what : string) : M unit := emit (EvPerror what).

Definition fprintf_stderr (msg : string) : M unit := emit (EvStderr msg).

(** [setenv(name, value, 1)]: refused for an empty name or a name that
    contains [=]. *)
Definition setenv (name value : string) : M Z :=
  fun st =>
    if String.eqb name "" || has_equals name
    then (Ret (-1), record (EvSetenv name value (-1)) st)
    else (Ret 0, record (EvSetenv name value 0)
                        (set_env (env_set (env st) name value) st)).

(** [pipe(fd)]: result, read end, write end. *)
Definition pipe : M (Z * Z * Z) :=
  fun st =>
    if sys_pipe_ok P st then
      let id := Z.of_nat (List.length (log st)) in
      let r := Z.of_nat (lowest_free (fdt st)) in
      let t1 := fd_set (fdt st) r (Some (PipeRead id)) in
      let w := Z.of_nat (lowest_free t1) in
      let t2 := fd_set t1 w (Some (PipeWrite id)) in
      (Ret (0, r, w), record (EvPipe 0) (set_fdt t2 st))
    else (Ret (-1, -1, -1), record (EvPipe (-1)) st).

(** [fork()]: [child] is the code of the branch [child == 0], which
    never returns to the caller (every path ends in exit or in a loaded
    program).  The child starts from a copy of the parent's working
    directory, environment and descriptors ([spawn]), with no children
    of its own; what it changes there is lost when it ends ([rejoin]).
    The model runs the child to its end at the fork point (one of the
    schedules the kernel may choose) and keeps its wait status among the
    parent's [zombies]; which terminated child a [wait] reports is left
    to [sys_reap]. *)
Definition fork (child : M Empty_set) : M Z :=
  fun st =>
    if sys_fork_ok P st then
      let '(r, stc) := child (spawn st) in
      (Ret (next_pid st), rejoin st stc (halt_status r))
    else (Ret (-1), record (EvFork (-1)) st).

Fixpoint remove_nth {A : Type} (n : nat) (l : list A) : list A :=
  match n, l with
  | _, [] => []
  | O, _ :: l' => l'
  | S n', x :: l' => x :: remove_nth n' l'
  end.

Fixpoint find_pid (pid : Z) (l : list (Z * Z)) : option nat :=
  match l with
  | [] => None
  | (p, _) :: l' =>
      if p =? pid then Some O
      else match find_pid pid l' with
           | Some n => Some (S n)
           | None => None
           end
  end.

(** [wait(&status)]: reports any one terminated child and stores its
    status; with no child left, fails and leaves [status] as it was. *)
Definition wait (status : Z) : M Z :=
  fun st =>
    let n := (sys_reap P st mod List.length (zombies st))%nat in
    match nth_error (zombies st) n with
    | Some (pid, w) =>
        (Ret w, record (EvWait pid w) (set_zombies (remove_nth n (zombies st)) st))
    | None => (Ret status, record (EvWait (-1) status) st)
    end.

(** The stop of child [pid] that a waitpid with [options] reports, if
    any: stopped children are reported only when the option WUNTRACED
    is set, which is the bit [WSTOPPED] of <sys/wait.h>. *)
Definition reported_stop (st : state) (options pid : Z) : option Z :=
  if negb (Z.land options WSTOPPED =? 0) then sys_stopped P st pid else None.

(** [waitpid(pid, &status, options)] for a positive [pid].  The model
    runs a child to its end at the fork, but the kernel may have seen
    it stopped on the way: when it reports the stop, the status is the
    stop status and the child stays a child that is still to be
    reported; else the termination of the child is reported. *)
Definition waitpid (pid : Z) (status : Z) (options : Z) : M Z :=
  fun st =>
    match find_pid pid (zombies st) with
    | Some n =>
        match nth_error (zombies st) n with
        | Some (p, w) =>
            match reported_stop st options p with
            | Some sig =>
                (Ret (W_STOPCODE sig), record (EvWait p (W_STOPCODE sig)) st)
            | None =>
                (Ret w, record (EvWait p w)
                               (set_zombies (remove_nth n (zombies st)) st))
            end
        | None => (Ret status, record (EvWait (-1) status) st)
        end
    | None => (Ret status, record (EvWait (-1) status) st)
    end.

(** [execvp(command, argv)]: returns only on failure. *)
Definition execvp (command : string) (argv : list string) : M Z :=
  fun st =>
    match sys_execvp P st command argv with
    | Some w => (Halt w, record (EvExec command argv true) st)
    | None => (Ret (-1), record (EvExec command argv false) st)
    end.

(** *** cmd.c *)

(** cmd.c:24-36. *)
Definition shell_cd (dir : option word_t) : M bool :=
  match dir with
  | None => ret false
  | Some d =>
      if negb (is_null (word_next_part d)) then ret false
      else
        rc <- chdir (word_string d) ;;
        if rc <? 0 then perror "cd" ;; ret false
        else ret true
  end.

(** cmd.c:41-45. *)
Definition shell_exit : M Z := ret (SHELL_EXIT P).

Definition strcmp_eq (a b : string) : bool := String.eqb a b.

(** The character [\n] of a C string literal. *)
Definition newline : string := String "010"%char EmptyString.

(** One turn of the loop of [open_files] (cmd.c:59-81).  [redir1] is
    the local [redir[1]], which the turn for [i = 0] may clear; the
    result is the updated [redir1] and the saved descriptor
    [outs_save[i]]. *)
Definition open_files_turn (s : simple_command_t) (i : nat)
  (redir1 : option word_t) : M (option word_t * Z) :=
  let redir_i :=
    match i with O => out s | 1%nat => redir1 | _ => in_ s end in
  let flags_i :=
    match i with
    | 2%nat => Z.lor O_CREAT O_RDONLY
    | _ => Z.lor O_CREAT O_WRONLY
    end in
  let outs_i :=
    match i with
    | O => STDOUT_FILENO
    | 1%nat => STDERR_FILENO
    | _ => STDIN_FILENO
    end in
  saved <- dup outs_i ;;
  match redir_i with
  | None => ret (redir1, saved)
  | Some _ =>
      e <- gets env ;;
      let file := get_word P e redir_i in
      r <-
        (if negb (is_null redir1) && Nat.eqb i 0
            && strcmp_eq (get_word P e (out s)) (get_word P e redir1)
         then
           fd0 <- open file (Z.lor (Z.lor (Z.lor O_CREAT O_WRONLY) O_APPEND) O_TRUNC) ;;
           dup2 fd0 STDERR_FILENO ;;
           ret (None, fd0)
         else if negb (io_flags s =? 0) || Nat.eqb i 2 then
           fd <- open file (Z.lor flags_i O_APPEND) ;;
           ret (redir1, fd)
         else
           fd <- open file (Z.lor flags_i O_TRUNC) ;;
           ret (redir1, fd)) ;;
      let '(redir1', fd) := r in
      DIE (fd <? 0) "open" ;;
      dup2 fd outs_i ;;
      close fd ;;
      ret (redir1', saved)
  end.

(** cmd.c:50-82; the result is the array [outs_save]. *)
Definition open_files (s : simple_command_t) : M (list Z) :=
  r0 <- open_files_turn s 0 (err s) ;;
  r1 <- open_files_turn s 1 (fst r0) ;;
  r2 <- open_files_turn s 2 (fst r1) ;;
  ret [snd r0; snd r1; snd r2].

(** cmd.c:87-96. *)
Definition fix_redirects (outs_save : list Z) : M unit :=
  let saved i := nth i outs_save (-1) in
  dup2 (saved 0%nat) STDOUT_FILENO ;; close (saved 0%nat) ;;
  dup2 (saved 1%nat) STDERR_FILENO ;; close (saved 1%nat) ;;
  dup2 (saved 2%nat) STDIN_FILENO ;; close (saved 2%nat).

(** cmd.c:149-165, the branch [child == 0]. *)
Definition external_child (s : simple_command_t) (command : string)
  : M Empty_set :=
  open_files s ;;
  e <- gets env ;;
  rc <- execvp command (get_argv P e s) ;;
  if rc <? 0 then
    fprintf_stderr
      (String.append "Execution failed for '"
                     (String.append command (String.append "'" newline))) ;;
    exit EXIT_FAILURE
  else exit EXIT_SUCCESS.

(** cmd.c:102-168. *)
Definition parse_simple (s : option simple_command_t) (level : Z)
  (father : option command_t) : M Z :=
  match s with
  | None => segfault
  | Some s =>
      match verb s with
      | None => ret (-1)
      | Some v =>
          e <- gets env ;;
          let command := get_word P e (verb s) in
          if strcmp_eq command "true" then ret 0
          else if strcmp_eq command "false" then ret (-1)
          else if strcmp_eq command "cd" then
            outs_save <- open_files s ;;
            ok <- shell_cd (params s) ;;
            fix_redirects outs_save ;;
            ret (if ok then 0 else 1)
          else if strcmp_eq command "exit" || strcmp_eq command "quit" then
            shell_exit
          else
            match word_next_part v with
            | Some np =>
                if strcmp_eq (word_string np) "=" then
                  let var := get_word P e (word_next_part np) in
                  setenv (word_string v) var
                else
                  child <- fork (external_child s command) ;;
                  DIE (child <? 0) "fork" ;;
                  status <- wait 0 ;;
                  ret (WEXITSTATUS status)
            | None =>
                child <- fork (external_child s command) ;;
                DIE (child <? 0) "fork" ;;
                status <- wait 0 ;;
                ret (WEXITSTATUS status)
            end
      end
  end.

(** The tail shared by the four child branches of [run_in_parallel] and
    [run_on_pipe] (cmd.c:184-187, 193-196, 230-233, 242-245). *)
Definition child_exit (run : M Z) : M Empty_set :=
  rc <- run ;;
  if rc <? 0 then exit EXIT_FAILURE else exit EXIT_SUCCESS.

(** cmd.c:199-204: the loop [while (i != 0)]. *)
Fixpoint wait_children (i : nat) (status : Z) : M bool :=
  match i with
  | O => ret true
  | S i' =>
      status' <- wait status ;;
      if negb (WIFEXITED status') then ret false
      else wait_children i' status'
  end.

(** cmd.c:173-208.  [cmd1] and [cmd2] are the calls
    [parse_command(cmd1, ., .)] and [parse_command(cmd2, ., .)]. *)
Definition run_in_parallel (cmd1 cmd2 : Z -> option command_t -> M Z)
  (level : Z) (father : option command_t) : M bool :=
  child1 <- fork (child_exit (cmd1 level father)) ;;
  DIE (child1 <? 0) "fork" ;;
  child2 <- fork (child_exit (cmd2 level father)) ;;
  DIE (child2 <? 0) "fork" ;;
  wait_children 2 0.

(** cmd.c:227-229 and cmd.c:239-241: what the two children of a pipe do
    with the pipe's ends [fd[0]] and [fd[1]] before they run their
    command. *)
Definition pipe_left_setup (fd0 fd1 : Z) : M unit :=
  dup2 fd1 STDOUT_FILENO ;; close fd0 ;; close fd1.

Definition pipe_right_setup (fd0 fd1 : Z) : M unit :=
  dup2 fd0 STDIN_FILENO ;; close fd0 ;; close fd1.

(** cmd.c:213-257. *)
Definition run_on_pipe (cmd1 cmd2 : Z -> option command_t -> M Z)
  (level : Z) (father : option command_t) : M bool :=
  p <- pipe ;;
  let '(rc, fd0, fd1) := p in
  DIE (rc <? 0) "pipe" ;;
  child1 <- fork (pipe_left_setup fd0 fd1 ;;
                  child_exit (cmd1 level father)) ;;
  DIE (child1 <? 0) "fork" ;;
  child2 <- fork (pipe_right_setup fd0 fd1 ;;
                  child_exit (cmd2 level father)) ;;
  DIE (child2 <? 0) "fork" ;;
  close fd0 ;;
  close fd1 ;;
  status <- waitpid child1 0 WSTOPPED ;;
  status <- waitpid child2 status WSTOPPED ;;
  if negb (WEXITSTATUS status =? 0) then ret false else ret true.

(** cmd.c:262-312.  [level++] passes the current value and increments
    the local afterwards, so the second call of a node that makes two
    gets [level + 1]. *)
Fixpoint parse_command (c : command_t) (level : Z) (father : option command_t)
  {struct c} : M Z :=
  match c with
  | Command op cmd1 cmd2 scmd =>
      let call1 :=
        match cmd1 with
        | Some a => parse_command a
        | None => fun _ _ => segfault
        end in
      let call2 :=
        match cmd2 with
        | Some b => parse_command b
        | None => fun _ _ => segfault
        end in
      if is_null cmd1 && is_null cmd2 && is_null scmd then ret (-1)
      else
        match op with
        | OP_NONE => parse_simple scmd level father
        | OP_SEQUENTIAL =>
            call1 level (Some c) ;;
            call2 (level + 1) (Some c) ;;
            ret (-1)
        | OP_PARALLEL =>
            ok <- run_in_parallel call1 call2 level (Some c) ;;
            ret (if ok then 0 else 1)
        | OP_CONDITIONAL_NZERO =>
            r <- call1 level (Some c) ;;
            (if negb (r =? 0) then call2 (level + 1) (Some c) ;; ret tt
             else ret tt) ;;
            ret (-1)
        | OP_CONDITIONAL_ZERO =>
            r <- call1 level (Some c) ;;
            (if r =? 0 then call2 (level + 1) (Some c) ;; ret tt
             else ret tt) ;;
            ret (-1)
        | OP_PIPE =>
            ok <- run_on_pipe call1 call2 level (Some c) ;;
            ret (if ok then 0 else 1)
        | OP_OTHER _ => ret (SHELL_EXIT P)
        end
  end.

End Shell.


(** ** A concrete platform and concrete trees, for the examples *)

Fixpoint word_text (w : word_t) : string :=
  match w with
  | Word s p _ =>
      String.append s (match p with Some w' => word_text w' | None => "" end)
  end.

Fixpoint word_list (w : word_t) : list string :=
  match w with
  | Word _ _ n =>
      word_text w :: match n with Some w' => word_list w' | None => [] end
  end.

Definition demo_get_word (e : list (string * string)) (w : option word_t)
  : string :=
  match w with Some w' => word_text w' | None => "" end.

Definition demo_get_argv (e : list (string * string)) (s : simple_command_t)
  : list string :=
  demo_get_word e (verb s)
  :: match params s with Some w => word_list w | None => [] end.

(** A host where chdir succeeds for [/tmp] only, every file but
    [/forbidden] can be opened, [ls] ends with code 0, [grep] with code
    1, [crash] is killed by SIGSEGV and nothing else can be loaded.
    [reap] is the kernel's choice at every plain wait. *)
Definition demo_platform (reap : nat) : platform :=
  {| SHELL_EXIT := -100;
     get_word := demo_get_word;
     get_argv := demo_get_argv;
     die_status := W_EXITCODE EXIT_FAILURE 0;
     sys_chdir := fun _ path =>
       if String.eqb path "/tmp" then Some "/tmp" else None;
     sys_open_ok := fun _ path _ => negb (String.eqb path "/forbidden");
     sys_fork_ok := fun _ => true;
     sys_pipe_ok := fun _ => true;
     sys_execvp := fun _ command _ =>
       if String.eqb command "ls" then Some (W_EXITCODE 0 0)
       else if String.eqb command "grep" then Some (W_EXITCODE 1 0)
       else if String.eqb command "crash" then Some SIGSEGV
       else None;
     sys_reap := fun _ => reap;
     sys_stopped := fun _ _ => None |}.

Definition demo_state : state :=
  {| log := [];
     next_pid := 101;
     self := 100;
     cwd := "/home";
     env := [];
     fdt := [Some (Inherited "stdin"); Some (Inherited "stdout");
             Some (Inherited "stderr")];
     zombies := [] |}.

Definition word (s : string) : word_t := Word s None None.

Definition simple (v : string) (args : option word_t) : simple_command_t :=
  {| verb := Some (word v); params := args; in_ := None; out := None;
     err := None; io_flags := 0 |}.

Definition leaf (s : simple_command_t) : command_t :=
  Command OP_NONE None None (Some s).

Definition node (o : operator_t) (a b : command_t) : command_t :=
  Command o (Some a) (Some b) None.

Definition cmd_true : command_t := leaf (simple "true" None).
Definition cmd_false : command_t := leaf (simple "false" None).
Definition cmd_cd (args : option word_t) : command_t := leaf (simple "cd" args).
Definition cmd_ext (v : string) : command_t := leaf (simple v None).

(** ** Vocabulary of the properties *)

(** The invariant of the data model: a node is a leaf (no operator, a
    simple command, no children) or one of the five operators over two
    well-formed children. *)
Definition is_operator (o : operator_t) : bool :=
  match o with
  | OP_SEQUENTIAL | OP_PARALLEL | OP_CONDITIONAL_ZERO
  | OP_CONDITIONAL_NZERO | OP_PIPE => true
  | OP_NONE | OP_OTHER _ => false
  end.

Inductive well_formed : command_t -> Prop :=
  | wf_leaf : forall s, well_formed (Command OP_NONE None None (Some s))
  | wf_node : forall o a b,
      is_operator o = true -> well_formed a -> well_formed b ->
      well_formed (Command o (Some a) (Some b) None).

(** Pids are handed out upwards from [next_pid]: a state is [sane] when
    the counter is not negative and every unreported child was created
    before. *)
Definition sane (st : state) : Prop :=
  0 <= next_pid st /\ Forall (fun z => fst z < next_pid st) (zombies st).

(** A host on which none of the three fatal conditions ever arises. *)
Definition never_fatal (P : platform) : Prop :=
  (forall st, sys_fork_ok P st = true) /\
  (forall st, sys_pipe_ok P st = true) /\
  (forall st path flags, sys_open_ok P st path flags = true).

(** The exit code chosen by the child branches of PARALLEL and PIPE for
    the status [rc] of their subtree (exit(EXIT_FAILURE) when negative). *)
Definition child_code (rc : Z) : Z :=
  if rc <? 0 then EXIT_FAILURE else EXIT_SUCCESS.

(** The wait status with which such a child ends, from the outcome of
    its subtree. *)
Definition child_wstatus (r : res Z) : Z :=
  match r with
  | Ret rc => W_EXITCODE (Z.land (child_code rc) 255) 0
  | Halt w => w
  end.

(** The wait status a waitpid stores for a child whose termination
    status is [w]: the stop status when a stop of the child is
    reported, else [w]. *)
Definition reported_status (stop : option Z) (w : Z) : Z :=
  match stop with
  | Some sig => W_STOPCODE sig
  | None => w
  end.

(** The state in which such a child ends, from the outcome of its
    subtree and the state the subtree left. *)
Definition child_end (r : res Z) (st : state) : state :=
  match r with
  | Ret rc => record (EvExit (child_code rc)) st
  | Halt _ => st
  end.

(** The two ways in which cd fails: [shell_cd] refuses its argument
    list (no argument, or an argument word with a further part), or
    chdir is tried, in the state the redirection setup leaves, and
    fails. *)
Definition cd_bad_arguments (s : simple_command_t) : bool :=
  match params s with
  | None => true
  | Some d => negb (is_null (word_next_part d))
  end.

Definition cd_chdir_refused (P : platform) (s : simple_command_t) (st : state)
  : bool :=
  match params s with
  | None => false
  | Some d =>
      is_null (word_next_part d)
      && is_null (sys_chdir P (snd (open_files P s st)) (word_string d))
  end.

(** Whether the kernel reports the younger of two waiting children
    first, and the waits the loop of [run_in_parallel] then makes over
    the children [z1] (older) and [z2] (younger), oldest event first:
    the second wait is made only after a normal exit. *)
Definition reap_second (P : platform) (st : state) : bool :=
  Nat.eqb (sys_reap P st mod 2) 1.

Definition observed_waits (second_first : bool) (z1 z2 : Z * Z) : list event :=
  let x := if second_first then z2 else z1 in
  let y := if second_first then z1 else z2 in
  EvWait (fst x) (snd x)
  :: (if WIFEXITED (snd x) then [EvWait (fst y) (snd y)] else []).

(** The flags of the single open of a combined redirection
    (cmd.c:67). *)
Definition combined_flags : Z :=
  Z.lor (Z.lor (Z.lor O_CREAT O_WRONLY) O_APPEND) O_TRUNC.

(** ** Predicates over computations *)

(** The events added between [st] and a later state [st'], newest
    first. *)
Definition new_events (st st' : state) : list (Z * event) :=
  firstn (List.length (log st') - List.length (log st)) (log st').

(** The events that write a diagnostic to the standard error stream. *)
Definition is_diagnostic (e : event) : bool :=
  match e with
  | EvPerror _ | EvStderr _ | EvDie _ => true
  | _ => false
  end.

(** What the redirection code does to the process: it never moves the
    working directory, keeps pid, environment and children, and either
    returns having added no diagnostic or ends the process through
    [DIE]. *)
Definition same_process (st st' : state) : Prop :=
  cwd st' = cwd st /\ self st' = self st /\ env st' = env st /\
  next_pid st' = next_pid st /\ zombies st' = zombies st.

Definition fd_spec (P : platform) {A : Type} (m : M A) : Prop :=
  forall st r st',
    m st = (r, st') ->
    same_process st st' /\
    match r with
    | Ret _ =>
        exists d, log st' = d ++ log st /\
                  Forall (fun x => is_diagnostic (snd x) = false) d
    | Halt w => w = die_status P
    end.

(** Whatever a computation does, and however it ends, the pid counter
    does not go back. *)
Definition grows {A : Type} (m : M A) : Prop :=
  forall st r st', m st = (r, st') -> next_pid st <= next_pid st'.

(** Every event a computation adds satisfies [Q], however it ends. *)
Definition adds (Q : event -> Prop) {A : Type} (m : M A) : Prop :=
  forall st r st',
    m st = (r, st') ->
    exists d, log st' = d ++ log st /\ Forall (fun x => Q (snd x)) d.

(** An event other than an open for writing: the only opens allowed are
    those of the stdin redirection, create, read-only, append. *)
Definition not_a_writing_open (e : event) : Prop :=
  match e with
  | EvOpen _ flags _ => flags = Z.lor (Z.lor O_CREAT O_RDONLY) O_APPEND
  | _ => True
  end.

(** A computation that ends the running process only through [DIE]. *)
Definition dies_only (P : platform) {A : Type} (m : M A) : Prop :=
  forall st w st', m st = (Halt w, st') -> w = die_status P.

(** On a host without fatal conditions a computation returns, with a
    result that satisfies [Q]; the pid counter is carried along because
    the guard after a fork looks at the sign of the new pid. *)
Definition returns {A : Type} (Q : A -> Prop) (m : M A) : Prop :=
  forall st,
    0 <= next_pid st ->
    exists a st', m st = (Ret a, st') /\ 0 <= next_pid st' /\ Q a.

(** No constraint on the result. *)
Definition any {A : Type} (a : A) : Prop := True.

(** [Q] holds of the command behind a pointer that is not null. *)
Definition opt_all {A : Type} (Q : A -> Prop) (o : option A) : Prop :=
  match o with
  | Some a => Q a
  | None => True
  end.

(** ** The sentences of the specification that the code does not follow *)

(** "Leaf [true] -> status 0.  Leaf [false] -> status 1", no process
    created. *)
Definition spec_boolean_literals (P : platform) : Prop :=
  forall s v cmd1 cmd2 level father st,
    verb s = Some v ->
    (get_word P (env st) (Some v) = "true" ->
     parse_command P (Command OP_NONE cmd1 cmd2 (Some s)) level father st
     = (Ret 0, st)) /\
    (get_word P (env st) (Some v) = "false" ->
     parse_command P (Command OP_NONE cmd1 cmd2 (Some s)) level father st
     = (Ret 1, st)).

(** "PIPE(A, B) returned status equals B's own status", B being run on
    the input the pipe gives it. *)
Definition spec_pipe_status (P : platform) : Prop :=
  forall A B scmd level father st fd0 fd1 st0 pid1 st1 b stB,
    let c := Command OP_PIPE (Some A) (Some B) scmd in
    sane st ->
    pipe P st = (Ret (0, fd0, fd1), st0) ->
    sys_fork_ok P st0 = true ->
    fork P (pipe_left_setup fd0 fd1 ;;
            child_exit (parse_command P A level (Some c))) st0
    = (Ret pid1, st1) ->
    sys_fork_ok P st1 = true ->
    (pipe_right_setup fd0 fd1 ;; parse_command P B level (Some c)) (spawn st1)
    = (Ret b, stB) ->
    fst (parse_command P c level father st) = Ret b.

(** "cd fails whenever zero or more than one argument is supplied, or
    the directory change fails; on every failure a diagnostic is
    emitted and the working directory is left unchanged". *)
Definition spec_cd_failure (P : platform) : Prop :=
  forall s v level father st r st',
    verb s = Some v ->
    get_word P (env st) (Some v) = "cd" ->
    (params s = None \/
     (exists d, params s = Some d /\ word_next_word d <> None) \/
     cd_chdir_refused P s st = true) ->
    parse_simple P (Some s) level father st = (r, st') ->
    (exists n, r = Ret n /\ n <> 0) /\
    existsb (fun x => is_diagnostic (snd x)) (new_events st st') = true /\
    cwd st' = cwd st.

(** "For all trees T, run(T) terminates and returns an integer". *)
Definition spec_always_returns (P : platform) : Prop :=
  forall c level father st,
    well_formed c ->
    exists v st', parse_command P c level father st = (Ret v, st').


(** ** Concrete commands and states of the examples *)

(** The host of the examples, with a kernel that reports the older
    child first. *)
Definition D : platform := demo_platform 0.

(** The same host with a kernel that reports the younger child
    first. *)
Definition D1 : platform := demo_platform 1.

Definition cd_tmp : command_t := cmd_cd (Some (word "/tmp")).

Definition seq_false_cd : command_t := node OP_SEQUENTIAL cmd_false cd_tmp.

Definition or_true_cd : command_t := node OP_CONDITIONAL_NZERO cmd_true cd_tmp.

Definition or_false_cd : command_t := node OP_CONDITIONAL_NZERO cmd_false cd_tmp.

Definition pipe_true_cd : command_t := node OP_PIPE cmd_true (cmd_cd None).

Definition par_false_true : command_t := node OP_PARALLEL cmd_false cmd_true.

Definition par_true_true : command_t := node OP_PARALLEL cmd_true cmd_true.

(** [cmd > f 2> f] for the verb [cmd]. *)
Definition both_to (v path : string) : simple_command_t :=
  {| verb := Some (word v); params := None; in_ := None;
     out := Some (word path); err := Some (word path); io_flags := 0 |}.

(** [cd /tmp > /forbidden]. *)
Definition cd_forbidden : command_t :=
  leaf {| verb := Some (word "cd"); params := Some (word "/tmp");
          in_ := None; out := Some (word "/forbidden"); err := None;
          io_flags := 0 |}.

(** [true &] with a null right-hand pointer, and the assignment
    [VAR=hello]. *)
Definition par_true_null : command_t :=
  Command OP_PARALLEL (Some cmd_true) None None.

Definition assign_var : command_t :=
  leaf {| verb := Some (Word "VAR" (Some (Word "=" (Some (word "hello")) None))
                             None);
          params := None; in_ := None; out := None; err := None;
          io_flags := 0 |}.

(** [cd /nonexistent] and plain [cd]. *)
Definition cd_nonexistent : simple_command_t :=
  simple "cd" (Some (word "/nonexistent")).

Definition cd_alone : simple_command_t := simple "cd" None.

(** The state in which the second call of a node leaves [demo_state]
    when that call is [cd /tmp]. *)
Definition after_cd_tmp (father : command_t) : state :=
  snd (parse_command D cd_tmp 1 (Some father) demo_state).

(** The state in which a simple command leaves [demo_state]. *)
Definition after_simple (s : simple_command_t) : state :=
  snd (parse_simple D (Some s) 0 None demo_state).

(** The states of the run of [true | cd]: after pipe(), and after the
    left child. *)
Definition pipe_st0 : state := snd (pipe D demo_state).

Definition pipe_st1 : state :=
  snd (fork D (pipe_left_setup 3 4 ;;
               child_exit (parse_command D cmd_true 0 (Some pipe_true_cd)))
            pipe_st0).

Definition pipe_stB : state :=
  snd ((pipe_right_setup 3 4 ;;
        parse_command D (cmd_cd None) 0 (Some pipe_true_cd)) (spawn pipe_st1)).

(** The states of the runs of [false & true] and [true & true]: after
    the first child and after the second. *)
Definition par_st1 (P : platform) (c a : command_t) : state :=
  snd (fork P (child_exit (parse_command P a 0 (Some c))) demo_state).

Definition par_st2 (P : platform) (c a b : command_t) : state :=
  snd (fork P (child_exit (parse_command P b 0 (Some c))) (par_st1 P c a)).

(** ** Vocabulary of the further properties *)

(** The verbs [parse_simple] handles itself (cmd.c:113-131). *)
Definition is_builtin_word (command : string) : bool :=
  String.eqb command "true" || String.eqb command "false"
  || String.eqb command "cd" || String.eqb command "exit"
  || String.eqb command "quit".

(** The test of cmd.c:135: the verb has a second part that reads [=]. *)
Definition is_assignment (v : word_t) : bool :=
  match word_next_part v with
  | Some np => String.eqb (word_string np) "="
  | None => false
  end.

(** Every value a computation returns satisfies [Q]. *)
Definition yields {A : Type} (Q : A -> Prop) (m : M A) : Prop :=
  forall st a st', m st = (Ret a, st') -> Q a.

(** A computation that leaves the working directory and the
    environment of the running process as they were, however it
    ends. *)
Definition keeps_home {A : Type} (m : M A) : Prop :=
  forall st r st', m st = (r, st') -> cwd st' = cwd st /\ env st' = env st.

(** Two descriptor tables with the same descriptors. *)
Definition same_fds (t t' : fd_table) : Prop :=
  forall fd, fd_get t fd = fd_get t' fd.

(** The three standard descriptors are open. *)
Definition std_open (t : fd_table) : Prop :=
  fd_get t STDIN_FILENO <> None /\ fd_get t STDOUT_FILENO <> None /\
  fd_get t STDERR_FILENO <> None.

(** The flags of an open contain the bits of [flag]. *)
Definition has_flag (flags flag : Z) : bool :=
  Z.land flags flag =? flag.

(** The range of the statuses [parse_command] returns. *)
Definition status_in_range (P : platform) (v : Z) : Prop :=
  v = SHELL_EXIT P \/ -1 <= v <= 255.

(** [true && cd /tmp] and [false && cd /tmp]. *)
Definition and_true_cd : command_t := node OP_CONDITIONAL_ZERO cmd_true cd_tmp.

Definition and_false_cd : command_t := node OP_CONDITIONAL_ZERO cmd_false cd_tmp.

(** A computation that always returns to its caller. *)
Definition never_halts {A : Type} (m : M A) : Prop :=
  forall st w st', m st <> (Halt w, st').

(** [grep] run as a command of its own, and [crash]. *)
Definition simple_grep : simple_command_t := simple "grep" None.

Definition simple_crash : simple_command_t := simple "crash" None.

Definition simple_nothing : simple_command_t := simple "nothing" None.

(** [VAR=hello] as a simple command. *)
Definition simple_assign : simple_command_t :=
  {| verb := Some (Word "VAR" (Some (Word "=" (Some (word "hello")) None))
                        None);
     params := None; in_ := None; out := None; err := None;
     io_flags := 0 |}.

(** A computation whose returns leave the descriptor table of the
    running process as it was. *)
Definition keeps_fdt {A : Type} (m : M A) : Prop :=
  forall st a st', m st = (Ret a, st') -> fdt st' = fdt st.

(** What [open_files] may pass to open: always create; with [appending]
    also append, and truncate only in the combined open. *)
Definition open_flags_ok (appending : bool) (e : event) : Prop :=
  match e with
  | EvOpen _ flags _ =>
      has_flag flags O_CREAT = true /\
      (appending = true ->
       has_flag flags O_APPEND = true /\
       (has_flag flags O_TRUNC = true -> flags = combined_flags))
  | _ => True
  end.

(** [cd /tmp & true]. *)
Definition par_cd_true : command_t := node OP_PARALLEL cd_tmp cmd_true.

(** [ls >> f 2> g]: the only append mark is on stdout. *)
Definition ls_append : simple_command_t :=
  {| verb := Some (word "ls"); params := None; in_ := None;
     out := Some (word "f"); err := Some (word "g"); io_flags := 1 |}.

(** The children the loop of [run_in_parallel] leaves unreported, from
    the two that were waiting: none after a first normal exit, else the
    one the first wait did not report. *)
Definition left_unreported (second_first : bool) (z1 z2 : Z * Z)
  : list (Z * Z) :=
  let x := if second_first then z2 else z1 in
  let y := if second_first then z1 else z2 in
  if WIFEXITED (snd x) then [] else [y].

(** A node that runs [true] and then follows a null pointer, and
    [broken & true]. *)
Definition broken : command_t :=
  Command OP_SEQUENTIAL (Some cmd_true) None None.

Definition par_broken_true : command_t := node OP_PARALLEL broken cmd_true.

(** The test of cmd.c:66 for the turn of stdout: both redirections are
    present and read the same path. *)
Definition is_combined (P : platform) (s : simple_command_t)
  (e : list (string * string)) : bool :=
  negb (is_null (out s)) && negb (is_null (err s))
  && String.eqb (get_word P e (out s)) (get_word P e (err s)).

(** The standard descriptor of turn [i] of [open_files]
    (the array [outs], cmd.c:57). *)
Definition outs (i : nat) : Z :=
  match i with
  | O => STDOUT_FILENO
  | 1%nat => STDERR_FILENO
  | _ => STDIN_FILENO
  end.

(** [cd /tmp > f 2> g] and [cd /tmp > f 2> f]. *)
Definition cd_two_files : simple_command_t :=
  {| verb := Some (word "cd"); params := Some (word "/tmp"); in_ := None;
     out := Some (word "f"); err := Some (word "g"); io_flags := 0 |}.

Definition cd_one_file : simple_command_t :=
  {| verb := Some (word "cd"); params := Some (word "/tmp"); in_ := None;
     out := Some (word "f"); err := Some (word "f"); io_flags := 0 |}.

(** A host that can neither fork nor make a pipe. *)
Definition exhausted : platform :=
  {| SHELL_EXIT := -100;
     get_word := demo_get_word;
     get_argv := demo_get_argv;
     die_status := W_EXITCODE EXIT_FAILURE 0;
     sys_chdir := sys_chdir D;
     sys_open_ok := sys_open_ok D;
     sys_fork_ok := fun _ => false;
     sys_pipe_ok := fun _ => false;
     sys_execvp := sys_execvp D;
     sys_reap := sys_reap D;
     sys_stopped := sys_stopped D |}.

(** [true | false] and [true | true], and the states of the run of a
    pipe [c = a | b] from [demo_state]: after the first child, in which
    the right-hand side ends, after the second child, and when the
    second waitpid is made. *)
Definition pipe_true_false : command_t := node OP_PIPE cmd_true cmd_false.

Definition pipe_true_true : command_t := node OP_PIPE cmd_true cmd_true.

Definition pipe_run1 (P : platform) (c a : command_t) : state :=
  snd (fork P (pipe_left_setup 3 4 ;;
               child_exit (parse_command P a 0 (Some c)))
            (snd (pipe P demo_state))).

Definition pipe_runB (P : platform) (c a b : command_t) : state :=
  snd ((pipe_right_setup 3 4 ;; parse_command P b 0 (Some c))
         (spawn (pipe_run1 P c a))).

Definition pipe_run2 (P : platform) (c a b : command_t) : state :=
  snd (fork P (pipe_right_setup 3 4 ;;
               child_exit (parse_command P b 0 (Some c)))
            (pipe_run1 P c a)).

Definition pipe_run3 (P : platform) (c a b : command_t) : state :=
  snd ((close 3 ;; close 4 ;; waitpid P 101 0 WSTOPPED) (pipe_run2 P c a b)).

(** A host on which the kernel reports child 102 stopped by SIGSTOP. *)
Definition SIGSTOP : Z := 19.

Definition stopping : platform :=
  {| SHELL_EXIT := -100;
     get_word := demo_get_word;
     get_argv := demo_get_argv;
     die_status := W_EXITCODE EXIT_FAILURE 0;
     sys_chdir := sys_chdir D;
     sys_open_ok := sys_open_ok D;
     sys_fork_ok := sys_fork_ok D;
     sys_pipe_ok := sys_pipe_ok D;
     sys_execvp := sys_execvp D;
     sys_reap := sys_reap D;
     sys_stopped := fun _ pid => if pid =? 102 then Some SIGSTOP else None |}.

(** * Properties *)

(** ** Basic equations of the monad *)

Lemma bind_ret_eq {A B : Type} (m : M A) (k : A -> M B) st a st1 :
  m st = (Ret a, st1) -> bind m k st = k a st1.
Proof. intros H. unfold bind. now rewrite H. Qed.

Lemma bind_halt_eq {A B : Type} (m : M A) (k : A -> M B) st w st1 :
  m st = (Halt w, st1) -> bind m k st = (Halt w, st1).
Proof. intros H. unfold bind. now rewrite H. Qed.

Lemma bind_inv {A B : Type} (m : M A) (k : A -> M B) st r st' :
  bind m k st = (r, st') ->
  (exists a st1, m st = (Ret a, st1) /\ k a st1 = (r, st')) \/
  (exists w, m st = (Halt w, st') /\ r = Halt w).
Proof.
  unfold bind. destruct (m st) as [[a | w] st1]; intros H.
  - left. now exists a, st1.
  - right. exists w. now inversion H.
Qed.

(** ** Sequences and conditionals *)

Section Control.

Variable P : platform.

(** C1.  A SEQUENTIAL node runs its left child, then its right child in
    the state the left one leaves, whatever status [a] the left child
    returned; the node itself returns -1 whatever status [b] the right
    child returned (cmd.c:274-278 leaves the switch and reaches the
    final [return -1]). *)
Theorem sequential_runs_both_returns_minus_one :
  forall A B scmd level father st a st1 b st2,
    let c := Command OP_SEQUENTIAL (Some A) (Some B) scmd in
    parse_command P A level (Some c) st = (Ret a, st1) ->
    parse_command P B (level + 1) (Some c) st1 = (Ret b, st2) ->
    parse_command P c level father st = (Ret (-1), st2).
Proof.
  intros A B scmd level father st a st1 b st2 c HA HB.
  subst c. cbn [parse_command is_null andb].
  rewrite (bind_ret_eq _ _ _ _ _ HA).
  rewrite (bind_ret_eq _ _ _ _ _ HB).
  reflexivity.
Qed.

(** C2.  A COND_NONZERO node runs its left child; after status 0 the
    right child is not run (the node ends in the state the left child
    left) and after a nonzero status it is run; in both cases the node
    returns -1 (cmd.c:284-290, then the final [return -1]). *)
Theorem cond_nonzero_runs_right_on_failure_returns_minus_one :
  forall A B scmd level father st,
    let c := Command OP_CONDITIONAL_NZERO (Some A) (Some B) scmd in
    (forall st1,
        parse_command P A level (Some c) st = (Ret 0, st1) ->
        parse_command P c level father st = (Ret (-1), st1)) /\
    (forall a st1 b st2,
        a <> 0 ->
        parse_command P A level (Some c) st = (Ret a, st1) ->
        parse_command P B (level + 1) (Some c) st1 = (Ret b, st2) ->
        parse_command P c level father st = (Ret (-1), st2)).
Proof.
  intros A B scmd level father st c. subst c. split.
  - intros st1 HA. cbn [parse_command is_null andb].
    rewrite (bind_ret_eq _ _ _ _ _ HA). reflexivity.
  - intros a st1 b st2 Ha HA HB. cbn [parse_command is_null andb].
    rewrite (bind_ret_eq _ _ _ _ _ HA).
    apply Z.eqb_neq in Ha. rewrite Ha. cbn [negb].
    unfold bind at 1. unfold bind at 1.
    rewrite HB. reflexivity.
Qed.

(** A COND_ZERO node runs its right subtree only after the left one
    returned 0, from the state the left one left, and skips it after
    any other status; in both cases the node returns -1, not the status
    of a subtree (cmd.c:292-298, 310-311). *)
Lemma cond_zero_runs_right_on_success :
  forall A B scmd level father st,
    let c := Command OP_CONDITIONAL_ZERO (Some A) (Some B) scmd in
    (forall a st1,
        a <> 0 ->
        parse_command P A level (Some c) st = (Ret a, st1) ->
        parse_command P c level father st = (Ret (-1), st1)) /\
    (forall st1 b st2,
        parse_command P A level (Some c) st = (Ret 0, st1) ->
        parse_command P B (level + 1) (Some c) st1 = (Ret b, st2) ->
        parse_command P c level father st = (Ret (-1), st2)).
Proof.
  intros A B scmd level father st c. subst c. split.
  - intros a st1 Ha HA. cbn [parse_command is_null andb].
    rewrite (bind_ret_eq _ _ _ _ _ HA).
    apply Z.eqb_neq in Ha. rewrite Ha. reflexivity.
  - intros st1 b st2 HA HB. cbn [parse_command is_null andb].
    rewrite (bind_ret_eq _ _ _ _ _ HA). cbn [Z.eqb].
    unfold bind at 1. unfold bind at 1.
    rewrite HB. reflexivity.
Qed.

(** C10.  A node that is not empty and whose operator is none of the
    six tags makes [parse_command] return [SHELL_EXIT] at once, without
    any effect (cmd.c:306-307). *)
Theorem unknown_operator_returns_shell_exit :
  forall tag cmd1 cmd2 scmd level father st,
    is_null cmd1 && is_null cmd2 && is_null scmd = false ->
    parse_command P (Command (OP_OTHER tag) cmd1 cmd2 scmd) level father st
    = (Ret (SHELL_EXIT P), st).
Proof.
  intros tag cmd1 cmd2 scmd level father st Hne.
  cbn [parse_command]. rewrite Hne. reflexivity.
Qed.

(** An empty node is refused before its operator is looked at
    (cmd.c:265-266). *)
Lemma empty_node_returns_minus_one :
  forall o level father st,
    parse_command P (Command o None None None) level father st = (Ret (-1), st).
Proof. intros. reflexivity. Qed.

End Control.

(** ** Events added by a computation *)

Lemma new_events_app st st' d :
  log st' = d ++ log st -> new_events st st' = d.
Proof.
  intros H. unfold new_events. rewrite H, length_app.
  replace (List.length d + List.length (log st) - List.length (log st))%nat
    with (List.length d + 0)%nat by lia.
  rewrite firstn_app_2. cbn. apply app_nil_r.
Qed.

Lemma new_events_refl st : new_events st st = [].
Proof. apply new_events_app. reflexivity. Qed.

(** ** The builtins: true, false and cd *)

Section Builtins.

Variable P : platform.

Lemma same_process_refl st : same_process st st.
Proof. repeat split. Qed.

Lemma same_process_trans st1 st2 st3 :
  same_process st1 st2 -> same_process st2 st3 -> same_process st1 st3.
Proof.
  unfold same_process. intros (? & ? & ? & ? & ?) (? & ? & ? & ? & ?).
  repeat split; congruence.
Qed.

Lemma fd_spec_ret {A : Type} (a : A) : fd_spec P (ret a).
Proof.
  intros st r st' H. inversion H; subst. split.
  - apply same_process_refl.
  - exists []. split; [reflexivity | constructor].
Qed.

Lemma fd_spec_bind {A B : Type} (m : M A) (k : A -> M B) :
  fd_spec P m -> (forall a, fd_spec P (k a)) -> fd_spec P (bind m k).
Proof.
  intros Hm Hk st r st' H.
  apply bind_inv in H as [(a & st1 & H1 & H2) | (w & H1 & ->)].
  - apply Hm in H1 as (S1 & d1 & L1 & F1).
    apply Hk in H2 as (S2 & R2).
    split; [eapply same_process_trans; eassumption |].
    destruct r as [b | w]; [| exact R2].
    destruct R2 as (d2 & L2 & F2).
    exists (d2 ++ d1). split.
    + rewrite L2, L1. apply app_assoc.
    + apply Forall_app. now split.
  - apply Hm in H1. exact H1.
Qed.

Ltac fd_spec_call :=
  let H := fresh "H" in
  intros ? ? ? H;
  repeat match type of H with
         | context [match ?x with _ => _ end] => destruct x
         end;
  inversion H; subst; (split; [repeat split |]);
  eexists (cons _ nil); (split; [reflexivity |]);
  (constructor; [reflexivity | constructor]).

Lemma fd_spec_dup fd : fd_spec P (dup fd).
Proof. unfold dup. fd_spec_call. Qed.

Lemma fd_spec_dup2 a b : fd_spec P (dup2 a b).
Proof. unfold dup2. fd_spec_call. Qed.

Lemma fd_spec_close fd : fd_spec P (close fd).
Proof. unfold close. fd_spec_call. Qed.

Lemma fd_spec_open path flags : fd_spec P (open P path flags).
Proof. unfold open. fd_spec_call. Qed.

Lemma fd_spec_gets {A : Type} (f : state -> A) : fd_spec P (gets f).
Proof.
  intros st r st' H. inversion H; subst. split.
  - apply same_process_refl.
  - exists []. split; [reflexivity | constructor].
Qed.

Lemma fd_spec_DIE b what : fd_spec P (DIE P b what).
Proof.
  unfold DIE. destruct b; [| apply fd_spec_ret].
  intros st r st' H. cbv in H. inversion H; subst. cbn. repeat split.
Qed.

Lemma fd_spec_open_files_turn s i redir1 :
  fd_spec P (open_files_turn P s i redir1).
Proof.
  unfold open_files_turn.
  apply fd_spec_bind; [apply fd_spec_dup | intros saved].
  destruct (match i with O => out s | 1%nat => redir1 | _ => in_ s end);
    [| apply fd_spec_ret].
  apply fd_spec_bind; [apply fd_spec_gets | intros e].
  apply fd_spec_bind.
  - repeat match goal with
           | |- fd_spec P (if ?b then _ else _) => destruct b
           | |- fd_spec P (bind _ _) => apply fd_spec_bind; [| intros ?]
           | |- fd_spec P (open _ _ _) => apply fd_spec_open
           | |- fd_spec P (dup2 _ _) => apply fd_spec_dup2
           | |- fd_spec P (ret _) => apply fd_spec_ret
           end.
  - intros [redir1' fd].
    repeat match goal with
           | |- fd_spec P (bind _ _) => apply fd_spec_bind; [| intros ?]
           | |- fd_spec P (DIE _ _ _) => apply fd_spec_DIE
           | |- fd_spec P (dup2 _ _) => apply fd_spec_dup2
           | |- fd_spec P (close _) => apply fd_spec_close
           | |- fd_spec P (ret _) => apply fd_spec_ret
           end.
Qed.

Lemma fd_spec_open_files s : fd_spec P (open_files P s).
Proof.
  unfold open_files.
  repeat (apply fd_spec_bind; [apply fd_spec_open_files_turn | intros ?]).
  apply fd_spec_ret.
Qed.

Lemma fd_spec_fix_redirects outs_save : fd_spec P (fix_redirects outs_save).
Proof.
  unfold fix_redirects.
  repeat match goal with
         | |- fd_spec P (bind _ _) => apply fd_spec_bind; [| intros ?]
         | |- fd_spec P (dup2 _ _) => apply fd_spec_dup2
         | |- fd_spec P (close _) => apply fd_spec_close
         end.
Qed.

(** What [parse_simple] does for a verb that reads [cd]
    (cmd.c:122-127). *)
Lemma parse_simple_cd s v level father st :
  verb s = Some v ->
  get_word P (env st) (Some v) = "cd" ->
  parse_simple P (Some s) level father st
  = (outs_save <- open_files P s ;;
     ok <- shell_cd P (params s) ;;
     fix_redirects outs_save ;;
     ret (if ok then 0 else 1)) st.
Proof.
  intros Hv Hc. unfold parse_simple. rewrite Hv.
  unfold bind at 1. unfold gets at 1. cbv beta iota.
  rewrite Hc. reflexivity.
Qed.

(** C5.  A leaf whose verb reads [true] returns 0 and a leaf whose verb
    reads [false] returns -1; in both cases the state is left as it
    was: no event, hence no process, no descriptor and no directory
    change (cmd.c:113-119). *)
Theorem true_returns_zero_false_returns_minus_one :
  forall s v cmd1 cmd2 level father st,
    verb s = Some v ->
    (get_word P (env st) (Some v) = "true" ->
     parse_command P (Command OP_NONE cmd1 cmd2 (Some s)) level father st
     = (Ret 0, st)) /\
    (get_word P (env st) (Some v) = "false" ->
     parse_command P (Command OP_NONE cmd1 cmd2 (Some s)) level father st
     = (Ret (-1), st)).
Proof.
  intros s v cmd1 cmd2 level father st Hv.
  assert (Hn : is_null cmd1 && is_null cmd2 && is_null (Some s) = false)
    by (destruct cmd1, cmd2; reflexivity).
  split; intros Hc; cbn [parse_command]; rewrite Hn;
    unfold parse_simple; rewrite Hv; unfold bind, gets;
    rewrite Hc; reflexivity.
Qed.

(** [shell_cd] with a missing argument or an argument made of several
    parts: refused without any effect (cmd.c:27-28). *)
Lemma shell_cd_bad_arguments s st :
  cd_bad_arguments s = true ->
  shell_cd P (params s) st = (Ret false, st).
Proof.
  unfold cd_bad_arguments, shell_cd. destruct (params s) as [d |].
  - intros ->. reflexivity.
  - reflexivity.
Qed.

(** [shell_cd] when chdir fails: perror, and the directory stays
    (cmd.c:29-34). *)
Lemma shell_cd_chdir_fails d st :
  word_next_part d = None ->
  sys_chdir P st (word_string d) = None ->
  shell_cd P (Some d) st
  = (Ret false,
     record (EvPerror "cd") (record (EvChdir (word_string d) (-1)) st)).
Proof.
  intros Hp Hc. unfold shell_cd. rewrite Hp. cbn [is_null negb].
  unfold bind, chdir. rewrite Hc. reflexivity.
Qed.

(** C6.  The cd builtin returns 1 when it is given no argument or an
    argument made of several parts, and when chdir fails, unless the
    redirections could not be opened (then [DIE] ends the process); in
    all these cases the working directory is left as it was.  The
    diagnostic [perror("cd")] is emitted when chdir itself fails; a
    refusal of the arguments emits no diagnostic at all. *)
Theorem cd_failure_status_directory_diagnostic :
  forall s v level father st r st',
    verb s = Some v ->
    get_word P (env st) (Some v) = "cd" ->
    cd_bad_arguments s || cd_chdir_refused P s st = true ->
    parse_simple P (Some s) level father st = (r, st') ->
    cwd st' = cwd st /\
    (r = Ret 1 \/ r = Halt (die_status P)) /\
    (r = Ret 1 -> cd_bad_arguments s = true ->
     existsb (fun x => is_diagnostic (snd x)) (new_events st st') = false) /\
    (r = Ret 1 -> cd_bad_arguments s = false ->
     In (self st, EvPerror "cd") (new_events st st')).
Proof.
  intros s v level father st r st' Hv Hc Hfail H.
  rewrite (parse_simple_cd _ _ _ _ _ Hv Hc) in H.
  apply bind_inv in H as [(saved & st1 & Hopen & H) | (w & Hopen & ->)].
  2:{ apply fd_spec_open_files in Hopen as ((C & _) & ->).
      repeat split; auto; discriminate. }
  assert (Hst1 : snd (open_files P s st) = st1) by now rewrite Hopen.
  apply fd_spec_open_files in Hopen as ((C1 & S1 & _) & d1 & L1 & F1).
  destruct (cd_bad_arguments s) eqn:Hbad.
  - (* the arguments are refused *)
    rewrite (bind_ret_eq _ _ _ _ _ (shell_cd_bad_arguments _ st1 Hbad)) in H.
    apply bind_inv in H as [([] & st2 & Hfix & H) | (w & Hfix & ->)].
    + inversion H; subst r st2. clear H.
      apply fd_spec_fix_redirects in Hfix as ((C2 & _) & d2 & L2 & F2).
      repeat split; try congruence; auto.
      intros _ _.
      rewrite (new_events_app st st' (d2 ++ d1))
        by (rewrite L2, L1; apply app_assoc).
      apply not_true_is_false. intros Hex.
      apply existsb_exists in Hex as (x & Hin & Hx).
      assert (Hall : Forall (fun x => is_diagnostic (snd x) = false) (d2 ++ d1))
        by (apply Forall_app; now split).
      rewrite Forall_forall in Hall. apply Hall in Hin. congruence.
    + apply fd_spec_fix_redirects in Hfix as ((C2 & _) & ->).
      repeat split; try congruence; auto; discriminate.
  - (* chdir is tried and fails *)
    cbn [orb] in Hfail. unfold cd_chdir_refused in Hfail.
    unfold cd_bad_arguments in Hbad.
    destruct (params s) as [d |] eqn:Hd; [| discriminate].
    rewrite Hst1 in Hfail.
    apply andb_prop in Hfail as [Hp Hch].
    destruct (word_next_part d) eqn:Hnp; [discriminate |].
    destruct (sys_chdir P st1 (word_string d)) eqn:Hsys; [discriminate |].
    rewrite (bind_ret_eq _ _ _ _ _ (shell_cd_chdir_fails _ _ Hnp Hsys)) in H.
    apply bind_inv in H as [([] & st2 & Hfix & H) | (w & Hfix & ->)].
    + inversion H; subst r st2. clear H.
      apply fd_spec_fix_redirects in Hfix as ((C2 & _) & d2 & L2 & F2).
      cbn in C2, L2.
      repeat split; try congruence; auto; try discriminate.
      intros _ _.
      rewrite (new_events_app st st'
                 (d2 ++ (self st1, EvPerror "cd")
                     :: (self st1, EvChdir (word_string d) (-1)) :: d1)).
      * apply in_or_app. right. left. now rewrite S1.
      * rewrite L2, L1. rewrite <- app_assoc. reflexivity.
    + apply fd_spec_fix_redirects in Hfix as ((C2 & _) & ->).
      cbn in C2.
      repeat split; try congruence; auto; discriminate.
Qed.

End Builtins.

(** ** Induction over command trees *)

Lemma command_induction (Q : command_t -> Prop) :
  (forall o cmd1 cmd2 scmd,
      opt_all Q cmd1 -> opt_all Q cmd2 -> Q (Command o cmd1 cmd2 scmd)) ->
  forall c, Q c.
Proof.
  intros H. fix IH 1. intros [o cmd1 cmd2 scmd]. apply H.
  - destruct cmd1 as [a |]; [exact (IH a) | exact I].
  - destruct cmd2 as [b |]; [exact (IH b) | exact I].
Qed.

(** ** Pids only grow *)

Section Pids.

Variable P : platform.

Lemma grows_ret {A : Type} (a : A) : grows (ret a).
Proof. intros st r st' H. inversion H. lia. Qed.

Lemma grows_bind {A B : Type} (m : M A) (k : A -> M B) :
  grows m -> (forall a, grows (k a)) -> grows (bind m k).
Proof.
  intros Hm Hk st r st' H.
  apply bind_inv in H as [(a & st1 & H1 & H2) | (w & H1 & ->)].
  - apply Hm in H1. apply Hk in H2. lia.
  - now apply Hm in H1.
Qed.

Lemma grows_fd_spec {A : Type} (m : M A) : fd_spec P m -> grows m.
Proof.
  intros Hm st r st' H. apply Hm in H as ((_ & _ & _ & Hn & _) & _). lia.
Qed.

Ltac grows_call :=
  let H := fresh "H" in
  intros ? ? ? H;
  repeat match type of H with
         | context [match ?x with _ => _ end] => destruct x
         end;
  inversion H; subst; cbn; lia.

Lemma grows_gets {A : Type} (f : state -> A) : grows (gets f).
Proof. unfold gets. grows_call. Qed.

Lemma grows_emit e : grows (emit e).
Proof. unfold emit. grows_call. Qed.

Lemma grows_halt {A : Type} w : grows (@halt A w).
Proof. unfold halt. grows_call. Qed.

Lemma grows_exit {A : Type} code : grows (@exit A code).
Proof. apply grows_bind; [apply grows_emit | intros; apply grows_halt]. Qed.

Lemma grows_segfault {A : Type} : grows (@segfault A).
Proof. apply grows_bind; [apply grows_emit | intros; apply grows_halt]. Qed.

Lemma grows_DIE b what : grows (DIE P b what).
Proof. apply grows_fd_spec, fd_spec_DIE. Qed.

Lemma grows_dup2 a b : grows (dup2 a b).
Proof. apply grows_fd_spec, fd_spec_dup2. Qed.

Lemma grows_close fd : grows (close fd).
Proof. apply grows_fd_spec, fd_spec_close. Qed.

Lemma grows_chdir path : grows (chdir P path).
Proof. unfold chdir. grows_call. Qed.

Lemma grows_setenv name value : grows (setenv name value).
Proof. unfold setenv. grows_call. Qed.

Lemma grows_pipe : grows (pipe P).
Proof. unfold pipe. grows_call. Qed.

Lemma grows_wait status : grows (wait P status).
Proof. unfold wait. grows_call. Qed.

Lemma grows_waitpid pid status options : grows (waitpid P pid status options).
Proof. unfold waitpid. grows_call. Qed.

Lemma grows_execvp command argv : grows (execvp P command argv).
Proof. unfold execvp. grows_call. Qed.

(** A fork hands out [next_pid] and the child runs on from there. *)
Lemma grows_fork child : grows child -> grows (fork P child).
Proof.
  intros Hc st r st' H. unfold fork in H.
  destruct (sys_fork_ok P st).
  - destruct (child (spawn st)) as [rc stc] eqn:Hrun.
    apply Hc in Hrun. inversion H; subst. cbn in *. lia.
  - inversion H; subst. cbn. lia.
Qed.

Create HintDb grows.
Hint Resolve grows_ret grows_gets grows_emit grows_halt grows_exit
  grows_segfault grows_DIE grows_dup2 grows_close grows_chdir grows_setenv
  grows_pipe grows_wait grows_waitpid grows_execvp grows_fork : grows.

Lemma grows_child_exit run : grows run -> grows (child_exit run).
Proof.
  intros H. unfold child_exit.
  apply grows_bind; [exact H | intros rc].
  destruct (rc <? 0); apply grows_exit.
Qed.

Ltac grows_steps :=
  repeat match goal with
         | |- grows (bind _ _) => apply grows_bind; [| intros ?]
         | |- grows (fork _ _) => apply grows_fork
         | |- grows (child_exit _) => apply grows_child_exit
         | |- grows (if ?b then _ else _) => destruct b
         | |- grows (match ?x with _ => _ end) => destruct x
         | |- grows _ => solve [auto with grows]
         end.

Lemma grows_open_files s : grows (open_files P s).
Proof. apply grows_fd_spec, fd_spec_open_files. Qed.

Lemma grows_fix_redirects outs_save : grows (fix_redirects outs_save).
Proof. apply grows_fd_spec, fd_spec_fix_redirects. Qed.

Hint Resolve grows_open_files grows_fix_redirects : grows.

Lemma grows_shell_cd dir : grows (shell_cd P dir).
Proof.
  unfold shell_cd, perror. destruct dir as [d |]; grows_steps.
Qed.

Lemma grows_external_child s command : grows (external_child P s command).
Proof. unfold external_child, fprintf_stderr. grows_steps. Qed.

Hint Resolve grows_shell_cd grows_external_child : grows.

Lemma grows_parse_simple s level father :
  grows (parse_simple P s level father).
Proof.
  unfold parse_simple, shell_exit. destruct s as [s |]; [| grows_steps].
  destruct (verb s) as [v |]; grows_steps.
Qed.

Lemma grows_wait_children i status : grows (wait_children P i status).
Proof.
  revert status. induction i as [| i IH]; intros status; cbn [wait_children].
  - apply grows_ret.
  - apply grows_bind; [apply grows_wait | intros s'].
    destruct (negb (WIFEXITED s')); [apply grows_ret | apply IH].
Qed.

Hint Resolve grows_parse_simple grows_child_exit grows_wait_children : grows.

Lemma grows_run_in_parallel cmd1 cmd2 level father :
  (forall l f, grows (cmd1 l f)) -> (forall l f, grows (cmd2 l f)) ->
  grows (run_in_parallel P cmd1 cmd2 level father).
Proof. intros H1 H2. unfold run_in_parallel. grows_steps. Qed.

Lemma grows_run_on_pipe cmd1 cmd2 level father :
  (forall l f, grows (cmd1 l f)) -> (forall l f, grows (cmd2 l f)) ->
  grows (run_on_pipe P cmd1 cmd2 level father).
Proof.
  intros H1 H2. unfold run_on_pipe, pipe_left_setup, pipe_right_setup.
  apply grows_bind; [apply grows_pipe | intros [[rc fd0] fd1]].
  grows_steps.
Qed.

Lemma grows_parse_command c :
  forall level father, grows (parse_command P c level father).
Proof.
  induction c as [o cmd1 cmd2 scmd IH1 IH2] using command_induction.
  intros level father. cbn [parse_command].
  set (call1 := match cmd1 with
                | Some a => parse_command P a
                | None => fun _ _ => segfault
                end).
  set (call2 := match cmd2 with
                | Some b => parse_command P b
                | None => fun _ _ => segfault
                end).
  assert (G1 : forall l f, grows (call1 l f)).
  { subst call1. destruct cmd1; cbn in IH1; auto with grows. }
  assert (G2 : forall l f, grows (call2 l f)).
  { subst call2. destruct cmd2; cbn in IH2; auto with grows. }
  clearbody call1 call2.
  destruct (is_null cmd1 && is_null cmd2 && is_null scmd);
    [apply grows_ret |].
  destruct o;
    auto using grows_run_in_parallel, grows_run_on_pipe with grows;
    grows_steps;
    auto using grows_run_in_parallel, grows_run_on_pipe with grows.
Qed.

End Pids.

(** ** Children: fork, exit status, wait *)

Lemma child_wstatus_status rc :
  WEXITSTATUS (child_wstatus (Ret rc)) = child_code rc.
Proof. unfold child_wstatus, child_code. destruct (rc <? 0); reflexivity. Qed.

Lemma child_wstatus_exited rc : WIFEXITED (child_wstatus (Ret rc)) = true.
Proof. unfold child_wstatus, child_code. destruct (rc <? 0); reflexivity. Qed.

Lemma find_pid_fresh pid zs w rest :
  Forall (fun z => fst z < pid) zs ->
  find_pid pid (zs ++ (pid, w) :: rest) = Some (List.length zs).
Proof.
  induction zs as [| [p s] zs IH]; intros H; cbn.
  - now rewrite Z.eqb_refl.
  - inversion H as [| ? ? Hp Hzs]; subst. cbn in Hp.
    replace (p =? pid) with false by (symmetry; apply Z.eqb_neq; lia).
    now rewrite IH.
Qed.

Lemma nth_error_middle {A : Type} (zs : list A) x rest :
  nth_error (zs ++ x :: rest) (List.length zs) = Some x.
Proof. induction zs; cbn; auto. Qed.

Lemma remove_nth_middle {A : Type} (zs : list A) x rest :
  remove_nth (List.length zs) (zs ++ x :: rest) = zs ++ rest.
Proof. induction zs; cbn; congruence. Qed.

Section Children.

Variable P : platform.

(** The wait status of a child that runs [run] and then leaves through
    the common tail of the child branches. *)
Lemma child_exit_status run st r st' :
  run st = (r, st') ->
  child_exit run st = (Halt (child_wstatus r), child_end r st').
Proof.
  intros H. unfold child_exit. destruct r as [rc | w].
  - rewrite (bind_ret_eq _ _ _ _ _ H).
    unfold child_end, child_wstatus, child_code.
    destruct (rc <? 0); reflexivity.
  - rewrite (bind_halt_eq _ _ _ _ _ H). reflexivity.
Qed.

Lemma fork_runs_child child st w stc :
  sys_fork_ok P st = true ->
  child (spawn st) = (Halt w, stc) ->
  fork P child st = (Ret (next_pid st), rejoin st stc w).
Proof. intros Hok H. unfold fork. rewrite Hok, H. reflexivity. Qed.

Lemma fork_inv child st :
  sys_fork_ok P st = true ->
  exists w stc,
    child (spawn st) = (Halt w, stc) /\
    fork P child st = (Ret (next_pid st), rejoin st stc w).
Proof.
  intros Hok. destruct (child (spawn st)) as [[[] | w] stc] eqn:H.
  exists w, stc. split; [reflexivity |]. now apply fork_runs_child.
Qed.

Lemma DIE_false what st : DIE P false what st = (Ret tt, st).
Proof. reflexivity. Qed.

Lemma waitpid_reports pid status options st zs w rest :
  zombies st = zs ++ (pid, w) :: rest ->
  Forall (fun z => fst z < pid) zs ->
  waitpid P pid status options st
  = match reported_stop P st options pid with
    | Some sig =>
        (Ret (W_STOPCODE sig), record (EvWait pid (W_STOPCODE sig)) st)
    | None => (Ret w, record (EvWait pid w) (set_zombies (zs ++ rest) st))
    end.
Proof.
  intros Hz Hf. unfold waitpid.
  rewrite Hz, (find_pid_fresh _ _ _ _ Hf), nth_error_middle, remove_nth_middle.
  reflexivity.
Qed.

(** The exit-status bits of a stop status hold the stop signal. *)
Lemma WEXITSTATUS_stop sig :
  0 <= sig < 256 -> WEXITSTATUS (W_STOPCODE sig) = sig.
Proof.
  intros Hs. unfold WEXITSTATUS, W_STOPCODE.
  rewrite Z.shiftr_land, Z.shiftr_lor, Z.shiftr_shiftl_l by lia.
  change (8 - 8) with 0. rewrite Z.shiftl_0_r.
  change (Z.shiftr 127 8) with 0. rewrite Z.lor_0_r.
  change (Z.shiftr 65280 8) with (Z.ones 8).
  rewrite Z.land_ones by lia. apply Z.mod_small.
  change (2 ^ 8) with 256. lia.
Qed.

Lemma pipe_ok_inv st fd0 fd1 st0 rc :
  pipe P st = (Ret (rc, fd0, fd1), st0) ->
  next_pid st0 = next_pid st /\ zombies st0 = zombies st /\
  self st0 = self st.
Proof.
  unfold pipe. destruct (sys_pipe_ok P st); intros H; inversion H; subst;
    repeat split.
Qed.

(** The status of [run_on_pipe], for any two subcommands: [st3] is the
    state in which the second waitpid is made. *)
Lemma run_on_pipe_status cmd1 cmd2 level father st fd0 fd1 st0 pid1 st1
      rB stB pid2 st2 s1 st3 :
  sane st ->
  (forall l f, grows (cmd1 l f)) ->
  pipe P st = (Ret (0, fd0, fd1), st0) ->
  sys_fork_ok P st0 = true ->
  fork P (pipe_left_setup fd0 fd1 ;; child_exit (cmd1 level father)) st0
  = (Ret pid1, st1) ->
  sys_fork_ok P st1 = true ->
  (pipe_right_setup fd0 fd1 ;; cmd2 level father) (spawn st1) = (rB, stB) ->
  fork P (pipe_right_setup fd0 fd1 ;; child_exit (cmd2 level father)) st1
  = (Ret pid2, st2) ->
  (close fd0 ;; close fd1 ;; waitpid P pid1 0 WSTOPPED) st2 = (Ret s1, st3) ->
  exists st',
    run_on_pipe P cmd1 cmd2 level father st
    = (Ret (WEXITSTATUS
              (reported_status (reported_stop P st3 WSTOPPED pid2)
                               (child_wstatus rB)) =? 0), st').
Proof.
  intros [Hpid Hzs] Hg Hpipe Hok0 Hfork1 Hok1 HB Hfork2 Hw1.
  destruct (pipe_ok_inv _ _ _ _ _ Hpipe) as (Hn0 & Hz0 & Hs0).
  destruct (fork_inv (pipe_left_setup fd0 fd1 ;;
                      child_exit (cmd1 level father))
                     st0 Hok0) as (w1 & stc1 & Hrun1 & Hf1).
  rewrite Hf1 in Hfork1. inversion Hfork1 as [[Hp1 Hst1]]. clear Hfork1.
  assert (Hg1 : next_pid st0 + 1 <= next_pid stc1).
  { change (next_pid st0 + 1) with (next_pid (spawn st0)).
    revert Hrun1. apply grows_bind.
    - unfold pipe_left_setup.
      repeat (apply grows_bind; [| intros ?]);
        auto using grows_dup2, grows_close.
    - intros _. apply grows_child_exit, Hg. }
  assert (Hrun2 : exists stc2,
             (pipe_right_setup fd0 fd1 ;;
              child_exit (cmd2 level father)) (spawn st1)
             = (Halt (child_wstatus rB), stc2)).
  { apply bind_inv in HB as [([] & sts & Hset & HB') | (w & Hset & ->)].
    - exists (child_end rB stB).
      rewrite (bind_ret_eq _ _ _ _ _ Hset).
      now apply child_exit_status.
    - exists stB. now rewrite (bind_halt_eq _ _ _ _ _ Hset). }
  destruct Hrun2 as (stc2 & Hrun2).
  pose proof (fork_runs_child _ _ _ _ Hok1 Hrun2) as Hf2.
  rewrite Hf2 in Hfork2. inversion Hfork2 as [[Hp2 Hst2]]. clear Hfork2.
  assert (Hlt12 : pid1 < pid2).
  { rewrite <- Hp1, <- Hp2, <- Hst1. cbn. lia. }
  assert (Hz2 : zombies st2
                = zombies st ++ [(pid1, w1); (pid2, child_wstatus rB)]).
  { rewrite <- Hst2. cbn. rewrite <- Hst1. cbn.
    rewrite Hz0, <- app_assoc, Hp1. cbn [app]. rewrite <- Hp2, <- Hst1.
    reflexivity. }
  assert (Hzs1 : Forall (fun z => fst z < pid1) (zombies st)).
  { rewrite <- Hp1, Hn0. exact Hzs. }
  unfold bind at 1 in Hw1. unfold close at 1 in Hw1. cbv beta iota in Hw1.
  unfold bind at 1 in Hw1. unfold close at 1 in Hw1. cbv beta iota in Hw1.
  assert (Hz3 : exists zs3,
             zombies st3 = zs3 ++ [(pid2, child_wstatus rB)] /\
             Forall (fun z => fst z < pid2) zs3).
  { rewrite (waitpid_reports _ _ _ _ (zombies st) w1
               [(pid2, child_wstatus rB)]) in Hw1;
      [| cbn; exact Hz2 | exact Hzs1].
    destruct (reported_stop P _ WSTOPPED pid1);
      inversion Hw1; subst s1 st3; cbn.
    - exists (zombies st ++ [(pid1, w1)]). split.
      + rewrite Hz2, <- app_assoc. reflexivity.
      + apply Forall_app. split.
        * eapply Forall_impl; [| exact Hzs1]. cbn. intros x Hx. lia.
        * constructor; [exact Hlt12 | constructor].
    - exists (zombies st). split; [reflexivity |].
      eapply Forall_impl; [| exact Hzs1]. cbn. intros x Hx. lia. }
  destruct Hz3 as (zs3 & Hz3 & Hzs3).
  unfold run_on_pipe.
  rewrite (bind_ret_eq _ _ _ _ _ Hpipe).
  cbn [Z.ltb Z.compare]. rewrite (bind_ret_eq _ _ _ _ _ (DIE_false _ _)).
  rewrite (bind_ret_eq _ _ _ _ _ Hf1).
  assert (Hlt : (next_pid st0 <? 0) = false) by (apply Z.ltb_ge; lia).
  rewrite Hlt, (bind_ret_eq _ _ _ _ _ (DIE_false _ _)).
  rewrite Hst1, (bind_ret_eq _ _ _ _ _ Hf2).
  assert (Hlt1 : (next_pid st1 <? 0) = false).
  { apply Z.ltb_ge. rewrite <- Hst1. cbn. lia. }
  rewrite Hlt1, (bind_ret_eq _ _ _ _ _ (DIE_false _ _)).
  unfold bind at 1. unfold close at 1. cbv beta iota.
  unfold bind at 1. unfold close at 1. cbv beta iota.
  rewrite Hst2, Hp1, Hp2.
  rewrite (bind_ret_eq _ _ _ _ _ Hw1).
  unfold bind at 1.
  rewrite (waitpid_reports pid2 s1 WSTOPPED st3 zs3 (child_wstatus rB) []
                           Hz3 Hzs3).
  unfold reported_status.
  destruct (reported_stop P st3 WSTOPPED pid2) as [sig |]; cbv beta iota;
    match goal with
    | |- context [WEXITSTATUS ?w =? 0] => destruct (WEXITSTATUS w =? 0)
    end; eexists; reflexivity.
Qed.

(** C3.  The status of a PIPE node is decided by the wait status that
    waitpid, asked with WSTOPPED, reports for its right-hand child
    process alone: the stop status when the kernel reports that child
    stopped, else its termination status; the node returns 1 when the
    exit-status bits of that status are not zero and 0 otherwise, not
    the status of its right subtree.  A right-hand child that is
    reported terminated had left with exit(EXIT_FAILURE) when its
    subtree returned a negative status, so the node returns 1, and with
    exit(EXIT_SUCCESS) when it returned 0, so the node returns 0; a
    child that is reported stopped carries the stop signal in those
    bits and the node returns 1.  Whatever the left child did does not
    enter the result. *)
Theorem pipe_status_from_right_child :
  forall A B scmd level father st fd0 fd1 st0 pid1 st1 rB stB pid2 st2 s1 st3,
    let c := Command OP_PIPE (Some A) (Some B) scmd in
    let status := reported_status (reported_stop P st3 WSTOPPED pid2)
                                  (child_wstatus rB) in
    sane st ->
    pipe P st = (Ret (0, fd0, fd1), st0) ->
    sys_fork_ok P st0 = true ->
    fork P (pipe_left_setup fd0 fd1 ;;
            child_exit (parse_command P A level (Some c))) st0
    = (Ret pid1, st1) ->
    sys_fork_ok P st1 = true ->
    (pipe_right_setup fd0 fd1 ;; parse_command P B level (Some c)) (spawn st1)
    = (rB, stB) ->
    fork P (pipe_right_setup fd0 fd1 ;;
            child_exit (parse_command P B level (Some c))) st1
    = (Ret pid2, st2) ->
    (close fd0 ;; close fd1 ;; waitpid P pid1 0 WSTOPPED) st2 = (Ret s1, st3) ->
    fst (parse_command P c level father st)
    = Ret (if WEXITSTATUS status =? 0 then 0 else 1) /\
    (reported_stop P st3 WSTOPPED pid2 = None ->
     forall b, rB = Ret b ->
       (b < 0 -> fst (parse_command P c level father st) = Ret 1) /\
       (b = 0 -> fst (parse_command P c level father st) = Ret 0)) /\
    (forall sig,
        reported_stop P st3 WSTOPPED pid2 = Some sig -> 0 < sig < 256 ->
        fst (parse_command P c level father st) = Ret 1).
Proof.
  intros A B scmd level father st fd0 fd1 st0 pid1 st1 rB stB pid2 st2 s1 st3
         c status Hsane Hpipe Hok0 Hfork1 Hok1 HB Hfork2 Hw1.
  destruct (run_on_pipe_status (parse_command P A) (parse_command P B)
              level (Some c) st fd0 fd1 st0 pid1 st1 rB stB pid2 st2 s1 st3
              Hsane (grows_parse_command P A) Hpipe Hok0 Hfork1 Hok1 HB
              Hfork2 Hw1)
    as (st' & Hrun).
  assert (Hres : fst (parse_command P c level father st)
                 = Ret (if WEXITSTATUS status =? 0 then 0 else 1)).
  { subst c status. cbn [parse_command is_null andb].
    rewrite (bind_ret_eq _ _ _ _ _ Hrun). reflexivity. }
  split; [exact Hres |]. subst status. split.
  - intros Hstop b ->. rewrite Hres, Hstop. unfold reported_status.
    rewrite child_wstatus_status. unfold child_code.
    split; intros Hb.
    + replace (b <? 0) with true by (symmetry; apply Z.ltb_lt; lia).
      reflexivity.
    + subst b. reflexivity.
  - intros sig Hstop Hsig. rewrite Hres, Hstop. unfold reported_status.
    rewrite WEXITSTATUS_stop by lia.
    replace (sig =? 0) with false by (symmetry; apply Z.eqb_neq; lia).
    reflexivity.
Qed.

(** The loop of [run_in_parallel] over two waiting children. *)
Lemma wait_children_two z1 z2 status st :
  zombies st = [z1; z2] ->
  exists st',
    wait_children P 2 status st
    = (Ret (WIFEXITED (snd z1) && WIFEXITED (snd z2)), st') /\
    log st' = rev (map (pair (self st))
                       (observed_waits (reap_second P st) z1 z2)) ++ log st.
Proof.
  intros Hz. destruct z1 as [p1 w1], z2 as [p2 w2].
  unfold observed_waits, reap_second. cbv zeta. cbn [wait_children fst snd].
  unfold bind at 1. unfold wait at 1. rewrite Hz. cbn [List.length].
  pose proof (Nat.mod_upper_bound (sys_reap P st) 2 ltac:(lia)) as Hlt.
  destruct (sys_reap P st mod 2)%nat as [| [| n]] eqn:Hn; [| | lia];
    cbn [nth_error remove_nth Nat.eqb fst snd].
  - destruct (WIFEXITED w1); cbn [negb andb].
    + unfold bind at 1. unfold wait at 1. cbn [zombies set_zombies record set_log].
      cbn [List.length]. rewrite Nat.mod_1_r. cbn [nth_error remove_nth].
      destruct (WIFEXITED w2); cbn [negb]; eexists; split; reflexivity.
    + eexists; split; reflexivity.
  - destruct (WIFEXITED w2); cbn [negb andb].
    + unfold bind at 1. unfold wait at 1. cbn [zombies set_zombies record set_log].
      cbn [List.length]. rewrite Nat.mod_1_r. cbn [nth_error remove_nth].
      rewrite andb_true_r.
      destruct (WIFEXITED w1); cbn [negb]; eexists; split; reflexivity.
    + rewrite andb_false_r. eexists; split; reflexivity.
Qed.

(** [run_in_parallel] from a process without waiting children, for any
    two subcommands. *)
Lemma run_in_parallel_status cmd1 cmd2 level father st pid1 st1 pid2 st2 :
  0 <= next_pid st ->
  zombies st = [] ->
  (forall l f, grows (cmd1 l f)) ->
  sys_fork_ok P st = true ->
  fork P (child_exit (cmd1 level father)) st = (Ret pid1, st1) ->
  sys_fork_ok P st1 = true ->
  fork P (child_exit (cmd2 level father)) st1 = (Ret pid2, st2) ->
  exists w1 w2 st',
    zombies st2 = [(pid1, w1); (pid2, w2)] /\
    pid1 < pid2 /\
    self st2 = self st /\
    run_in_parallel P cmd1 cmd2 level father st
    = (Ret (WIFEXITED w1 && WIFEXITED w2), st') /\
    log st' = rev (map (pair (self st))
                       (observed_waits (reap_second P st2)
                                       (pid1, w1) (pid2, w2))) ++ log st2.
Proof.
  intros Hpid Hz Hg Hok Hfork1 Hok1 Hfork2.
  destruct (fork_inv (child_exit (cmd1 level father)) st Hok)
    as (w1 & stc1 & Hrun1 & Hf1).
  assert (Hp1 : pid1 = next_pid st) by congruence.
  assert (Hst1 : st1 = rejoin st stc1 w1) by congruence.
  clear Hf1.
  destruct (fork_inv (child_exit (cmd2 level father)) st1 Hok1)
    as (w2 & stc2 & Hrun2 & Hf2).
  assert (Hp2 : pid2 = next_pid st1) by congruence.
  assert (Hst2 : st2 = rejoin st1 stc2 w2) by congruence.
  clear Hf2.
  assert (Hg1 : next_pid st + 1 <= next_pid stc1).
  { change (next_pid st + 1) with (next_pid (spawn st)).
    revert Hrun1. apply grows_child_exit, Hg. }
  assert (Hn1 : next_pid st1 = next_pid stc1) by now rewrite Hst1.
  assert (Hs2 : self st2 = self st) by now rewrite Hst2, Hst1.
  assert (Hz2 : zombies st2 = [(pid1, w1); (pid2, w2)]).
  { rewrite Hst2. cbn. rewrite Hst1 at 1. cbn. rewrite Hz, Hp1, Hp2.
    reflexivity. }
  destruct (wait_children_two _ _ 0 st2 Hz2) as (st' & Hwait & Hlog).
  exists w1, w2, st'. split; [exact Hz2 |].
  split; [lia |]. split; [exact Hs2 |]. split.
  - unfold run_in_parallel.
    rewrite (bind_ret_eq _ _ _ _ _ Hfork1).
    assert (Hlt : (pid1 <? 0) = false) by (apply Z.ltb_ge; lia).
    rewrite Hlt, (bind_ret_eq _ _ _ _ _ (DIE_false _ _)).
    rewrite (bind_ret_eq _ _ _ _ _ Hfork2).
    assert (Hlt2 : (pid2 <? 0) = false) by (apply Z.ltb_ge; lia).
    rewrite Hlt2, (bind_ret_eq _ _ _ _ _ (DIE_false _ _)).
    exact Hwait.
  - rewrite Hlog, Hs2. reflexivity.
Qed.

(** A PARALLEL node started without waiting children returns 0 exactly
    when both child processes ended by a normal exit, and 1 otherwise. *)
Lemma parallel_success_iff_normal_exits :
  forall A B scmd level father st pid1 st1 pid2 st2,
    let c := Command OP_PARALLEL (Some A) (Some B) scmd in
    0 <= next_pid st ->
    zombies st = [] ->
    sys_fork_ok P st = true ->
    fork P (child_exit (parse_command P A level (Some c))) st = (Ret pid1, st1) ->
    sys_fork_ok P st1 = true ->
    fork P (child_exit (parse_command P B level (Some c))) st1 = (Ret pid2, st2) ->
    exists w1 w2,
      zombies st2 = [(pid1, w1); (pid2, w2)] /\
      fst (parse_command P c level father st)
      = Ret (if WIFEXITED w1 && WIFEXITED w2 then 0 else 1) /\
      (fst (parse_command P c level father st) = Ret 0 <->
       WIFEXITED w1 = true /\ WIFEXITED w2 = true).
Proof.
  intros A B scmd level father st pid1 st1 pid2 st2 c
         Hpid Hz Hok Hf1 Hok1 Hf2.
  destruct (run_in_parallel_status (parse_command P A) (parse_command P B)
              level (Some c) st _ _ _ _ Hpid Hz (grows_parse_command P A)
              Hok Hf1 Hok1 Hf2)
    as (w1 & w2 & st' & Hz2 & _ & _ & Hrun & _).
  exists w1, w2. split; [exact Hz2 |].
  assert (Hres : fst (parse_command P c level father st)
                 = Ret (if WIFEXITED w1 && WIFEXITED w2 then 0 else 1)).
  { subst c. cbn [parse_command is_null andb].
    rewrite (bind_ret_eq _ _ _ _ _ Hrun). reflexivity. }
  split; [exact Hres |]. rewrite Hres.
  destruct (WIFEXITED w1), (WIFEXITED w2); cbn; split;
    try (intros H; discriminate H); try (intros [H1 H2]; discriminate);
    auto.
Qed.

(** C4.  Whatever statuses the two subtrees of a PARALLEL node return
    in their child processes, negative ones included, both children
    end by a normal exit (with code EXIT_FAILURE after a negative
    status) and the node returns 0: the parent looks at WIFEXITED only
    (cmd.c:201), never at the exit code. *)
Theorem parallel_success_despite_negative_status :
  forall A B scmd level father st a sta b stb,
    let c := Command OP_PARALLEL (Some A) (Some B) scmd in
    0 <= next_pid st ->
    zombies st = [] ->
    sys_fork_ok P st = true ->
    parse_command P A level (Some c) (spawn st) = (Ret a, sta) ->
    let st1 := rejoin st (child_end (Ret a) sta) (child_wstatus (Ret a)) in
    sys_fork_ok P st1 = true ->
    parse_command P B level (Some c) (spawn st1) = (Ret b, stb) ->
    WEXITSTATUS (child_wstatus (Ret a)) = child_code a /\
    WIFEXITED (child_wstatus (Ret a)) = true /\
    WIFEXITED (child_wstatus (Ret b)) = true /\
    fst (parse_command P c level father st) = Ret 0.
Proof.
  intros A B scmd level father st a sta b stb c Hpid Hz Hok HA st1 Hok1 HB.
  split; [apply child_wstatus_status |].
  split; [apply child_wstatus_exited |].
  split; [apply child_wstatus_exited |].
  pose proof (fork_runs_child _ _ _ _ Hok (child_exit_status _ _ _ _ HA))
    as Hf1. fold st1 in Hf1.
  pose proof (fork_runs_child _ _ _ _ Hok1 (child_exit_status _ _ _ _ HB))
    as Hf2.
  destruct (run_in_parallel_status (parse_command P A) (parse_command P B)
              level (Some c) st _ _ _ _ Hpid Hz (grows_parse_command P A)
              Hok Hf1 Hok1 Hf2)
    as (w1 & w2 & st' & Hz2 & _ & _ & Hrun & _).
  assert (Hw : w1 = child_wstatus (Ret a) /\ w2 = child_wstatus (Ret b)).
  { unfold rejoin in Hz2. cbn [zombies] in Hz2. subst st1.
    unfold rejoin in Hz2. cbn [zombies next_pid] in Hz2.
    rewrite Hz in Hz2. cbn [app] in Hz2.
    split; congruence. }
  destruct Hw as [-> ->].
  rewrite !child_wstatus_exited in Hrun.
  subst c. cbn [parse_command is_null andb].
  rewrite (bind_ret_eq _ _ _ _ _ Hrun). reflexivity.
Qed.







End Children.

(** ** The combined redirection of stdout and stderr *)

Lemma fd_put_same t n o : nth_error (fd_put t n o) n = Some o.
Proof.
  revert t. induction n as [| n IH]; intros [| x t]; cbn; auto.
Qed.

Lemma fd_put_keeps t n o m x :
  nth_error t m = Some (Some x) ->
  exists y, nth_error (fd_put t n (Some o)) m = Some (Some y).
Proof.
  revert t m. induction n as [| n IH]; intros [| z t] [| m] H; cbn in *;
    try discriminate; eauto.
Qed.

Lemma fd_get_set_same t fd o :
  0 <= fd -> fd_get (fd_set t fd (Some o)) fd = Some o.
Proof.
  intros H. unfold fd_get, fd_set.
  replace (fd <? 0) with false by (symmetry; apply Z.ltb_ge; lia).
  now rewrite fd_put_same.
Qed.

Lemma fd_get_set_keeps t fd o m x :
  fd_get t m = Some x ->
  exists y, fd_get (fd_set t fd (Some o)) m = Some y.
Proof.
  unfold fd_get, fd_set. intros H.
  destruct (m <? 0); [discriminate |].
  destruct (fd <? 0); [eauto |].
  destruct (nth_error t (Z.to_nat m)) as [[z |] |] eqn:Hn; try discriminate.
  destruct (fd_put_keeps t (Z.to_nat fd) o _ _ Hn) as (y & Hy).
  exists y. now rewrite Hy.
Qed.

Section Redirections.

Variable P : platform.

Lemma adds_ret Q {A : Type} (a : A) : adds Q (ret a).
Proof.
  intros st r st' H. inversion H; subst.
  exists []. split; [reflexivity | constructor].
Qed.

Lemma adds_bind Q {A B : Type} (m : M A) (k : A -> M B) :
  adds Q m -> (forall a, adds Q (k a)) -> adds Q (bind m k).
Proof.
  intros Hm Hk st r st' H.
  apply bind_inv in H as [(a & st1 & H1 & H2) | (w & H1 & ->)].
  - apply Hm in H1 as (d1 & L1 & F1). apply Hk in H2 as (d2 & L2 & F2).
    exists (d2 ++ d1). split.
    + rewrite L2, L1. apply app_assoc.
    + apply Forall_app. now split.
  - now apply Hm in H1.
Qed.

Ltac adds_call :=
  let H := fresh "H" in
  intros ? ? ? H;
  repeat match type of H with
         | context [match ?x with _ => _ end] => destruct x
         end;
  inversion H; subst;
  eexists (cons _ nil); (split; [reflexivity |]);
  (constructor; [exact I || reflexivity | constructor]).

Lemma adds_stdin_turn s redir1 :
  adds not_a_writing_open (open_files_turn P s 2 redir1).
Proof.
  unfold open_files_turn.
  apply adds_bind; [unfold dup; adds_call | intros saved].
  destruct (in_ s); [| apply adds_ret].
  apply adds_bind; [intros st r st' H; inversion H; subst;
                    exists []; split; [reflexivity | constructor] | intros e].
  cbn [Nat.eqb andb]. rewrite andb_false_r, orb_true_r.
  apply adds_bind.
  - apply adds_bind; [unfold open; adds_call | intros; apply adds_ret].
  - intros [redir1' fd].
    apply adds_bind.
    + unfold DIE. destruct (fd <? 0); [| apply adds_ret].
      apply adds_bind; [unfold emit; adds_call |].
      intros _ st r st' H. inversion H; subst.
      exists []. split; [reflexivity | constructor].
    + intros _. apply adds_bind; [unfold dup2; adds_call | intros _].
      apply adds_bind; [unfold close; adds_call | intros _; apply adds_ret].
Qed.

(** The turn for stdout in the combined case (cmd.c:66-69, 76-79). *)
Lemma first_turn_combined s wo we st :
  out s = Some wo -> err s = Some we ->
  get_word P (env st) (Some wo) = get_word P (env st) (Some we) ->
  exists saved0 fd r st1,
    open_files_turn P s 0 (err s) st = (r, st1) /\
    same_process st st1 /\
    (0 <= fd ->
     r = Ret (None, saved0) /\
     log st1 = rev (map (pair (self st))
                 [EvDup STDOUT_FILENO saved0;
                  EvOpen (get_word P (env st) (Some wo)) combined_flags fd;
                  EvDup2 fd STDERR_FILENO STDERR_FILENO;
                  EvDup2 fd STDOUT_FILENO STDOUT_FILENO;
                  EvClose fd]) ++ log st) /\
    (fd < 0 ->
     r = Halt (die_status P) /\
     log st1 = rev (map (pair (self st))
                 [EvDup STDOUT_FILENO saved0;
                  EvOpen (get_word P (env st) (Some wo)) combined_flags fd;
                  EvDup2 fd STDERR_FILENO (-1);
                  EvDie "open"]) ++ log st).
Proof.
  intros Ho He Hsame.
  unfold open_files_turn. rewrite Ho, He.
  unfold bind at 1.
  destruct (dup STDOUT_FILENO st) as [[saved0 | w] sta] eqn:Hdup.
  2:{ unfold dup in Hdup. destruct (fd_get (fdt st) STDOUT_FILENO); discriminate. }
  assert (Ha : same_process st sta /\ log sta = (self st, EvDup STDOUT_FILENO saved0) :: log st).
  { unfold dup in Hdup. destruct (fd_get (fdt st) STDOUT_FILENO);
      inversion Hdup; subst; split; repeat split. }
  destruct Ha as [Sa La].
  pose proof Sa as (_ & Hself & Henv & _).
  unfold bind at 1. unfold gets at 1. cbv beta iota.
  rewrite Henv, <- Hsame. unfold strcmp_eq at 1. rewrite String.eqb_refl.
  cbn [is_null negb Nat.eqb andb].
  set (path := get_word P (env st) (Some wo)).
  unfold bind at 1. unfold bind at 1. unfold open at 1.
  destruct (sys_open_ok P sta path _) eqn:Hopen.
  - (* the file opens *)
    set (fd := Z.of_nat (lowest_free (fdt sta))).
    assert (Hfd : 0 <= fd) by (subst fd; lia).
    exists saved0, fd.
    unfold bind at 1. unfold dup2 at 1.
    cbn [fdt record set_log set_fdt].
    rewrite (fd_get_set_same _ _ _ Hfd). cbn [Z.ltb Z.compare STDERR_FILENO].
    cbv beta iota. unfold ret at 1. cbv beta iota.
    replace (fd <? 0) with false by (symmetry; apply Z.ltb_ge; lia).
    rewrite (bind_ret_eq _ _ _ _ _ (DIE_false P _ _)).
    unfold bind at 1. unfold dup2 at 1.
    cbn [fdt record set_log set_fdt].
    destruct (fd_get_set_keeps
                (fd_set (fdt sta) fd (Some (File path combined_flags)))
                STDERR_FILENO (File path combined_flags) fd
                (File path combined_flags)
                (fd_get_set_same _ _ _ Hfd)) as (y & Hy).
    fold combined_flags. rewrite Hy.
    cbn [Z.ltb Z.compare STDOUT_FILENO]. cbv beta iota.
    eexists; eexists. split; [reflexivity |].
    destruct Sa as (? & ? & ? & ? & ?).
    split; [repeat split; assumption |].
    split; [| intros; lia].
    intros _. split; [reflexivity |].
    cbn. rewrite La, Hself. reflexivity.
  - (* the file does not open *)
    exists saved0, (-1).
    unfold bind at 1. unfold dup2 at 1.
    cbn [fd_get Z.ltb Z.compare]. cbv beta iota.
    unfold ret at 1. cbv beta iota.
    cbn [Z.ltb Z.compare]. 
    eexists; eexists. split; [reflexivity |].
    destruct Sa as (? & ? & ? & ? & ?).
    split; [repeat split; assumption |].
    split; [intros; lia |].
    intros _. split; [reflexivity |].
    cbn. rewrite La, Hself. reflexivity.
Qed.

Lemma second_turn_cleared s st :
  exists saved1 st2,
    open_files_turn P s 1 None st = (Ret (None, saved1), st2) /\
    log st2 = (self st, EvDup STDERR_FILENO saved1) :: log st.
Proof.
  unfold open_files_turn, bind, dup.
  destruct (fd_get (fdt st) STDERR_FILENO);
    eexists; eexists; split; reflexivity.
Qed.

(** C7.  When the stdout and stderr redirections of a command read the
    same path, [open_files] opens that path once, with create,
    write-only, append and truncate together, duplicates the descriptor
    onto stderr and onto stdout and closes it; the turn for stderr then
    only saves the descriptor, and nothing that follows opens a file
    for writing.  When the open fails the process ends through [DIE]. *)
Theorem combined_redirect_opens_once :
  forall s wo we st r st',
    out s = Some wo ->
    err s = Some we ->
    get_word P (env st) (Some wo) = get_word P (env st) (Some we) ->
    open_files P s st = (r, st') ->
    exists saved0 fd,
      (0 <= fd ->
       exists saved1 tail,
         map snd (rev (new_events st st'))
         = [EvDup STDOUT_FILENO saved0;
            EvOpen (get_word P (env st) (Some wo)) combined_flags fd;
            EvDup2 fd STDERR_FILENO STDERR_FILENO;
            EvDup2 fd STDOUT_FILENO STDOUT_FILENO;
            EvClose fd;
            EvDup STDERR_FILENO saved1] ++ tail /\
         Forall not_a_writing_open tail) /\
      (fd < 0 ->
       r = Halt (die_status P) /\
       map snd (rev (new_events st st'))
       = [EvDup STDOUT_FILENO saved0;
          EvOpen (get_word P (env st) (Some wo)) combined_flags fd;
          EvDup2 fd STDERR_FILENO (-1);
          EvDie "open"]).
Proof.
  intros s wo we st r st' Ho He Hsame H.
  destruct (first_turn_combined s wo we st Ho He Hsame)
    as (saved0 & fd & r0 & st1 & Hturn & Hsp & Hopened & Hfailed).
  exists saved0, fd. unfold open_files in H. split.
  - intros Hfd. destruct (Hopened Hfd) as [-> Hlog1].
    rewrite (bind_ret_eq _ _ _ _ _ Hturn) in H. cbn [fst snd] in H.
    destruct (second_turn_cleared s st1) as (saved1 & st2 & Hturn1 & Hlog2).
    rewrite (bind_ret_eq _ _ _ _ _ Hturn1) in H. cbn [fst snd] in H.
    assert (Hd : exists d, log st' = d ++ log st2 /\
                           Forall (fun x => not_a_writing_open (snd x)) d).
    { apply bind_inv in H as [(r2 & st3 & Hturn2 & H) | (w & Hturn2 & _)].
      - inversion H; subst. eapply adds_stdin_turn, Hturn2.
      - eapply adds_stdin_turn, Hturn2. }
    destruct Hd as (d & Hlog3 & Hall).
    exists saved1, (map snd (rev d)). split.
    + rewrite (new_events_app st st'
                 (d ++ (self st1, EvDup STDERR_FILENO saved1)
                    :: rev (map (pair (self st))
                         [EvDup STDOUT_FILENO saved0;
                          EvOpen (get_word P (env st) (Some wo)) combined_flags fd;
                          EvDup2 fd STDERR_FILENO STDERR_FILENO;
                          EvDup2 fd STDOUT_FILENO STDOUT_FILENO;
                          EvClose fd]))).
      * rewrite rev_app_distr, map_app. cbn. reflexivity.
      * rewrite Hlog3, Hlog2, Hlog1. rewrite <- app_assoc. reflexivity.
    + apply Forall_map, Forall_rev. exact Hall.
  - intros Hfd. destruct (Hfailed Hfd) as [-> Hlog1].
    rewrite (bind_halt_eq _ _ _ _ _ Hturn) in H.
    inversion H; subst. split; [reflexivity |].
    rewrite (new_events_app st st' _ Hlog1).
    rewrite rev_involutive, map_map. reflexivity.
Qed.

End Redirections.

(** ** Every well-formed tree is executed to the end *)

Section Termination.

Variable P : platform.

Lemma dies_only_bind {A B : Type} (m : M A) (k : A -> M B) :
  dies_only P m -> (forall a, dies_only P (k a)) -> dies_only P (bind m k).
Proof.
  intros Hm Hk st w st' H.
  apply bind_inv in H as [(a & st1 & H1 & H2) | (w' & H1 & Hw)].
  - eapply Hk, H2.
  - inversion Hw; subst. eapply Hm, H1.
Qed.

Lemma dies_only_fd_spec {A : Type} (m : M A) : fd_spec P m -> dies_only P m.
Proof. intros Hm st w st' H. now apply Hm in H as (_ & ->). Qed.

Ltac returns_call :=
  let H := fresh "H" in
  intros ? ? ? H;
  repeat match type of H with
         | context [match ?x with _ => _ end] => destruct x
         | context [let '(_, _) := ?x in _] => destruct x
         end;
  discriminate.

Lemma dies_only_ret {A : Type} (a : A) : dies_only P (ret a).
Proof. unfold ret. returns_call. Qed.

Lemma dies_only_gets {A : Type} (f : state -> A) : dies_only P (gets f).
Proof. unfold gets. returns_call. Qed.

Lemma dies_only_emit e : dies_only P (emit e).
Proof. unfold emit. returns_call. Qed.

Lemma dies_only_chdir path : dies_only P (chdir P path).
Proof. unfold chdir. returns_call. Qed.

Lemma dies_only_setenv name value : dies_only P (setenv name value).
Proof. unfold setenv. returns_call. Qed.

Lemma dies_only_pipe : dies_only P (pipe P).
Proof. unfold pipe. returns_call. Qed.

Lemma dies_only_wait status : dies_only P (wait P status).
Proof. unfold wait. returns_call. Qed.

Lemma dies_only_waitpid pid status options :
  dies_only P (waitpid P pid status options).
Proof. unfold waitpid. returns_call. Qed.

Lemma dies_only_close fd : dies_only P (close fd).
Proof. unfold close. returns_call. Qed.

(** A fork returns to the parent however the child ends. *)
Lemma dies_only_fork child : dies_only P (fork P child).
Proof. unfold fork. returns_call. Qed.

Lemma dies_only_DIE b what : dies_only P (DIE P b what).
Proof. apply dies_only_fd_spec, fd_spec_DIE. Qed.

Lemma dies_only_open_files s : dies_only P (open_files P s).
Proof. apply dies_only_fd_spec, fd_spec_open_files. Qed.

Lemma dies_only_fix_redirects outs_save : dies_only P (fix_redirects outs_save).
Proof. apply dies_only_fd_spec, fd_spec_fix_redirects. Qed.

Create HintDb dies.
Hint Resolve dies_only_ret dies_only_gets dies_only_emit dies_only_chdir
  dies_only_setenv dies_only_pipe dies_only_wait dies_only_waitpid
  dies_only_close dies_only_fork dies_only_DIE dies_only_open_files
  dies_only_fix_redirects : dies.

Ltac dies_steps :=
  repeat match goal with
         | |- dies_only P (bind _ _) => apply dies_only_bind; [| intros ?]
         | |- dies_only P (if ?b then _ else _) => destruct b
         | |- dies_only P (match ?x with _ => _ end) => destruct x
         | |- dies_only P _ => solve [auto with dies]
         end.

Lemma dies_only_shell_cd dir : dies_only P (shell_cd P dir).
Proof. unfold shell_cd, perror. destruct dir; dies_steps. Qed.

Lemma dies_only_parse_simple s level father :
  dies_only P (parse_simple P (Some s) level father).
Proof.
  unfold parse_simple, shell_exit.
  destruct (verb s) as [v |]; dies_steps; apply dies_only_shell_cd.
Qed.

Lemma dies_only_wait_children i status :
  dies_only P (wait_children P i status).
Proof.
  revert status. induction i as [| i IH]; intros status; cbn [wait_children].
  - apply dies_only_ret.
  - apply dies_only_bind; [apply dies_only_wait | intros s'].
    destruct (negb (WIFEXITED s')); [apply dies_only_ret | apply IH].
Qed.

(** The two operators that fork run their subtrees in children: what
    happens there never ends the parent. *)
Lemma dies_only_run_in_parallel cmd1 cmd2 level father :
  dies_only P (run_in_parallel P cmd1 cmd2 level father).
Proof.
  unfold run_in_parallel. dies_steps. apply dies_only_wait_children.
Qed.

Lemma dies_only_run_on_pipe cmd1 cmd2 level father :
  dies_only P (run_on_pipe P cmd1 cmd2 level father).
Proof.
  unfold run_on_pipe.
  apply dies_only_bind; [apply dies_only_pipe | intros [[rc fd0] fd1]].
  dies_steps.
Qed.

Lemma dies_only_parse_command c :
  well_formed c ->
  forall level father, dies_only P (parse_command P c level father).
Proof.
  induction 1 as [s | o a b Hop Ha IHa Hb IHb]; intros level father.
  - cbn [parse_command is_null andb]. apply dies_only_parse_simple.
  - cbn [parse_command is_null andb].
    destruct o; try discriminate Hop; dies_steps;
      auto using dies_only_run_in_parallel, dies_only_run_on_pipe.
Qed.

Lemma returns_ret {A : Type} (Q : A -> Prop) (a : A) :
  Q a -> returns Q (ret a).
Proof. intros HQ st Hn. exists a, st. repeat split; assumption. Qed.

Lemma returns_bind {A B : Type} (Q : A -> Prop) (R : B -> Prop)
      (m : M A) (k : A -> M B) :
  returns Q m -> (forall a, Q a -> returns R (k a)) -> returns R (bind m k).
Proof.
  intros Hm Hk st Hn.
  destruct (Hm st Hn) as (a & st1 & H1 & Hn1 & HQ).
  destruct (Hk a HQ st1 Hn1) as (b & st2 & H2 & Hn2 & HR).
  exists b, st2. rewrite (bind_ret_eq _ _ _ _ _ H1). auto.
Qed.

Lemma returns_any {A : Type} (Q : A -> Prop) (m : M A) :
  returns Q m -> returns any m.
Proof.
  intros Hm st Hn. destruct (Hm st Hn) as (a & st' & H & Hn' & _).
  exists a, st'. repeat split; assumption.
Qed.

Ltac returns_prim :=
  let st := fresh "st" in
  let Hn := fresh "Hn" in
  intros st Hn;
  repeat match goal with
         | |- context [match ?x with _ => _ end] => destruct x
         end;
  eexists; eexists; (split; [reflexivity |]);
  (split; [cbn; lia | try exact I]).

Lemma returns_gets {A : Type} (f : state -> A) : returns any (gets f).
Proof. unfold gets. returns_prim. Qed.

Lemma returns_emit e : returns any (emit e).
Proof. unfold emit. returns_prim. Qed.

Lemma returns_dup fd : returns any (dup fd).
Proof. unfold dup. returns_prim. Qed.

Lemma returns_dup2 a b : returns any (dup2 a b).
Proof. unfold dup2. returns_prim. Qed.

Lemma returns_close fd : returns any (close fd).
Proof. unfold close. returns_prim. Qed.

Lemma returns_chdir path : returns any (chdir P path).
Proof. unfold chdir. returns_prim. Qed.

Lemma returns_setenv name value : returns any (setenv name value).
Proof. unfold setenv. returns_prim. Qed.

Lemma returns_wait status : returns any (wait P status).
Proof. unfold wait. returns_prim. Qed.

Lemma returns_waitpid pid status options :
  returns any (waitpid P pid status options).
Proof. unfold waitpid. returns_prim. Qed.

Lemma returns_DIE_false what : returns any (DIE P false what).
Proof. unfold DIE, ret. returns_prim. Qed.

Hypothesis Hhost : never_fatal P.

Lemma returns_open path flags :
  returns (fun fd => 0 <= fd) (open P path flags).
Proof.
  destruct Hhost as (_ & _ & Hopen).
  intros st Hn. unfold open. rewrite Hopen.
  eexists; eexists. split; [reflexivity |]. split; [exact Hn | lia].
Qed.

Lemma returns_pipe : returns (fun p => fst (fst p) = 0) (pipe P).
Proof.
  destruct Hhost as (_ & Hpipe & _).
  intros st Hn. unfold pipe. rewrite Hpipe.
  eexists; eexists. split; [reflexivity |]. split; [exact Hn | reflexivity].
Qed.

Lemma returns_fork child :
  grows child -> returns (fun pid => 0 <= pid) (fork P child).
Proof.
  destruct Hhost as (Hfork & _ & _).
  intros Hg st Hn.
  destruct (fork_inv P child st (Hfork st)) as (w & stc & Hrun & Hf).
  apply Hg in Hrun. cbn in Hrun.
  exists (next_pid st), (rejoin st stc w).
  split; [exact Hf |]. split; [cbn; lia | exact Hn].
Qed.

Lemma returns_guard_fork {A : Type} child (k : Z -> M A) :
  grows child -> (forall pid, returns any (k pid)) ->
  returns any (pid <- fork P child ;; DIE P (pid <? 0) "fork" ;; k pid).
Proof.
  intros Hg Hk.
  apply (returns_bind _ _ _ _ (returns_fork child Hg)). intros pid Hpid.
  replace (pid <? 0) with false by (symmetry; apply Z.ltb_ge; lia).
  apply (returns_bind _ _ _ _ (returns_DIE_false _)). intros _ _. apply Hk.
Qed.

Lemma returns_open_files_turn s i redir1 :
  returns any (open_files_turn P s i redir1).
Proof.
  unfold open_files_turn.
  apply (returns_bind _ _ _ _ (returns_dup _)). intros saved _.
  destruct (match i with O => out s | 1%nat => redir1 | _ => in_ s end);
    [| now apply returns_ret].
  apply (returns_bind _ _ _ _ (returns_gets _)). intros e _.
  apply (returns_bind (fun r => 0 <= snd r)).
  - repeat match goal with
           | |- returns _ (if ?b then _ else _) => destruct b
           end.
    + apply (returns_bind _ _ _ _ (returns_open _ _)). intros fd Hfd.
      apply (returns_bind _ _ _ _ (returns_dup2 _ _)). intros _ _.
      now apply returns_ret.
    + apply (returns_bind _ _ _ _ (returns_open _ _)). intros fd Hfd.
      now apply returns_ret.
    + apply (returns_bind _ _ _ _ (returns_open _ _)). intros fd Hfd.
      now apply returns_ret.
  - intros [redir1' fd] Hfd. cbn [snd] in Hfd.
    replace (fd <? 0) with false by (symmetry; apply Z.ltb_ge; lia).
    apply (returns_bind _ _ _ _ (returns_DIE_false _)). intros _ _.
    apply (returns_bind _ _ _ _ (returns_dup2 _ _)). intros _ _.
    apply (returns_bind _ _ _ _ (returns_close _)). intros _ _.
    now apply returns_ret.
Qed.

Lemma returns_open_files s : returns any (open_files P s).
Proof.
  unfold open_files.
  repeat (apply (returns_bind _ _ _ _ (returns_open_files_turn _ _ _));
          intros ? _).
  now apply returns_ret.
Qed.

Lemma returns_fix_redirects outs_save : returns any (fix_redirects outs_save).
Proof.
  unfold fix_redirects.
  repeat (first [ apply (returns_bind _ _ _ _ (returns_dup2 _ _))
                | apply (returns_bind _ _ _ _ (returns_close _)) ];
          intros _ _).
  apply returns_close.
Qed.

Lemma returns_shell_cd dir : returns any (shell_cd P dir).
Proof.
  unfold shell_cd. destruct dir as [d |]; [| now apply returns_ret].
  destruct (negb (is_null (word_next_part d))); [now apply returns_ret |].
  apply (returns_bind _ _ _ _ (returns_chdir _)). intros rc _.
  destruct (rc <? 0); [| now apply returns_ret].
  apply (returns_bind _ _ _ _ (returns_emit _)). intros _ _.
  now apply returns_ret.
Qed.

Lemma returns_external s command :
  returns any (child <- fork P (external_child P s command) ;;
               DIE P (child <? 0) "fork" ;;
               status <- wait P 0 ;;
               ret (WEXITSTATUS status)).
Proof.
  apply returns_guard_fork; [apply grows_external_child | intros _].
  apply (returns_bind _ _ _ _ (returns_wait _)). intros status _.
  now apply returns_ret.
Qed.

Lemma returns_parse_simple s level father :
  returns any (parse_simple P (Some s) level father).
Proof.
  unfold parse_simple, shell_exit.
  destruct (verb s) as [v |]; [| now apply returns_ret].
  apply (returns_bind _ _ _ _ (returns_gets _)). intros e _.
  repeat match goal with
         | |- returns _ (if ?b then _ else _) => destruct b
         | |- returns _ (ret _) => now apply returns_ret
         end.
  - apply (returns_bind _ _ _ _ (returns_open_files _)). intros saved _.
    apply (returns_bind _ _ _ _ (returns_shell_cd _)). intros ok _.
    apply (returns_bind _ _ _ _ (returns_fix_redirects _)). intros _ _.
    now apply returns_ret.
  - destruct (word_next_part v) as [np |]; [| apply returns_external].
    destruct (strcmp_eq (word_string np) "=");
      [apply returns_setenv | apply returns_external].
Qed.

Lemma returns_wait_children i status :
  returns any (wait_children P i status).
Proof.
  revert status. induction i as [| i IH]; intros status; cbn [wait_children].
  - now apply returns_ret.
  - apply (returns_bind _ _ _ _ (returns_wait _)). intros s' _.
    destruct (negb (WIFEXITED s')); [now apply returns_ret | apply IH].
Qed.

Lemma returns_run_in_parallel cmd1 cmd2 level father :
  (forall l f, grows (cmd1 l f)) -> (forall l f, grows (cmd2 l f)) ->
  returns any (run_in_parallel P cmd1 cmd2 level father).
Proof.
  intros H1 H2. unfold run_in_parallel.
  apply returns_guard_fork; [apply grows_child_exit, H1 | intros _].
  apply returns_guard_fork; [apply grows_child_exit, H2 | intros _].
  apply returns_wait_children.
Qed.

Lemma grows_pipe_child (setup : M unit) run :
  fd_spec P setup -> grows run -> grows (setup ;; child_exit run).
Proof.
  intros Hs Hr. apply grows_bind; [now apply (grows_fd_spec P) |].
  intros _. now apply grows_child_exit.
Qed.

Lemma fd_spec_pipe_setup fd0 fd1 :
  fd_spec P (pipe_left_setup fd0 fd1) /\ fd_spec P (pipe_right_setup fd0 fd1).
Proof.
  unfold pipe_left_setup, pipe_right_setup.
  split; repeat (apply fd_spec_bind; [| intros ?]);
    auto using fd_spec_dup2, fd_spec_close.
Qed.

Lemma returns_run_on_pipe cmd1 cmd2 level father :
  (forall l f, grows (cmd1 l f)) -> (forall l f, grows (cmd2 l f)) ->
  returns any (run_on_pipe P cmd1 cmd2 level father).
Proof.
  intros H1 H2. unfold run_on_pipe.
  apply (returns_bind _ _ _ _ returns_pipe). intros [[rc fd0] fd1] Hrc.
  cbn [fst] in Hrc. subst rc. cbn [Z.ltb Z.compare].
  apply (returns_bind _ _ _ _ (returns_DIE_false _)). intros _ _.
  apply returns_guard_fork;
    [apply grows_pipe_child; [apply fd_spec_pipe_setup | apply H1] |].
  intros child1.
  apply returns_guard_fork;
    [apply grows_pipe_child; [apply fd_spec_pipe_setup | apply H2] |].
  intros child2.
  apply (returns_bind _ _ _ _ (returns_close _)). intros _ _.
  apply (returns_bind _ _ _ _ (returns_close _)). intros _ _.
  apply (returns_bind _ _ _ _ (returns_waitpid _ _ _)). intros s1 _.
  apply (returns_bind _ _ _ _ (returns_waitpid _ _ _)). intros s2 _.
  destruct (negb (WEXITSTATUS s2 =? 0)); now apply returns_ret.
Qed.

Lemma returns_parse_command c :
  well_formed c ->
  forall level father, returns any (parse_command P c level father).
Proof.
  induction 1 as [s | o a b Hop Ha IHa Hb IHb]; intros level father.
  - cbn [parse_command is_null andb]. apply returns_parse_simple.
  - cbn [parse_command is_null andb].
    destruct o; try discriminate Hop.
    + apply (returns_bind _ _ _ _ (IHa _ _)). intros _ _.
      apply (returns_bind _ _ _ _ (IHb _ _)). intros _ _.
      now apply returns_ret.
    + apply (returns_bind any).
      * apply returns_run_in_parallel; apply grows_parse_command.
      * intros ok _. now apply returns_ret.
    + apply (returns_bind _ _ _ _ (IHa _ _)). intros r _.
      apply (returns_bind any); [| intros _ _; now apply returns_ret].
      destruct (r =? 0); [| now apply returns_ret].
      apply (returns_bind _ _ _ _ (IHb _ _)). intros _ _.
      now apply returns_ret.
    + apply (returns_bind _ _ _ _ (IHa _ _)). intros r _.
      apply (returns_bind any); [| intros _ _; now apply returns_ret].
      destruct (negb (r =? 0)); [| now apply returns_ret].
      apply (returns_bind _ _ _ _ (IHb _ _)). intros _ _.
      now apply returns_ret.
    + apply (returns_bind any).
      * apply returns_run_on_pipe; apply grows_parse_command.
      * intros ok _. now apply returns_ret.
Qed.

End Termination.

(** C8.  [parse_command] is a structural recursion over the tree, so it
    always ends.  On a well-formed tree it returns a status or ends the
    process through [DIE] (a failed open, fork or pipe), never through
    a fault; on a host without these fatal conditions it returns a
    status. *)
Theorem well_formed_tree_returns_or_dies :
  forall P c level father st,
    well_formed c ->
    ((exists v st', parse_command P c level father st = (Ret v, st')) \/
     (exists st',
         parse_command P c level father st = (Halt (die_status P), st'))) /\
    (never_fatal P -> 0 <= next_pid st ->
     exists v st', parse_command P c level father st = (Ret v, st')).
Proof.
  intros P c level father st Hwf. split.
  - destruct (parse_command P c level father st) as [[v | w] st'] eqn:H.
    + left. now exists v, st'.
    + right. exists st'.
      now rewrite (dies_only_parse_command P c Hwf level father st w st' H).
  - intros Hhost Hn.
    destruct (returns_parse_command P Hhost c Hwf level father st Hn)
      as (v & st' & H & _).
    now exists v, st'.
Qed.

(** ** Concrete runs: witnesses and counterexamples *)

(** Witness of C1: [false ; cd /tmp] changes the directory although
    [false] failed, and returns -1 although [cd /tmp] returned 0. *)
Lemma sequential_witness :
  parse_command D cmd_false 0 (Some seq_false_cd) demo_state
  = (Ret (-1), demo_state) /\
  parse_command D cd_tmp (0 + 1) (Some seq_false_cd) demo_state
  = (Ret 0, after_cd_tmp seq_false_cd) /\
  cwd (after_cd_tmp seq_false_cd) = "/tmp" /\
  parse_command D seq_false_cd 0 None demo_state
  = (Ret (-1), after_cd_tmp seq_false_cd).
Proof.
  assert (HA : parse_command D cmd_false 0 (Some seq_false_cd) demo_state
               = (Ret (-1), demo_state)) by (vm_compute; reflexivity).
  assert (HB : parse_command D cd_tmp (0 + 1) (Some seq_false_cd) demo_state
               = (Ret 0, after_cd_tmp seq_false_cd)) by (vm_compute; reflexivity).
  split; [exact HA |]. split; [exact HB |].
  split; [vm_compute; reflexivity |].
  exact (sequential_runs_both_returns_minus_one
           D cmd_false cd_tmp None 0 None demo_state
           (-1) demo_state 0 (after_cd_tmp seq_false_cd) HA HB).
Defined.

(** Witness of C2: [true || cd /tmp] leaves the directory alone and
    returns -1 although [true] returned 0; [false || cd /tmp] changes
    the directory and returns -1 although [cd /tmp] returned 0. *)
Lemma cond_nonzero_witness :
  (parse_command D cmd_true 0 (Some or_true_cd) demo_state
   = (Ret 0, demo_state) /\
   parse_command D or_true_cd 0 None demo_state = (Ret (-1), demo_state)) /\
  (parse_command D cmd_false 0 (Some or_false_cd) demo_state
   = (Ret (-1), demo_state) /\
   parse_command D cd_tmp (0 + 1) (Some or_false_cd) demo_state
   = (Ret 0, after_cd_tmp or_false_cd) /\
   parse_command D or_false_cd 0 None demo_state
   = (Ret (-1), after_cd_tmp or_false_cd)).
Proof.
  split.
  - assert (HA : parse_command D cmd_true 0 (Some or_true_cd) demo_state
                 = (Ret 0, demo_state)) by (vm_compute; reflexivity).
    split; [exact HA |].
    exact (proj1 (cond_nonzero_runs_right_on_failure_returns_minus_one
                    D cmd_true cd_tmp None 0 None demo_state)
                 demo_state HA).
  - assert (HA : parse_command D cmd_false 0 (Some or_false_cd) demo_state
                 = (Ret (-1), demo_state)) by (vm_compute; reflexivity).
    assert (HB : parse_command D cd_tmp (0 + 1) (Some or_false_cd) demo_state
                 = (Ret 0, after_cd_tmp or_false_cd)) by (vm_compute; reflexivity).
    split; [exact HA |]. split; [exact HB |].
    refine (proj2 (cond_nonzero_runs_right_on_failure_returns_minus_one
                     D cmd_false cd_tmp None 0 None demo_state)
                  (-1) demo_state 0 (after_cd_tmp or_false_cd) _ HA HB).
    lia.
Defined.

(** Witness of C10: a node with a child and an operator tag outside the
    six known ones. *)
Lemma unknown_operator_witness :
  is_null (Some cmd_true) && is_null (@None command_t)
  && is_null (@None simple_command_t) = false /\
  parse_command D (Command (OP_OTHER 6) (Some cmd_true) None None)
                0 None demo_state
  = (Ret (SHELL_EXIT D), demo_state).
Proof.
  assert (H : is_null (Some cmd_true) && is_null (@None command_t)
              && is_null (@None simple_command_t) = false)
    by (vm_compute; reflexivity).
  split; [exact H |].
  exact (unknown_operator_returns_shell_exit
           D 6 (Some cmd_true) None None 0 None demo_state H).
Defined.

(** Witness of C5: the leaves [true] and [false]. *)
Lemma boolean_literals_witness :
  (get_word D (env demo_state) (Some (word "true")) = "true" /\
   parse_command D cmd_true 0 None demo_state = (Ret 0, demo_state)) /\
  (get_word D (env demo_state) (Some (word "false")) = "false" /\
   parse_command D cmd_false 0 None demo_state = (Ret (-1), demo_state)).
Proof.
  split.
  - assert (H : get_word D (env demo_state) (Some (word "true")) = "true")
      by (vm_compute; reflexivity).
    split; [exact H |].
    exact (proj1 (true_returns_zero_false_returns_minus_one
                    D (simple "true" None) (word "true") None None 0 None
                    demo_state eq_refl) H).
  - assert (H : get_word D (env demo_state) (Some (word "false")) = "false")
      by (vm_compute; reflexivity).
    split; [exact H |].
    exact (proj2 (true_returns_zero_false_returns_minus_one
                    D (simple "false" None) (word "false") None None 0 None
                    demo_state eq_refl) H).
Defined.

(** Counterexample to C5 as worded: the leaf [false] returns -1, not
    1. *)
Lemma false_literal_counterexample : ~ spec_boolean_literals D.
Proof.
  intros H.
  destruct (H (simple "false" None) (word "false") None None 0 None
              demo_state eq_refl) as [_ Hfalse].
  assert (Hw : get_word D (env demo_state) (Some (word "false")) = "false")
    by (vm_compute; reflexivity).
  apply Hfalse in Hw. vm_compute in Hw. discriminate Hw.
Qed.

(** Witness of C6: [cd /nonexistent] returns 1, stays in [/home] and
    emits perror("cd"). *)
Lemma cd_failure_witness :
  parse_simple D (Some cd_nonexistent) 0 None demo_state
  = (Ret 1, after_simple cd_nonexistent) /\
  cwd (after_simple cd_nonexistent) = "/home" /\
  In (100, EvPerror "cd") (new_events demo_state (after_simple cd_nonexistent)).
Proof.
  assert (Hc : get_word D (env demo_state) (Some (word "cd")) = "cd")
    by (vm_compute; reflexivity).
  assert (Hf : cd_bad_arguments cd_nonexistent
               || cd_chdir_refused D cd_nonexistent demo_state = true)
    by (vm_compute; reflexivity).
  assert (Hrun : parse_simple D (Some cd_nonexistent) 0 None demo_state
                 = (Ret 1, after_simple cd_nonexistent))
    by (vm_compute; reflexivity).
  destruct (cd_failure_status_directory_diagnostic
              D cd_nonexistent (word "cd") 0 None demo_state
              (Ret 1) (after_simple cd_nonexistent) eq_refl Hc Hf Hrun)
    as (Hcwd & _ & _ & Hdiag).
  split; [exact Hrun |]. split; [exact Hcwd |].
  apply Hdiag; [reflexivity | vm_compute; reflexivity].
Defined.

(** Counterexample to C6 as worded: [cd] without argument fails without
    any diagnostic. *)
Lemma cd_without_argument_counterexample : ~ spec_cd_failure D.
Proof.
  intros H.
  assert (Hc : get_word D (env demo_state) (Some (word "cd")) = "cd")
    by (vm_compute; reflexivity).
  assert (Hrun : parse_simple D (Some cd_alone) 0 None demo_state
                 = (Ret 1, after_simple cd_alone))
    by (vm_compute; reflexivity).
  destruct (H cd_alone (word "cd") 0 None demo_state (Ret 1)
              (after_simple cd_alone) eq_refl Hc (or_introl eq_refl) Hrun)
    as (_ & Hdiag & _).
  vm_compute in Hdiag. discriminate Hdiag.
Qed.

(** A second argument is not looked at: [cd /tmp b] succeeds. *)
Example cd_ignores_further_words :
  parse_simple D (Some (simple "cd" (Some (Word "/tmp" None (Some (word "b"))))))
               0 None demo_state
  = (Ret 0,
     after_simple (simple "cd" (Some (Word "/tmp" None (Some (word "b")))))) /\
  cwd (after_simple (simple "cd" (Some (Word "/tmp" None (Some (word "b"))))))
  = "/tmp".
Proof. split; vm_compute; reflexivity. Qed.

(** Witness of C7: [ls > f 2> f]. *)
Lemma combined_redirect_witness :
  exists saved0 fd,
    (0 <= fd ->
     exists saved1 tail,
       map snd (rev (new_events demo_state
                       (snd (open_files D (both_to "ls" "f") demo_state))))
       = [EvDup STDOUT_FILENO saved0;
          EvOpen (get_word D (env demo_state) (Some (word "f")))
                 combined_flags fd;
          EvDup2 fd STDERR_FILENO STDERR_FILENO;
          EvDup2 fd STDOUT_FILENO STDOUT_FILENO;
          EvClose fd;
          EvDup STDERR_FILENO saved1] ++ tail /\
       Forall not_a_writing_open tail) /\
    (fd < 0 ->
     fst (open_files D (both_to "ls" "f") demo_state) = Halt (die_status D) /\
     map snd (rev (new_events demo_state
                     (snd (open_files D (both_to "ls" "f") demo_state))))
     = [EvDup STDOUT_FILENO saved0;
        EvOpen (get_word D (env demo_state) (Some (word "f")))
               combined_flags fd;
        EvDup2 fd STDERR_FILENO (-1);
        EvDie "open"]).
Proof.
  exact (combined_redirect_opens_once
           D (both_to "ls" "f") (word "f") (word "f") demo_state
           (fst (open_files D (both_to "ls" "f") demo_state))
           (snd (open_files D (both_to "ls" "f") demo_state))
           eq_refl eq_refl eq_refl
           (surjective_pairing (open_files D (both_to "ls" "f") demo_state))).
Defined.

(** The events of that run. *)
Example combined_redirect_events :
  map snd (rev (new_events demo_state
                  (snd (open_files D (both_to "ls" "f") demo_state))))
  = [EvDup 1 3; EvOpen "f" 1601 4; EvDup2 4 2 2; EvDup2 4 1 1; EvClose 4;
     EvDup 2 4; EvDup 0 5].
Proof. vm_compute. reflexivity. Qed.

(** Witness of C8: a well-formed tree. *)
Lemma well_formed_witness :
  well_formed seq_false_cd /\
  ((exists v st', parse_command D seq_false_cd 0 None demo_state = (Ret v, st')) \/
   (exists st',
       parse_command D seq_false_cd 0 None demo_state
       = (Halt (die_status D), st'))) /\
  (never_fatal D -> 0 <= next_pid demo_state ->
   exists v st', parse_command D seq_false_cd 0 None demo_state = (Ret v, st')).
Proof.
  assert (Hwf : well_formed seq_false_cd)
    by (apply wf_node; [reflexivity | apply wf_leaf | apply wf_leaf]).
  split; [exact Hwf |].
  exact (well_formed_tree_returns_or_dies D seq_false_cd 0 None demo_state Hwf).
Defined.

(** Counterexample to C8 as worded: [cd /tmp > /forbidden] is a
    well-formed leaf; the redirection cannot be opened and [DIE] ends
    the process before any status is returned. *)
Lemma fatal_open_counterexample : ~ spec_always_returns D.
Proof.
  intros H.
  destruct (H cd_forbidden 0 None demo_state (wf_leaf _)) as (v & st' & Hrun).
  vm_compute in Hrun. discriminate Hrun.
Qed.

Lemma demo_state_sane : sane demo_state.
Proof. split; [vm_compute; discriminate | constructor]. Qed.

(** Witness of C3: in [true | false] the right-hand side returns -1,
    its child leaves with EXIT_FAILURE and the pipe returns 1; in
    [true | true] on a host that reports the right-hand child stopped
    by SIGSTOP the pipe returns 1 as well, although [true] returns 0. *)
Lemma pipe_status_witness :
  ((pipe_right_setup 3 4 ;;
    parse_command D cmd_false 0 (Some pipe_true_false))
     (spawn (pipe_run1 D pipe_true_false cmd_true))
   = (Ret (-1), pipe_runB D pipe_true_false cmd_true cmd_false) /\
   fst (parse_command D pipe_true_false 0 None demo_state) = Ret 1) /\
  ((pipe_right_setup 3 4 ;;
    parse_command stopping cmd_true 0 (Some pipe_true_true))
     (spawn (pipe_run1 stopping pipe_true_true cmd_true))
   = (Ret 0, pipe_runB stopping pipe_true_true cmd_true cmd_true) /\
   fst (parse_command stopping pipe_true_true 0 None demo_state) = Ret 1).
Proof.
  split.
  - assert (Hpipe : pipe D demo_state = (Ret (0, 3, 4), snd (pipe D demo_state)))
      by (vm_compute; reflexivity).
    assert (Hfork1 : fork D (pipe_left_setup 3 4 ;;
                             child_exit (parse_command D cmd_true 0
                                           (Some pipe_true_false)))
                          (snd (pipe D demo_state))
                     = (Ret 101, pipe_run1 D pipe_true_false cmd_true))
      by (vm_compute; reflexivity).
    assert (HB : (pipe_right_setup 3 4 ;;
                  parse_command D cmd_false 0 (Some pipe_true_false))
                   (spawn (pipe_run1 D pipe_true_false cmd_true))
                 = (Ret (-1), pipe_runB D pipe_true_false cmd_true cmd_false))
      by (vm_compute; reflexivity).
    assert (Hfork2 : fork D (pipe_right_setup 3 4 ;;
                             child_exit (parse_command D cmd_false 0
                                           (Some pipe_true_false)))
                          (pipe_run1 D pipe_true_false cmd_true)
                     = (Ret 102, pipe_run2 D pipe_true_false cmd_true cmd_false))
      by (vm_compute; reflexivity).
    assert (Hw1 : (close 3 ;; close 4 ;; waitpid D 101 0 WSTOPPED)
                    (pipe_run2 D pipe_true_false cmd_true cmd_false)
                  = (Ret 0, pipe_run3 D pipe_true_false cmd_true cmd_false))
      by (vm_compute; reflexivity).
    split; [exact HB |].
    refine (proj1 (proj1 (proj2 (pipe_status_from_right_child
                                   D cmd_true cmd_false None 0 None demo_state
                                   3 4 _ 101 _ (Ret (-1)) _ 102 _ 0 _
                                   demo_state_sane Hpipe eq_refl Hfork1
                                   eq_refl HB Hfork2 Hw1))
                         eq_refl (-1) eq_refl) _).
    lia.
  - assert (Hpipe : pipe stopping demo_state
                    = (Ret (0, 3, 4), snd (pipe stopping demo_state)))
      by (vm_compute; reflexivity).
    assert (Hfork1 : fork stopping
                          (pipe_left_setup 3 4 ;;
                           child_exit (parse_command stopping cmd_true 0
                                         (Some pipe_true_true)))
                          (snd (pipe stopping demo_state))
                     = (Ret 101, pipe_run1 stopping pipe_true_true cmd_true))
      by (vm_compute; reflexivity).
    assert (HB : (pipe_right_setup 3 4 ;;
                  parse_command stopping cmd_true 0 (Some pipe_true_true))
                   (spawn (pipe_run1 stopping pipe_true_true cmd_true))
                 = (Ret 0, pipe_runB stopping pipe_true_true cmd_true cmd_true))
      by (vm_compute; reflexivity).
    assert (Hfork2 : fork stopping
                          (pipe_right_setup 3 4 ;;
                           child_exit (parse_command stopping cmd_true 0
                                         (Some pipe_true_true)))
                          (pipe_run1 stopping pipe_true_true cmd_true)
                     = (Ret 102,
                        pipe_run2 stopping pipe_true_true cmd_true cmd_true))
      by (vm_compute; reflexivity).
    assert (Hw1 : (close 3 ;; close 4 ;; waitpid stopping 101 0 WSTOPPED)
                    (pipe_run2 stopping pipe_true_true cmd_true cmd_true)
                  = (Ret 0, pipe_run3 stopping pipe_true_true cmd_true cmd_true))
      by (vm_compute; reflexivity).
    split; [exact HB |].
    refine (proj2 (proj2 (pipe_status_from_right_child
                            stopping cmd_true cmd_true None 0 None demo_state
                            3 4 _ 101 _ (Ret 0) _ 102 _ 0 _
                            demo_state_sane Hpipe eq_refl Hfork1
                            eq_refl HB Hfork2 Hw1))
                  SIGSTOP eq_refl _).
    vm_compute. split; reflexivity.
Defined.

(** Counterexample to C3 as worded: in [true | false] the right-hand
    side returns -1 and the pipe returns 1. *)
Lemma pipe_status_counterexample : ~ spec_pipe_status D.
Proof.
  intros H.
  assert (Hpipe : pipe D demo_state = (Ret (0, 3, 4), snd (pipe D demo_state)))
    by (vm_compute; reflexivity).
  assert (Hfork : fork D (pipe_left_setup 3 4 ;;
                          child_exit (parse_command D cmd_true 0
                                                    (Some pipe_true_false)))
                       (snd (pipe D demo_state))
                  = (Ret 101, pipe_run1 D pipe_true_false cmd_true))
    by (vm_compute; reflexivity).
  assert (HB : (pipe_right_setup 3 4 ;;
                parse_command D cmd_false 0 (Some pipe_true_false))
                 (spawn (pipe_run1 D pipe_true_false cmd_true))
               = (Ret (-1), pipe_runB D pipe_true_false cmd_true cmd_false))
    by (vm_compute; reflexivity).
  pose proof (H cmd_true cmd_false None 0 None demo_state 3 4
                _ 101 _ (-1) _
                demo_state_sane Hpipe eq_refl Hfork eq_refl HB) as Hbad.
  vm_compute in Hbad. discriminate Hbad.
Qed.

(** A status of the right-hand side that is positive: in [true | cd]
    the right-hand side returns 1 (cd without argument), its child
    leaves with EXIT_SUCCESS and the pipe returns 0. *)
Example pipe_positive_status :
  (pipe_right_setup 3 4 ;;
   parse_command D (cmd_cd None) 0 (Some pipe_true_cd)) (spawn pipe_st1)
  = (Ret 1, pipe_stB) /\
  fst (parse_command D pipe_true_cd 0 None demo_state) = Ret 0.
Proof. split; vm_compute; reflexivity. Qed.

(** Witness of C4: in [false & true] the left subtree returns -1, its
    child ends by exit(EXIT_FAILURE), a normal exit, and the node
    returns 0. *)
Lemma parallel_status_witness :
  parse_command D cmd_false 0 (Some par_false_true) (spawn demo_state)
  = (Ret (-1), spawn demo_state) /\
  WEXITSTATUS (child_wstatus (Ret (-1))) = EXIT_FAILURE /\
  WIFEXITED (child_wstatus (Ret (-1))) = true /\
  fst (parse_command D par_false_true 0 None demo_state) = Ret 0.
Proof.
  assert (Hn : 0 <= next_pid demo_state) by (vm_compute; discriminate).
  assert (HA : parse_command D cmd_false 0 (Some par_false_true)
                             (spawn demo_state)
               = (Ret (-1), spawn demo_state))
    by (vm_compute; reflexivity).
  assert (HB : parse_command D cmd_true 0 (Some par_false_true)
                 (spawn (rejoin demo_state
                                (child_end (Ret (-1)) (spawn demo_state))
                                (child_wstatus (Ret (-1)))))
               = (Ret 0,
                  spawn (rejoin demo_state
                                (child_end (Ret (-1)) (spawn demo_state))
                                (child_wstatus (Ret (-1))))))
    by (vm_compute; reflexivity).
  destruct (parallel_success_despite_negative_status
              D cmd_false cmd_true None 0 None demo_state
              (-1) (spawn demo_state) 0 _ Hn eq_refl eq_refl HA eq_refl HB)
    as (Hcode & Hexited & _ & Hres).
  split; [exact HA |]. split; [exact Hcode |]. split; [exact Hexited |].
  exact Hres.
Defined.


(** The waits of that run, oldest first. *)
Example parallel_waits_events :
  map snd (rev (new_events (par_st2 D1 par_true_true cmd_true cmd_true)
                           (snd (parse_command D1 par_true_true 0 None
                                               demo_state))))
  = [EvWait 102 0; EvWait 101 0].
Proof. vm_compute. reflexivity. Qed.

(** The waits of [true & true] in a process that still has the child
    102 of an earlier [broken & true] to report: the waits report that
    child and the first child (103); the second child (104) stays. *)
Example parallel_waits_after_leftover :
  map snd (rev (new_events
                  (snd (parse_command D par_broken_true 0 None demo_state))
                  (snd (parse_command D par_true_true 0 None
                          (snd (parse_command D par_broken_true 0 None
                                              demo_state))))))
  = [EvFork 103; EvExit 0; EvFork 104; EvExit 0; EvWait 102 0; EvWait 103 0]
  /\ zombies (snd (parse_command D par_true_true 0 None
                     (snd (parse_command D par_broken_true 0 None
                                         demo_state))))
     = [(104, 0)].
Proof. split; vm_compute; reflexivity. Qed.


(** The descriptors of that run: stdout and stderr both refer to the
    one open of [f]. *)
Example combined_redirect_descriptors :
  fd_get (fdt (snd (open_files D (both_to "ls" "f") demo_state))) STDOUT_FILENO
  = Some (File "f" combined_flags) /\
  fd_get (fdt (snd (open_files D (both_to "ls" "f") demo_state))) STDERR_FILENO
  = Some (File "f" combined_flags).
Proof. split; vm_compute; reflexivity. Qed.

(** Assignment, then lookup in the same process. *)
Lemma env_get_set e name value : env_get (env_set e name value) name = Some value.
Proof.
  induction e as [| [k v] e IH]; cbn.
  - now rewrite String.eqb_refl.
  - destruct (String.eqb k name) eqn:Hk; cbn; rewrite Hk; auto.
Qed.

(** ** Further runs on the example host *)

(** An external program: one child, whose exit code is the status. *)
Example external_status :
  parse_command D (cmd_ext "grep") 0 None demo_state
  = (Ret 1, snd (parse_command D (cmd_ext "grep") 0 None demo_state)) /\
  map snd (rev (log (snd (parse_command D (cmd_ext "grep") 0 None demo_state))))
  = [EvFork 101; EvDup 1 3; EvDup 2 4; EvDup 0 5;
     EvExec "grep" ["grep"] true; EvWait 101 256].
Proof. split; vm_compute; reflexivity. Qed.

(** A program that cannot be loaded: the child reports it and exits
    with EXIT_FAILURE. *)
Example external_not_found :
  fst (parse_command D (cmd_ext "nothing") 0 None demo_state) = Ret 1 /\
  In (101, EvStderr (String.append "Execution failed for 'nothing'" newline))
     (log (snd (parse_command D (cmd_ext "nothing") 0 None demo_state))).
Proof. split; vm_compute; [reflexivity | tauto]. Qed.

(** [exit] and [quit] return the terminate status. *)
Example exit_status :
  parse_command D (cmd_ext "exit") 0 None demo_state = (Ret (-100), demo_state) /\
  parse_command D (cmd_ext "quit") 0 None demo_state = (Ret (-100), demo_state).
Proof. split; vm_compute; reflexivity. Qed.

(** An assignment changes the environment of the process itself. *)
Example assignment_status :
  fst (parse_command D assign_var 0 None demo_state) = Ret 0 /\
  env_get (env (snd (parse_command D assign_var 0 None demo_state))) "VAR"
  = Some "hello".
Proof. split; vm_compute; reflexivity. Qed.

(** A PARALLEL node fails when a child process is killed: here the
    right-hand pointer is null and the child dies on it. *)
Example parallel_fault_reports_failure :
  fst (parse_command D par_true_null 0 None demo_state) = Ret 1 /\
  In (100, EvWait 102 SIGSEGV)
     (log (snd (parse_command D par_true_null 0 None demo_state))).
Proof. split; vm_compute; [reflexivity | tauto]. Qed.

(** A program killed by a signal inside a branch does not: the child
    process that waited for it still exits normally. *)
Example parallel_crashing_program_reports_success :
  fst (parse_command D (node OP_PARALLEL (cmd_ext "crash") cmd_true)
                     0 None demo_state)
  = Ret 0.
Proof. vm_compute. reflexivity. Qed.

(** * Further properties of the executor *)

(** ** Conditionals, terminate status, range of the statuses *)

(** Witness of the COND_ZERO property: [false && cd /tmp] leaves the
    directory alone, [true && cd /tmp] changes it; both return -1. *)
Lemma cond_zero_witness :
  (parse_command D cmd_false 0 (Some and_false_cd) demo_state
   = (Ret (-1), demo_state) /\
   parse_command D and_false_cd 0 None demo_state = (Ret (-1), demo_state)) /\
  (parse_command D cd_tmp (0 + 1) (Some and_true_cd) demo_state
   = (Ret 0, after_cd_tmp and_true_cd) /\
   parse_command D and_true_cd 0 None demo_state
   = (Ret (-1), after_cd_tmp and_true_cd)).
Proof.
  split.
  - assert (HA : parse_command D cmd_false 0 (Some and_false_cd) demo_state
                 = (Ret (-1), demo_state)) by (vm_compute; reflexivity).
    split; [exact HA |].
    refine (proj1 (cond_zero_runs_right_on_success
                     D cmd_false cd_tmp None 0 None demo_state)
                  (-1) demo_state _ HA).
    lia.
  - assert (HA : parse_command D cmd_true 0 (Some and_true_cd) demo_state
                 = (Ret 0, demo_state)) by (vm_compute; reflexivity).
    assert (HB : parse_command D cd_tmp (0 + 1) (Some and_true_cd) demo_state
                 = (Ret 0, after_cd_tmp and_true_cd))
      by (vm_compute; reflexivity).
    split; [exact HB |].
    exact (proj2 (cond_zero_runs_right_on_success
                    D cmd_true cd_tmp None 0 None demo_state)
                 demo_state 0 (after_cd_tmp and_true_cd) HA HB).
Defined.

(** Witness of the PARALLEL property: [true & true]. *)
Lemma parallel_iff_witness :
  exists w1 w2,
    zombies (par_st2 D par_true_true cmd_true cmd_true)
    = [(101, w1); (102, w2)] /\
    fst (parse_command D par_true_true 0 None demo_state)
    = Ret (if WIFEXITED w1 && WIFEXITED w2 then 0 else 1) /\
    (fst (parse_command D par_true_true 0 None demo_state) = Ret 0 <->
     WIFEXITED w1 = true /\ WIFEXITED w2 = true).
Proof.
  assert (Hn : 0 <= next_pid demo_state) by (vm_compute; discriminate).
  assert (Hf1 : fork D (child_exit (parse_command D cmd_true 0
                                                  (Some par_true_true)))
                     demo_state
                = (Ret 101, par_st1 D par_true_true cmd_true))
    by (vm_compute; reflexivity).
  assert (Hf2 : fork D (child_exit (parse_command D cmd_true 0
                                                  (Some par_true_true)))
                     (par_st1 D par_true_true cmd_true)
                = (Ret 102, par_st2 D par_true_true cmd_true cmd_true))
    by (vm_compute; reflexivity).
  exact (parallel_success_iff_normal_exits
           D cmd_true cmd_true None 0 None demo_state
           101 (par_st1 D par_true_true cmd_true)
           102 (par_st2 D par_true_true cmd_true cmd_true)
           Hn eq_refl eq_refl Hf1 eq_refl Hf2).
Defined.

Section Dispatch.

Variable P : platform.

Lemma is_builtin_word_false command :
  is_builtin_word command = false ->
  strcmp_eq command "true" = false /\ strcmp_eq command "false" = false /\
  strcmp_eq command "cd" = false /\ strcmp_eq command "exit" = false /\
  strcmp_eq command "quit" = false.
Proof.
  unfold is_builtin_word, strcmp_eq. intros H.
  repeat (apply orb_false_elim in H; destruct H as [H ?]).
  repeat split; assumption.
Qed.

(** What [parse_simple] does for a verb that is neither a builtin nor
    an assignment (cmd.c:149-165). *)
Lemma parse_simple_external s v level father st :
  verb s = Some v ->
  is_builtin_word (get_word P (env st) (Some v)) = false ->
  is_assignment v = false ->
  parse_simple P (Some s) level father st
  = (child <- fork P (external_child P s (get_word P (env st) (Some v))) ;;
     DIE P (child <? 0) "fork" ;;
     status <- wait P 0 ;;
     ret (WEXITSTATUS status)) st.
Proof.
  intros Hv Hb Ha. unfold parse_simple. rewrite Hv.
  unfold bind at 1. unfold gets at 1. cbv beta iota.
  destruct (is_builtin_word_false _ Hb) as (-> & -> & -> & -> & ->).
  cbn [orb]. unfold is_assignment in Ha.
  destruct (word_next_part v) as [np |]; [| reflexivity].
  unfold strcmp_eq. rewrite Ha. reflexivity.
Qed.

(** What it does for an assignment (cmd.c:135-141). *)
Lemma parse_simple_assignment s v np level father st :
  verb s = Some v ->
  is_builtin_word (get_word P (env st) (Some v)) = false ->
  word_next_part v = Some np ->
  word_string np = "=" ->
  parse_simple P (Some s) level father st
  = setenv (word_string v) (get_word P (env st) (word_next_part np)) st.
Proof.
  intros Hv Hb Hnp Heq. unfold parse_simple. rewrite Hv.
  unfold bind at 1. unfold gets at 1. cbv beta iota.
  destruct (is_builtin_word_false _ Hb) as (-> & -> & -> & -> & ->).
  cbn [orb]. rewrite Hnp. unfold strcmp_eq. rewrite Heq. reflexivity.
Qed.

Lemma never_halts_bind {A B : Type} (m : M A) (k : A -> M B) :
  never_halts m -> (forall a, never_halts (k a)) -> never_halts (bind m k).
Proof.
  intros Hm Hk st w st' H.
  apply bind_inv in H as [(a & st1 & H1 & H2) | (w' & H1 & _)].
  - exact (Hk a st1 w st' H2).
  - exact (Hm st w' st' H1).
Qed.

Lemma never_halts_dup2 a b : never_halts (dup2 a b).
Proof.
  intros st w st' H. unfold dup2 in H.
  destruct (fd_get (fdt st) a); [destruct (b <? 0) |]; discriminate.
Qed.

Lemma never_halts_close fd : never_halts (close fd).
Proof. intros st w st' H. discriminate. Qed.

(** Restoring the descriptors cannot end the process. *)
Lemma never_halts_fix_redirects outs_save :
  never_halts (fix_redirects outs_save).
Proof.
  unfold fix_redirects.
  repeat (apply never_halts_bind;
          [first [apply never_halts_dup2 | apply never_halts_close] |
           intros _]).
  apply never_halts_close.
Qed.

(** A leaf whose verb reads [exit] or [quit] returns [SHELL_EXIT] at
    once: its arguments and redirections are not looked at and nothing
    happens to the process (cmd.c:128-131, 41-45). *)
Theorem exit_and_quit_return_shell_exit :
  forall s v cmd1 cmd2 level father st,
    verb s = Some v ->
    get_word P (env st) (Some v) = "exit"
    \/ get_word P (env st) (Some v) = "quit" ->
    parse_command P (Command OP_NONE cmd1 cmd2 (Some s)) level father st
    = (Ret (SHELL_EXIT P), st).
Proof.
  intros s v cmd1 cmd2 level father st Hv Hc.
  assert (Hn : is_null cmd1 && is_null cmd2 && is_null (Some s) = false)
    by (destruct cmd1, cmd2; reflexivity).
  cbn [parse_command]. rewrite Hn.
  unfold parse_simple. rewrite Hv. unfold bind, gets.
  destruct Hc as [-> | ->]; reflexivity.
Qed.

(** cd with a single one-part argument, when chdir succeeds: the status
    is 0, the working directory is the one chdir reached and no
    diagnostic is written; only a redirection that cannot be opened
    ends the process instead, the directory unchanged
    (cmd.c:122-127, 24-36). *)
Theorem cd_success_changes_directory :
  forall s v d dir level father st r st',
    verb s = Some v ->
    get_word P (env st) (Some v) = "cd" ->
    params s = Some d ->
    word_next_part d = None ->
    sys_chdir P (snd (open_files P s st)) (word_string d) = Some dir ->
    parse_simple P (Some s) level father st = (r, st') ->
    (r = Ret 0 /\ cwd st' = dir /\
     existsb (fun x => is_diagnostic (snd x)) (new_events st st') = false) \/
    (r = Halt (die_status P) /\ cwd st' = cwd st).
Proof.
  intros s v d dir level father st r st' Hv Hc Hd Hnp Hch H.
  rewrite (parse_simple_cd _ _ _ _ _ _ Hv Hc) in H.
  apply bind_inv in H as [(saved & st1 & Hopen & H) | (w & Hopen & ->)].
  2:{ right. apply fd_spec_open_files in Hopen as ((C & _) & ->). auto. }
  left.
  assert (Hst1 : snd (open_files P s st) = st1) by now rewrite Hopen.
  rewrite Hst1 in Hch.
  apply fd_spec_open_files in Hopen as ((C1 & S1 & _) & d1 & L1 & F1).
  assert (Hcd : shell_cd P (params s) st1
                = (Ret true, record (EvChdir (word_string d) 0) (set_cwd dir st1))).
  { rewrite Hd. unfold shell_cd. rewrite Hnp. cbn [is_null negb].
    unfold bind, chdir. rewrite Hch. reflexivity. }
  rewrite (bind_ret_eq _ _ _ _ _ Hcd) in H.
  apply bind_inv in H as [([] & st2 & Hfix & H) | (w & Hfix & Hw)].
  - inversion H; subst r st2. clear H.
    apply (fd_spec_fix_redirects P) in Hfix as ((C2 & _) & d2 & L2 & F2).
    cbn in C2, L2. repeat split; [exact C2 |].
    rewrite (new_events_app st st'
               (d2 ++ (self st1, EvChdir (word_string d) 0) :: d1))
      by (rewrite L2, L1, <- app_assoc; reflexivity).
    apply not_true_is_false. intros Hex.
    apply existsb_exists in Hex as (x & Hin & Hx).
    apply in_app_or in Hin as [Hin | [<- | Hin]].
    + rewrite Forall_forall in F2. apply F2 in Hin. congruence.
    + discriminate Hx.
    + rewrite Forall_forall in F1. apply F1 in Hin. congruence.
  - exfalso. exact (never_halts_fix_redirects _ _ _ _ Hfix).
Qed.

End Dispatch.

(** ** Statuses *)

Lemma WEXITSTATUS_range w : 0 <= WEXITSTATUS w <= 255.
Proof.
  unfold WEXITSTATUS. rewrite Z.shiftr_land.
  change (Z.shiftr 65280 8) with (Z.ones 8).
  rewrite Z.land_ones by lia.
  pose proof (Z.mod_pos_bound (Z.shiftr w 8) (2 ^ 8) ltac:(lia)).
  change (2 ^ 8) with 256 in *. lia.
Qed.

(** A wait status below 256 carries no exit code: the process was
    killed by a signal. *)
Lemma WEXITSTATUS_signal w : 0 <= w < 256 -> WEXITSTATUS w = 0.
Proof.
  intros Hw. unfold WEXITSTATUS. rewrite Z.shiftr_land.
  change (Z.shiftr 65280 8) with (Z.ones 8).
  rewrite Z.land_ones by lia.
  rewrite Z.shiftr_div_pow2 by lia. change (2 ^ 8) with 256.
  rewrite (Z.div_small w 256) by lia. reflexivity.
Qed.

Section Statuses.

Variable P : platform.

Lemma yields_ret {A : Type} (Q : A -> Prop) (a : A) : Q a -> yields Q (ret a).
Proof. intros HQ st b st' H. inversion H; subst. exact HQ. Qed.

Lemma yields_bind {A B : Type} (Q : B -> Prop) (m : M A) (k : A -> M B) :
  (forall a, yields Q (k a)) -> yields Q (bind m k).
Proof.
  intros Hk st b st' H.
  apply bind_inv in H as [(a & st1 & _ & H2) | (w & _ & Hw)].
  - exact (Hk a st1 b st' H2).
  - discriminate Hw.
Qed.

Lemma range_minus_one : status_in_range P (-1).
Proof. right. lia. Qed.

Lemma range_zero : status_in_range P 0.
Proof. right. lia. Qed.

Lemma range_one : status_in_range P 1.
Proof. right. lia. Qed.

Lemma range_flag (b : bool) : status_in_range P (if b then 0 else 1).
Proof. destruct b; [apply range_zero | apply range_one]. Qed.

Lemma yields_setenv name value :
  yields (status_in_range P) (setenv name value).
Proof.
  intros st a st' H. unfold setenv in H.
  destruct (String.eqb name "" || has_equals name); inversion H; subst.
  - apply range_minus_one.
  - apply range_zero.
Qed.

Lemma yields_external s command :
  yields (status_in_range P)
         (child <- fork P (external_child P s command) ;;
          DIE P (child <? 0) "fork" ;;
          status <- wait P 0 ;;
          ret (WEXITSTATUS status)).
Proof.
  repeat (apply yields_bind; intros ?).
  apply yields_ret. right. pose proof (WEXITSTATUS_range a1). lia.
Qed.

Lemma yields_parse_simple s level father :
  yields (status_in_range P) (parse_simple P s level father).
Proof.
  unfold parse_simple, shell_exit. destruct s as [s |].
  - destruct (verb s) as [v |]; [| apply yields_ret, range_minus_one].
    apply yields_bind. intros e.
    repeat match goal with
           | |- yields _ (if ?b then _ else _) => destruct b
           end.
    + apply yields_ret, range_zero.
    + apply yields_ret, range_minus_one.
    + repeat (apply yields_bind; intros ?). apply yields_ret, range_flag.
    + apply yields_ret. now left.
    + destruct (word_next_part v) as [np |]; [| apply yields_external].
      destruct (strcmp_eq (word_string np) "=");
        [apply yields_setenv | apply yields_external].
  - unfold segfault. apply yields_bind. intros _ st a st' H. discriminate H.
Qed.

(** Whatever the tree, a status returned by [parse_command] is the
    terminate status or lies between -1 and 255: -1 and the booleans of
    the operators, 0, 1 and -1 of the builtins, the result of setenv,
    and the eight bits WEXITSTATUS extracts (cmd.c:262-312,
    102-168). *)
Theorem parse_command_status_range :
  forall c level father st v st',
    parse_command P c level father st = (Ret v, st') ->
    v = SHELL_EXIT P \/ -1 <= v <= 255.
Proof.
  intros [o cmd1 cmd2 scmd] level father.
  enough (H : yields (status_in_range P)
                     (parse_command P (Command o cmd1 cmd2 scmd) level father))
    by (intros st v st' Hr; exact (H st v st' Hr)).
  cbn [parse_command].
  destruct (is_null cmd1 && is_null cmd2 && is_null scmd);
    [apply yields_ret, range_minus_one |].
  destruct o.
  - apply yields_parse_simple.
  - repeat (apply yields_bind; intros ?). apply yields_ret, range_minus_one.
  - apply yields_bind. intros ok. apply yields_ret, range_flag.
  - repeat (apply yields_bind; intros ?). apply yields_ret, range_minus_one.
  - repeat (apply yields_bind; intros ?). apply yields_ret, range_minus_one.
  - apply yields_bind. intros ok. apply yields_ret, range_flag.
  - apply yields_ret. now left.
Qed.

End Statuses.

(** Witness: [grep] ends with code 1. *)
Lemma status_range_witness :
  parse_command D (cmd_ext "grep") 0 None demo_state
  = (Ret 1, snd (parse_command D (cmd_ext "grep") 0 None demo_state)) /\
  (1 = SHELL_EXIT D \/ -1 <= 1 <= 255).
Proof.
  assert (H : parse_command D (cmd_ext "grep") 0 None demo_state
              = (Ret 1, snd (parse_command D (cmd_ext "grep") 0 None
                                           demo_state)))
    by (vm_compute; reflexivity).
  split; [exact H |].
  exact (parse_command_status_range D (cmd_ext "grep") 0 None demo_state 1 _ H).
Defined.

(** ** Assignments and external programs *)

Lemma env_get_set_other e name value other :
  other <> name ->
  env_get (env_set e name value) other = env_get e other.
Proof.
  intros Hne. induction e as [| [k x] e IH]; cbn.
  - destruct (String.eqb_spec name other); [congruence | reflexivity].
  - destruct (String.eqb_spec k name) as [-> | Hk]; cbn.
    + destruct (String.eqb_spec name other); [congruence | reflexivity].
    + destruct (String.eqb k other); [reflexivity | exact IH].
Qed.

Section Programs.

Variable P : platform.

(** An assignment [NAME=value] with a well-formed name sets the
    variable in the environment of the running process and returns 0;
    the other variables stay, no process is created and no descriptor
    is touched: the redirections of the command are not applied
    (cmd.c:135-141). *)
Theorem assignment_sets_variable :
  forall s v np level father st,
    verb s = Some v ->
    is_builtin_word (get_word P (env st) (Some v)) = false ->
    word_next_part v = Some np ->
    word_string np = "=" ->
    String.eqb (word_string v) "" || has_equals (word_string v) = false ->
    exists st',
      parse_simple P (Some s) level father st = (Ret 0, st') /\
      env_get (env st') (word_string v)
      = Some (get_word P (env st) (word_next_part np)) /\
      (forall other, other <> word_string v ->
                     env_get (env st') other = env_get (env st) other) /\
      new_events st st'
      = [(self st, EvSetenv (word_string v)
                            (get_word P (env st) (word_next_part np)) 0)] /\
      cwd st' = cwd st /\ fdt st' = fdt st /\ zombies st' = zombies st.
Proof.
  intros s v np level father st Hv Hb Hnp Heq Hname.
  rewrite (parse_simple_assignment P s v np level father st Hv Hb Hnp Heq).
  unfold setenv. rewrite Hname.
  eexists. split; [reflexivity |].
  split; [cbn; apply env_get_set |].
  split; [intros other Ho; cbn; now apply env_get_set_other |].
  split; [| repeat split].
  apply (new_events_app st _ [_]). reflexivity.
Qed.

Lemma wait_single status st pid w :
  zombies st = [(pid, w)] ->
  wait P status st = (Ret w, record (EvWait pid w) (set_zombies [] st)).
Proof.
  intros Hz. unfold wait. rewrite Hz. cbn [List.length].
  rewrite Nat.mod_1_r. reflexivity.
Qed.

(** An external command, started by a process that has no unreported
    child: the status is the exit-code byte of the wait status of the
    child, whatever way the child ended, so a program killed by a
    signal (a wait status below 256) is reported with status 0.  The
    directory, the environment and the descriptors of the shell are
    those of before: the redirections were made in the child
    (cmd.c:149-165). *)
Theorem external_command_status :
  forall s v level father st rc stc,
    verb s = Some v ->
    is_builtin_word (get_word P (env st) (Some v)) = false ->
    is_assignment v = false ->
    zombies st = [] ->
    0 <= next_pid st ->
    sys_fork_ok P st = true ->
    external_child P s (get_word P (env st) (Some v)) (spawn st) = (rc, stc) ->
    exists st',
      parse_simple P (Some s) level father st
      = (Ret (WEXITSTATUS (halt_status rc)), st') /\
      (0 <= halt_status rc < 256 ->
       parse_simple P (Some s) level father st = (Ret 0, st')) /\
      cwd st' = cwd st /\ env st' = env st /\ fdt st' = fdt st /\
      zombies st' = [].
Proof.
  intros s v level father st rc stc Hv Hb Ha Hz Hn Hok Hrun.
  rewrite (parse_simple_external P s v level father st Hv Hb Ha).
  assert (Hrun' : external_child P s (get_word P (env st) (Some v)) (spawn st)
                  = (Halt (halt_status rc), stc)).
  { rewrite Hrun. destruct rc as [[] | w]. reflexivity. }
  rewrite (bind_ret_eq _ _ _ _ _ (fork_runs_child P _ _ _ _ Hok Hrun')).
  replace (next_pid st <? 0) with false by (symmetry; apply Z.ltb_ge; lia).
  rewrite (bind_ret_eq _ _ _ _ _ (DIE_false P _ _)).
  erewrite (bind_ret_eq (wait P 0)).
  2:{ apply wait_single. cbn. rewrite Hz. reflexivity. }
  eexists. split; [reflexivity |].
  split.
  - intros Hw. rewrite (WEXITSTATUS_signal _ Hw). reflexivity.
  - repeat split.
Qed.

(** An external command whose program cannot be loaded, started by a
    process that has no unreported child, when fork succeeds and the
    redirections can be opened: the child writes the line
    [Execution failed for '<command>'], newline included, and leaves
    with EXIT_FAILURE, and the status is 1
    (cmd.c:155-159, 162-164). *)
Theorem external_command_not_loaded :
  forall s v level father st saved st1,
    verb s = Some v ->
    is_builtin_word (get_word P (env st) (Some v)) = false ->
    is_assignment v = false ->
    zombies st = [] ->
    0 <= next_pid st ->
    sys_fork_ok P st = true ->
    open_files P s (spawn st) = (Ret saved, st1) ->
    sys_execvp P st1 (get_word P (env st) (Some v)) (get_argv P (env st1) s)
    = None ->
    exists st',
      parse_simple P (Some s) level father st = (Ret 1, st') /\
      In (next_pid st,
          EvStderr (String.append "Execution failed for '"
                      (String.append (get_word P (env st) (Some v))
                                     (String.append "'" newline))))
         (new_events st st').
Proof.
  intros s v level father st saved st1 Hv Hb Ha Hz Hn Hok Hopen Hexec.
  pose proof (fd_spec_open_files P s _ _ _ Hopen)
    as ((_ & Hself & _) & d & Hlog & _).
  cbn in Hself, Hlog.
  set (command := get_word P (env st) (Some v)) in *.
  set (msg := String.append "Execution failed for '"
                            (String.append command
                                           (String.append "'" newline))).
  assert (Hchild : external_child P s command (spawn st)
                   = (Halt (W_EXITCODE (Z.land EXIT_FAILURE 255) 0),
                      record (EvExit EXIT_FAILURE)
                        (record (EvStderr msg)
                           (record (EvExec command (get_argv P (env st1) s)
                                           false)
                                   st1)))).
  { unfold external_child.
    rewrite (bind_ret_eq _ _ _ _ _ Hopen).
    unfold bind at 1. unfold gets at 1. cbv beta iota.
    unfold bind at 1. unfold execvp at 1. rewrite Hexec.
    reflexivity. }
  clearbody msg.
  rewrite (parse_simple_external P s v level father st Hv Hb Ha).
  fold command.
  rewrite (bind_ret_eq _ _ _ _ _ (fork_runs_child P _ _ _ _ Hok Hchild)).
  replace (next_pid st <? 0) with false by (symmetry; apply Z.ltb_ge; lia).
  rewrite (bind_ret_eq _ _ _ _ _ (DIE_false P _ _)).
  erewrite (bind_ret_eq (wait P 0)).
  2:{ apply wait_single. cbn. rewrite Hz. reflexivity. }
  eexists. split; [reflexivity |].
  rewrite (new_events_app st _
             ((self st, EvWait (next_pid st)
                               (W_EXITCODE (Z.land EXIT_FAILURE 255) 0))
              :: (self st1, EvExit EXIT_FAILURE)
              :: (self st1, EvStderr msg)
              :: (self st1, EvExec command (get_argv P (env st1) s) false)
              :: d ++ [(self st, EvFork (next_pid st))])).
  - right. right. left. rewrite Hself. reflexivity.
  - cbn. rewrite Hlog, <- app_assoc. reflexivity.
Qed.

End Programs.

(** Witness: [VAR=hello]. *)
Lemma assignment_witness :
  exists st',
    parse_simple D (Some simple_assign) 0 None demo_state = (Ret 0, st') /\
    env_get (env st') "VAR" = Some "hello".
Proof.
  destruct (assignment_sets_variable
              D simple_assign
              (Word "VAR" (Some (Word "=" (Some (word "hello")) None)) None)
              (Word "=" (Some (word "hello")) None) 0 None demo_state
              eq_refl eq_refl eq_refl eq_refl eq_refl)
    as (st' & Hrun & Hget & _).
  exists st'. split; [exact Hrun | exact Hget].
Defined.

(** Witness: [crash] is killed by SIGSEGV and reported with status 0. *)
Lemma external_status_witness :
  exists st',
    parse_simple D (Some simple_crash) 0 None demo_state = (Ret 0, st') /\
    cwd st' = "/home".
Proof.
  assert (Hn : 0 <= next_pid demo_state) by (vm_compute; discriminate).
  assert (Hrun : external_child D simple_crash "crash" (spawn demo_state)
                 = (Halt SIGSEGV,
                    snd (external_child D simple_crash "crash"
                                        (spawn demo_state))))
    by (vm_compute; reflexivity).
  destruct (external_command_status
              D simple_crash (word "crash") 0 None demo_state
              (Halt SIGSEGV) _ eq_refl eq_refl eq_refl eq_refl Hn eq_refl Hrun)
    as (st' & _ & Hzero & Hcwd & _).
  exists st'. split; [| exact Hcwd].
  apply Hzero. vm_compute. split; [discriminate | reflexivity].
Defined.

(** Witness: [nothing] cannot be loaded. *)
Lemma external_not_loaded_witness :
  exists st',
    parse_simple D (Some simple_nothing) 0 None demo_state = (Ret 1, st') /\
    In (101, EvStderr (String.append "Execution failed for 'nothing'"
                                     newline))
       (new_events demo_state st').
Proof.
  assert (Hn : 0 <= next_pid demo_state) by (vm_compute; discriminate).
  assert (Hopen : open_files D simple_nothing (spawn demo_state)
                  = (Ret [3; 4; 5],
                     snd (open_files D simple_nothing (spawn demo_state))))
    by (vm_compute; reflexivity).
  exact (external_command_not_loaded
           D simple_nothing (word "nothing") 0 None demo_state
           [3; 4; 5] _ eq_refl eq_refl eq_refl eq_refl Hn eq_refl Hopen eq_refl).
Defined.

(** ** What the forking operators keep *)

Lemma fd_put_other t n o m :
  m <> n ->
  match nth_error (fd_put t n o) m with Some x => x | None => None end
  = match nth_error t m with Some x => x | None => None end.
Proof.
  revert t m. induction n as [| n IH]; intros [| x t] [| m] H; cbn;
    try congruence; try reflexivity.
  - destruct m; reflexivity.
  - rewrite IH by congruence. destruct m; reflexivity.
  - apply IH. congruence.
Qed.

(** Reading a table after one update. *)
Lemma fd_get_set t n o m :
  fd_get (fd_set t n o) m = if (0 <=? n) && (m =? n) then o else fd_get t m.
Proof.
  unfold fd_get, fd_set.
  destruct (Z.ltb_spec n 0) as [Hn | Hn].
  - replace (0 <=? n) with false by (symmetry; apply Z.leb_gt; lia).
    reflexivity.
  - replace (0 <=? n) with true by (symmetry; apply Z.leb_le; lia).
    cbn [andb]. destruct (Z.eqb_spec m n) as [-> | Hne].
    + replace (n <? 0) with false by (symmetry; apply Z.ltb_ge; lia).
      now rewrite fd_put_same.
    + destruct (m <? 0) eqn:Hm; [reflexivity |].
      apply fd_put_other. apply Z.ltb_ge in Hm. lia.
Qed.

(** The descriptor handed out next is unused. *)
Lemma lowest_free_unused t : fd_get t (Z.of_nat (lowest_free t)) = None.
Proof.
  unfold fd_get.
  replace (Z.of_nat (lowest_free t) <? 0) with false
    by (symmetry; apply Z.ltb_ge; lia).
  rewrite Nat2Z.id.
  induction t as [| [o |] t IH]; cbn; auto.
Qed.

Section Forking.

Variable P : platform.

Lemma keeps_home_ret {A : Type} (a : A) : keeps_home (ret a).
Proof. intros st r st' H. inversion H. split; reflexivity. Qed.

Lemma keeps_home_bind {A B : Type} (m : M A) (k : A -> M B) :
  keeps_home m -> (forall a, keeps_home (k a)) -> keeps_home (bind m k).
Proof.
  intros Hm Hk st r st' H.
  apply bind_inv in H as [(a & st1 & H1 & H2) | (w & H1 & ->)].
  - apply Hm in H1 as [C1 E1]. apply Hk in H2 as [C2 E2].
    split; congruence.
  - now apply Hm in H1.
Qed.

Lemma keeps_home_fd_spec {A : Type} (m : M A) : fd_spec P m -> keeps_home m.
Proof.
  intros Hm st r st' H. apply Hm in H as ((C & _ & E & _) & _). now split.
Qed.

(** Whatever the child does, the parent keeps its directory and its
    environment. *)
Lemma keeps_home_fork child : keeps_home (fork P child).
Proof.
  intros st r st' H. unfold fork in H.
  destruct (sys_fork_ok P st).
  - destruct (child (spawn st)) as [rc stc]. inversion H. split; reflexivity.
  - inversion H. split; reflexivity.
Qed.

Ltac home_call :=
  let H := fresh "H" in
  intros ? ? ? H;
  repeat match type of H with
         | context [match ?x with _ => _ end] => destruct x
         end;
  inversion H; subst; split; reflexivity.

Lemma keeps_home_pipe : keeps_home (pipe P).
Proof. unfold pipe. home_call. Qed.

Lemma keeps_home_wait status : keeps_home (wait P status).
Proof. unfold wait. home_call. Qed.

Lemma keeps_home_waitpid pid status options :
  keeps_home (waitpid P pid status options).
Proof. unfold waitpid. home_call. Qed.

Lemma keeps_home_close fd : keeps_home (close fd).
Proof. unfold close. home_call. Qed.

Lemma keeps_home_DIE b what : keeps_home (DIE P b what).
Proof. apply keeps_home_fd_spec, fd_spec_DIE. Qed.

Lemma keeps_home_wait_children i status :
  keeps_home (wait_children P i status).
Proof.
  revert status. induction i as [| i IH]; intros status; cbn [wait_children].
  - apply keeps_home_ret.
  - apply keeps_home_bind; [apply keeps_home_wait | intros s'].
    destruct (negb (WIFEXITED s')); [apply keeps_home_ret | apply IH].
Qed.

Ltac home_steps :=
  repeat match goal with
         | |- keeps_home (bind _ _) => apply keeps_home_bind; [| intros ?]
         | |- keeps_home (fork _ _) => apply keeps_home_fork
         | |- keeps_home (DIE _ _ _) => apply keeps_home_DIE
         | |- keeps_home (close _) => apply keeps_home_close
         | |- keeps_home (waitpid P _ _ _) => apply keeps_home_waitpid
         | |- keeps_home (wait_children _ _ _) => apply keeps_home_wait_children
         | |- keeps_home (ret _) => apply keeps_home_ret
         | |- keeps_home (if ?b then _ else _) => destruct b
         end.

Lemma keeps_home_run_in_parallel cmd1 cmd2 level father :
  keeps_home (run_in_parallel P cmd1 cmd2 level father).
Proof. unfold run_in_parallel. home_steps. Qed.

Lemma keeps_home_run_on_pipe cmd1 cmd2 level father :
  keeps_home (run_on_pipe P cmd1 cmd2 level father).
Proof.
  unfold run_on_pipe.
  apply keeps_home_bind; [apply keeps_home_pipe | intros [[rc fd0] fd1]].
  home_steps.
Qed.

(** A PARALLEL or PIPE node never changes the working directory or the
    environment of the process that runs it, whatever its subtrees do
    and however the node ends: both subtrees run in forked children
    (cmd.c:180-196, 223-245, 280-282, 300-304). *)
Theorem forked_operators_keep_directory_and_environment :
  forall o cmd1 cmd2 scmd level father st r st',
    o = OP_PARALLEL \/ o = OP_PIPE ->
    parse_command P (Command o cmd1 cmd2 scmd) level father st = (r, st') ->
    cwd st' = cwd st /\ env st' = env st.
Proof.
  intros o cmd1 cmd2 scmd level father st r st' Ho.
  enough (H : keeps_home (parse_command P (Command o cmd1 cmd2 scmd)
                                        level father))
    by (apply H).
  cbn [parse_command].
  destruct (is_null cmd1 && is_null cmd2 && is_null scmd);
    [apply keeps_home_ret |].
  destruct Ho as [-> | ->].
  - apply keeps_home_bind; [apply keeps_home_run_in_parallel | intros ok].
    apply keeps_home_ret.
  - apply keeps_home_bind; [apply keeps_home_run_on_pipe | intros ok].
    apply keeps_home_ret.
Qed.

Lemma keeps_fdt_ret {A : Type} (a : A) : keeps_fdt (ret a).
Proof. intros st b st' H. now inversion H. Qed.

Lemma keeps_fdt_bind {A B : Type} (m : M A) (k : A -> M B) :
  keeps_fdt m -> (forall a, keeps_fdt (k a)) -> keeps_fdt (bind m k).
Proof.
  intros Hm Hk st b st' H.
  apply bind_inv in H as [(a & st1 & H1 & H2) | (w & _ & Hw)].
  - apply Hm in H1. apply Hk in H2. congruence.
  - discriminate Hw.
Qed.

Lemma keeps_fdt_fork child : keeps_fdt (fork P child).
Proof.
  intros st a st' H. unfold fork in H.
  destruct (sys_fork_ok P st).
  - destruct (child (spawn st)) as [rc stc]. now inversion H.
  - now inversion H.
Qed.

Lemma keeps_fdt_DIE b what : keeps_fdt (DIE P b what).
Proof. intros st a st' H. destruct b; [discriminate H | now inversion H]. Qed.

Lemma keeps_fdt_waitpid pid status options :
  keeps_fdt (waitpid P pid status options).
Proof.
  intros st a st' H. unfold waitpid in H.
  repeat match type of H with
         | context [match ?x with _ => _ end] => destruct x
         end; now inversion H.
Qed.

(** When a PIPE node returns, the process has the descriptors it had
    before: the two ends of the pipe were the lowest unused ones and
    both are closed again (cmd.c:221-222, 248-249). *)
Theorem pipe_node_closes_both_ends :
  forall cmd1 cmd2 scmd level father st v st',
    parse_command P (Command OP_PIPE cmd1 cmd2 scmd) level father st
    = (Ret v, st') ->
    forall fd, fd_get (fdt st') fd = fd_get (fdt st) fd.
Proof.
  intros cmd1 cmd2 scmd level father st v st' H fd.
  cbn [parse_command] in H.
  destruct (is_null cmd1 && is_null cmd2 && is_null scmd);
    [now inversion H |].
  apply bind_inv in H as [(ok & st5 & H & Hret) | (w & _ & Hw)];
    [| discriminate Hw].
  inversion Hret; subst st5. clear Hret.
  unfold run_on_pipe in H.
  apply bind_inv in H as [([[rc fd0] fd1] & st0 & Hpipe & H) | (w & _ & Hw)];
    [| discriminate Hw].
  unfold pipe in Hpipe. destruct (sys_pipe_ok P st).
  2:{ inversion Hpipe; subst. discriminate H. }
  inversion Hpipe; subst rc fd0 fd1 st0. clear Hpipe.
  set (t := fdt st) in *.
  set (r := Z.of_nat (lowest_free t)) in *.
  set (t1 := fd_set t r (Some (PipeRead (Z.of_nat (List.length (log st)))))) in *.
  set (w := Z.of_nat (lowest_free t1)) in *.
  apply bind_inv in H as [([] & st1 & Hd & H) | (? & _ & Hw)];
    [| discriminate Hw].
  apply keeps_fdt_DIE in Hd.
  apply bind_inv in H as [(c1 & st2 & Hf1 & H) | (? & _ & Hw)];
    [| discriminate Hw].
  apply keeps_fdt_fork in Hf1.
  apply bind_inv in H as [([] & st3 & Hd1 & H) | (? & _ & Hw)];
    [| discriminate Hw].
  apply keeps_fdt_DIE in Hd1.
  apply bind_inv in H as [(c2 & st4 & Hf2 & H) | (? & _ & Hw)];
    [| discriminate Hw].
  apply keeps_fdt_fork in Hf2.
  apply bind_inv in H as [([] & st5 & Hd2 & H) | (? & _ & Hw)];
    [| discriminate Hw].
  apply keeps_fdt_DIE in Hd2.
  unfold bind at 1 in H. unfold close at 1 in H. cbv beta iota in H.
  unfold bind at 1 in H. unfold close at 1 in H. cbv beta iota in H.
  assert (Hrest : fdt st' = fd_set (fd_set (fdt st5) r None) w None).
  { revert H.
    match goal with
    | |- ?m ?s = _ -> _ =>
        enough (Hk : keeps_fdt m) by (intros H; now rewrite (Hk _ _ _ H))
    end.
    apply keeps_fdt_bind; [apply keeps_fdt_waitpid | intros s1].
    apply keeps_fdt_bind; [apply keeps_fdt_waitpid | intros s2].
    destruct (negb (WEXITSTATUS s2 =? 0)); apply keeps_fdt_ret. }
  rewrite Hrest, Hd2, Hf2, Hd1, Hf1, Hd. cbn [fdt record set_log set_fdt].
  pose proof (lowest_free_unused t) as Hr. fold r in Hr.
  pose proof (lowest_free_unused t1) as Hw. fold w in Hw.
  unfold t1 in Hw. rewrite fd_get_set in Hw.
  unfold t1. rewrite !fd_get_set.
  assert (Hr0 : (0 <=? r) = true) by (apply Z.leb_le; subst r; lia).
  assert (Hw0 : (0 <=? w) = true) by (apply Z.leb_le; subst w; lia).
  rewrite Hr0, Hw0 in *. cbn [andb] in *.
  destruct (Z.eqb_spec w r) as [Hwr | Hwr]; [discriminate Hw |].
  destruct (Z.eqb_spec fd w) as [-> | Hfw]; [now rewrite Hw |].
  destruct (Z.eqb_spec fd r) as [-> | Hfr]; [now rewrite Hr | reflexivity].
Qed.

End Forking.

(** Witness: [cd /tmp & true] leaves the shell in [/home]. *)
Lemma forked_operators_witness :
  cwd (snd (parse_command D par_cd_true 0 None demo_state)) = cwd demo_state /\
  env (snd (parse_command D par_cd_true 0 None demo_state)) = env demo_state.
Proof.
  exact (forked_operators_keep_directory_and_environment
           D OP_PARALLEL (Some cd_tmp) (Some cmd_true) None 0 None demo_state
           (fst (parse_command D par_cd_true 0 None demo_state))
           (snd (parse_command D par_cd_true 0 None demo_state))
           (or_introl eq_refl)
           (surjective_pairing (parse_command D par_cd_true 0 None demo_state))).
Defined.

(** Witness: [true | cd]. *)
Lemma pipe_closes_witness :
  parse_command D pipe_true_cd 0 None demo_state
  = (Ret 0, snd (parse_command D pipe_true_cd 0 None demo_state)) /\
  forall fd,
    fd_get (fdt (snd (parse_command D pipe_true_cd 0 None demo_state))) fd
    = fd_get (fdt demo_state) fd.
Proof.
  assert (H : parse_command D pipe_true_cd 0 None demo_state
              = (Ret 0, snd (parse_command D pipe_true_cd 0 None demo_state)))
    by (vm_compute; reflexivity).
  split; [exact H |].
  exact (pipe_node_closes_both_ends
           D (Some cmd_true) (Some (cmd_cd None)) None 0 None demo_state 0 _ H).
Defined.

(** ** The flags of the redirections *)

Section Flags.

Variable P : platform.

Ltac adds_one tac :=
  let H := fresh "H" in
  intros ? ? ? H;
  repeat match type of H with
         | context [match ?x with _ => _ end] => destruct x
         end;
  inversion H; subst;
  eexists (cons _ nil); (split; [reflexivity |]);
  (constructor; [tac | constructor]).

Ltac adds_none :=
  let H := fresh "H" in
  intros ? ? ? H; inversion H; subst;
  exists nil; (split; [reflexivity | constructor]).

Lemma adds_DIE (Q : event -> Prop) b what :
  Q (EvDie what) -> adds Q (DIE P b what).
Proof.
  intros HQ. unfold DIE. destruct b; [| apply adds_ret].
  apply adds_bind.
  - unfold emit. adds_one ltac:(exact HQ).
  - intros _. unfold halt. adds_none.
Qed.

Lemma adds_flags_turn s i redir1 :
  adds (open_flags_ok (negb (io_flags s =? 0))) (open_files_turn P s i redir1).
Proof.
  unfold open_files_turn.
  apply adds_bind; [unfold dup; adds_one ltac:(exact I) | intros saved].
  destruct (match i with O => out s | 1%nat => redir1 | _ => in_ s end);
    [| apply adds_ret].
  apply adds_bind; [unfold gets; adds_none | intros e].
  apply adds_bind.
  - destruct (negb (is_null redir1) && Nat.eqb i 0
              && strcmp_eq (get_word P e (out s)) (get_word P e redir1)).
    + apply adds_bind.
      * unfold open. adds_one ltac:(cbn; repeat split).
      * intros fd0. apply adds_bind; [| intros _; apply adds_ret].
        unfold dup2. adds_one ltac:(exact I).
    + destruct (io_flags s =? 0) eqn:Hio; cbn [negb orb].
      * destruct i as [| [| [| i]]]; cbn [Nat.eqb];
          (apply adds_bind; [| intros fd; apply adds_ret]);
          unfold open;
          adds_one ltac:(cbn; split; [reflexivity | discriminate]).
      * destruct i as [| [| [| i]]];
          (apply adds_bind; [| intros fd; apply adds_ret]);
          unfold open;
          adds_one ltac:(cbn; split;
                         [reflexivity |
                          intros _; split; [reflexivity | discriminate]]).
  - intros [redir1' fd].
    apply adds_bind; [apply adds_DIE; exact I | intros _].
    apply adds_bind; [unfold dup2; adds_one ltac:(exact I) | intros _].
    apply adds_bind; [unfold close; adds_one ltac:(exact I) | intros _].
    apply adds_ret.
Qed.

(** Every file [open_files] opens is opened with O_CREAT, the input
    file included; and when [io_flags] is not zero, whichever stream
    the append mark was written on, every file is opened with O_APPEND
    and none is truncated, except by the single open of a combined
    redirection (cmd.c:56, 66-74). *)
Theorem open_files_flags :
  forall s st r st' pid path flags res,
    open_files P s st = (r, st') ->
    In (pid, EvOpen path flags res) (new_events st st') ->
    has_flag flags O_CREAT = true /\
    (io_flags s <> 0 ->
     has_flag flags O_APPEND = true /\
     (has_flag flags O_TRUNC = true -> flags = combined_flags)).
Proof.
  intros s st r st' pid path flags res H Hin.
  assert (Hadds : adds (open_flags_ok (negb (io_flags s =? 0)))
                       (open_files P s)).
  { unfold open_files.
    repeat (apply adds_bind; [apply adds_flags_turn | intros ?]).
    apply adds_ret. }
  destruct (Hadds st r st' H) as (d & Hlog & Hall).
  rewrite (new_events_app st st' d Hlog) in Hin.
  rewrite Forall_forall in Hall. apply Hall in Hin. cbn in Hin.
  destruct Hin as [Hc Ha]. split; [exact Hc |].
  intros Hio. apply Ha. apply Z.eqb_neq in Hio. now rewrite Hio.
Qed.

End Flags.

(** Witness: in [ls >> f 2> g] the file [g] is opened with O_APPEND
    too. *)
Lemma open_files_flags_witness :
  In (100, EvOpen "g" (Z.lor (Z.lor O_CREAT O_WRONLY) O_APPEND) 5)
     (new_events demo_state (snd (open_files D ls_append demo_state))) /\
  has_flag (Z.lor (Z.lor O_CREAT O_WRONLY) O_APPEND) O_APPEND = true.
Proof.
  assert (Hin : In (100, EvOpen "g" (Z.lor (Z.lor O_CREAT O_WRONLY) O_APPEND) 5)
                   (new_events demo_state
                               (snd (open_files D ls_append demo_state))))
    by (vm_compute; tauto).
  split; [exact Hin |].
  refine (proj1 (proj2 (open_files_flags
                          D ls_append demo_state
                          (fst (open_files D ls_append demo_state))
                          (snd (open_files D ls_append demo_state))
                          100 "g" _ 5
                          (surjective_pairing _) Hin) _)).
  vm_compute. discriminate.
Defined.

(** ** Children left behind by a PARALLEL node *)

Section Leftovers.

Variable P : platform.

Lemma wait_children_two_left z1 z2 status st :
  zombies st = [z1; z2] ->
  zombies (snd (wait_children P 2 status st))
  = left_unreported (reap_second P st) z1 z2.
Proof.
  intros Hz. destruct z1 as [p1 w1], z2 as [p2 w2].
  unfold left_unreported, reap_second. cbv zeta. cbn [wait_children fst snd].
  unfold bind at 1. unfold wait at 1. rewrite Hz. cbn [List.length].
  pose proof (Nat.mod_upper_bound (sys_reap P st) 2 ltac:(lia)) as Hlt.
  destruct (sys_reap P st mod 2)%nat as [| [| n]] eqn:Hn; [| | lia];
    cbn [nth_error remove_nth Nat.eqb fst snd].
  - destruct (WIFEXITED w1); cbn [negb]; [| reflexivity].
    unfold bind at 1. unfold wait at 1.
    cbn [zombies set_zombies record set_log List.length].
    rewrite Nat.mod_1_r. cbn [nth_error remove_nth].
    destruct (WIFEXITED w2); reflexivity.
  - destruct (WIFEXITED w2); cbn [negb]; [| reflexivity].
    unfold bind at 1. unfold wait at 1.
    cbn [zombies set_zombies record set_log List.length].
    rewrite Nat.mod_1_r. cbn [nth_error remove_nth].
    destruct (WIFEXITED w1); reflexivity.
Qed.

(** A PARALLEL node started without waiting children stops waiting at
    the first child that did not end by a normal exit: the other child
    is then never waited for and stays among the unreported children of
    the process, where a later plain wait can pick it up; after a first
    normal exit both children have been reported (cmd.c:199-204). *)
Theorem parallel_leaves_child_unreported :
  forall A B scmd level father st pid1 st1 pid2 st2,
    let c := Command OP_PARALLEL (Some A) (Some B) scmd in
    0 <= next_pid st ->
    zombies st = [] ->
    sys_fork_ok P st = true ->
    fork P (child_exit (parse_command P A level (Some c))) st = (Ret pid1, st1) ->
    sys_fork_ok P st1 = true ->
    fork P (child_exit (parse_command P B level (Some c))) st1 = (Ret pid2, st2) ->
    exists w1 w2,
      zombies st2 = [(pid1, w1); (pid2, w2)] /\
      zombies (snd (parse_command P c level father st))
      = left_unreported (reap_second P st2) (pid1, w1) (pid2, w2).
Proof.
  intros A B scmd level father st pid1 st1 pid2 st2 c
         Hpid Hz Hok Hf1 Hok1 Hf2.
  destruct (run_in_parallel_status P (parse_command P A) (parse_command P B)
              level (Some c) st _ _ _ _ Hpid Hz (grows_parse_command P A)
              Hok Hf1 Hok1 Hf2)
    as (w1 & w2 & st' & Hz2 & Hlt & _ & _ & _).
  exists w1, w2. split; [exact Hz2 |].
  assert (Hrun : run_in_parallel P (parse_command P A) (parse_command P B)
                                 level (Some c) st
                 = wait_children P 2 0 st2).
  { unfold run_in_parallel.
    rewrite (bind_ret_eq _ _ _ _ _ Hf1).
    assert (Hp1 : (pid1 <? 0) = false).
    { apply Z.ltb_ge.
      destruct (fork_inv P (child_exit (parse_command P A level (Some c)))
                         st Hok) as (? & ? & _ & Hf).
      rewrite Hf1 in Hf. inversion Hf. lia. }
    rewrite Hp1, (bind_ret_eq _ _ _ _ _ (DIE_false P _ _)).
    rewrite (bind_ret_eq _ _ _ _ _ Hf2).
    replace (pid2 <? 0) with false by (symmetry; apply Z.ltb_ge; lia).
    rewrite (bind_ret_eq _ _ _ _ _ (DIE_false P _ _)).
    reflexivity. }
  rewrite <- (wait_children_two_left _ _ 0 st2 Hz2).
  subst c. cbn [parse_command is_null andb].
  unfold bind at 1. rewrite Hrun.
  destruct (wait_children P 2 0 st2) as [[ok | w] stw]; reflexivity.
Qed.

End Leftovers.

(** Witness: in [broken & true] the left child dies of SIGSEGV on a
    null pointer; the kernel of [D] reports it first, and the right
    child is never waited for. *)
Lemma parallel_leftover_witness :
  exists w1 w2,
    zombies (par_st2 D par_broken_true broken cmd_true)
    = [(101, w1); (102, w2)] /\
    zombies (snd (parse_command D par_broken_true 0 None demo_state))
    = left_unreported (reap_second D (par_st2 D par_broken_true broken cmd_true))
                      (101, w1) (102, w2).
Proof.
  assert (Hn : 0 <= next_pid demo_state) by (vm_compute; discriminate).
  assert (Hf1 : fork D (child_exit (parse_command D broken 0
                                                  (Some par_broken_true)))
                     demo_state
                = (Ret 101, par_st1 D par_broken_true broken))
    by (vm_compute; reflexivity).
  assert (Hf2 : fork D (child_exit (parse_command D cmd_true 0
                                                  (Some par_broken_true)))
                     (par_st1 D par_broken_true broken)
                = (Ret 102, par_st2 D par_broken_true broken cmd_true))
    by (vm_compute; reflexivity).
  exact (parallel_leaves_child_unreported
           D broken cmd_true None 0 None demo_state
           101 (par_st1 D par_broken_true broken)
           102 (par_st2 D par_broken_true broken cmd_true)
           Hn eq_refl eq_refl Hf1 eq_refl Hf2).
Defined.

(** The child left behind in that run. *)
Example parallel_leftover_child :
  fst (parse_command D par_broken_true 0 None demo_state) = Ret 1 /\
  zombies (snd (parse_command D par_broken_true 0 None demo_state))
  = [(102, 0)].
Proof. split; vm_compute; reflexivity. Qed.

(** ** Saving and restoring the descriptors *)

Lemma fd_get_set_at t n o m :
  0 <= n -> fd_get (fd_set t n o) m = if m =? n then o else fd_get t m.
Proof.
  intros Hn. rewrite fd_get_set.
  replace (0 <=? n) with true by (symmetry; apply Z.leb_le; lia).
  reflexivity.
Qed.

Ltac fds :=
  repeat match goal with
         | H : context [fd_get (fd_set _ _ _) _] |- _ =>
             rewrite fd_get_set_at in H by assumption
         | |- context [fd_get (fd_set _ _ _) _] =>
             rewrite fd_get_set_at by assumption
         end.

Ltac eqs :=
  repeat match goal with
         | H : context [?a =? ?b] |- _ => destruct (Z.eqb_spec a b); subst
         | |- context [?a =? ?b] => destruct (Z.eqb_spec a b); subst
         end;
  try congruence; try lia;
  try match goal with e : _ = _ |- _ => discriminate e end.

Section Restore.

Variable P : platform.

Lemma turn_frame s i redir1 st r1 saved st' :
  (i = 0%nat -> redir1 = err s /\ is_combined P s (env st) = false) ->
  fd_get (fdt st) (outs i) <> None ->
  open_files_turn P s i redir1 st = (Ret (r1, saved), st') ->
  0 <= saved /\
  fd_get (fdt st) saved = None /\
  fd_get (fdt st') saved = fd_get (fdt st) (outs i) /\
  fd_get (fdt st') (outs i) <> None /\
  (forall fd, fd <> saved -> fd <> outs i ->
              fd_get (fdt st') fd = fd_get (fdt st) fd) /\
  env st' = env st /\ r1 = redir1.
Proof.
  intros Hcomb Hopen H.
  unfold open_files_turn in H.
  fold (outs i) in H.
  assert (Ho0 : 0 <= outs i)
    by (unfold outs, STDIN_FILENO, STDOUT_FILENO, STDERR_FILENO;
        destruct i as [| [| i']]; lia).
  set (o := outs i) in *. clearbody o.
  unfold bind at 1 in H. unfold dup at 1 in H.
  destruct (fd_get (fdt st) o) as [a |] eqn:Ha; [| congruence].
  pose proof (lowest_free_unused (fdt st)) as Hn.
  assert (Hn0 : 0 <= Z.of_nat (lowest_free (fdt st))) by lia.
  set (n := Z.of_nat (lowest_free (fdt st))) in *. clearbody n.
  cbv beta iota in H.
  destruct (match i with O => out s | 1%nat => redir1 | _ => in_ s end)
    as [wd |] eqn:Hredir.
  2:{ inversion H; subst r1 saved st'. cbn [fdt record set_log set_fdt env].
      repeat split; auto; try (intros fd ? ?); fds; eqs. }
  unfold bind at 1 in H. unfold gets at 1 in H. cbv beta iota in H.
  cbn [env record set_log set_fdt] in H.
  assert (Hbranch : negb (is_null redir1) && Nat.eqb i 0
                    && strcmp_eq (get_word P (env st) (out s))
                                 (get_word P (env st) redir1) = false).
  { destruct i as [| i'].
    - destruct (Hcomb eq_refl) as [-> Hc]. unfold is_combined in Hc.
      cbn in Hredir. rewrite Hredir in Hc. cbn [is_null negb andb] in Hc.
      unfold strcmp_eq. destruct (is_null (err s)); [reflexivity |].
      cbn [negb andb Nat.eqb] in *. rewrite Hredir. exact Hc.
    - cbn [Nat.eqb]. now rewrite andb_false_r. }
  rewrite Hbranch in H.
  set (sta := record (EvDup o n) (set_fdt (fd_set (fdt st) n (Some a)) st))
    in *.
  set (path := get_word P (env st) (Some wd)) in *. clearbody path.
  match type of H with
  | (bind (if ?c then bind (open _ _ ?f1) ?k else bind (open _ _ ?f2) _) ?K)
      _ = _ =>
      assert (Hflags : exists flags,
                 (if c then bind (open P path f1) k
                  else bind (open P path f2) k)
                 = bind (open P path flags) k)
        by (destruct c; eexists; reflexivity)
  end.
  destruct Hflags as (flags & Hflags). rewrite Hflags in H. clear Hflags.
  unfold bind at 1 in H. unfold bind at 1 in H. unfold open at 1 in H.
  destruct (sys_open_ok P sta path flags).
  2:{ cbv beta iota in H. unfold ret at 1 in H. cbv beta iota in H.
      cbn [Z.ltb Z.compare] in H. discriminate H. }
  pose proof (lowest_free_unused (fdt sta)) as Hf.
  assert (Hf0 : 0 <= Z.of_nat (lowest_free (fdt sta))) by lia.
  set (f := Z.of_nat (lowest_free (fdt sta))) in *. clearbody f.
  cbv beta iota in H. unfold ret at 1 in H. cbv beta iota in H.
  replace (f <? 0) with false in H by (symmetry; apply Z.ltb_ge; lia).
  rewrite (bind_ret_eq _ _ _ _ _ (DIE_false P _ _)) in H.
  unfold bind at 1 in H. unfold dup2 at 1 in H.
  subst sta. cbn [fdt record set_log set_fdt] in H, Hf.
  fds.
  rewrite Z.eqb_refl in H.
  replace (o <? 0) with false in H by (symmetry; apply Z.ltb_ge; lia).
  unfold bind at 1 in H. unfold close at 1 in H. cbv beta iota in H.
  inversion H; subst r1 saved st'. clear H.
  cbn [fdt record set_log set_fdt env].
  repeat split; auto; try (intros fd ? ?); fds; eqs.
Qed.

(** Putting one saved descriptor back and closing the copy
    (cmd.c:93-94). *)
Lemma restore_one saved target a st :
  0 <= saved -> 0 <= target ->
  fd_get (fdt st) saved = Some a ->
  exists st',
    (forall (B : Type) (k : M B),
        bind (dup2 saved target) (fun _ => bind (close saved) (fun _ => k)) st
        = k st') /\
    (dup2 saved target ;; close saved) st = (Ret tt, st') /\
    (forall fd, fd_get (fdt st') fd
                = if fd =? saved then None
                  else if fd =? target then Some a
                       else fd_get (fdt st) fd).
Proof.
  intros Hs Ht Ha.
  eexists. split; [| split].
  - intros B k. unfold bind at 1. unfold dup2 at 1. rewrite Ha.
    replace (target <? 0) with false by (symmetry; apply Z.ltb_ge; lia).
    unfold bind at 1. unfold close at 1. reflexivity.
  - unfold bind, dup2, close. rewrite Ha.
    replace (target <? 0) with false by (symmetry; apply Z.ltb_ge; lia).
    reflexivity.
  - intros fd. cbn [fdt record set_log set_fdt]. fds. reflexivity.
Qed.

Lemma keeps_fdt_shell_cd dir : keeps_fdt (shell_cd P dir).
Proof.
  intros st a st' H. unfold shell_cd in H.
  destruct dir as [d |]; [| now inversion H].
  destruct (negb (is_null (word_next_part d))); [now inversion H |].
  unfold bind, chdir, perror, emit in H.
  destruct (sys_chdir P st (word_string d)); cbn in H; now inversion H.
Qed.

(** What the three turns of [open_files] leave when no combined
    redirection is made: every standard descriptor has a copy in its
    saved descriptor, and the saved descriptors were unused. *)
Lemma open_files_saves s st saved st3 :
  std_open (fdt st) ->
  is_combined P s (env st) = false ->
  open_files P s st = (Ret saved, st3) ->
  exists s0 s1 s2,
    saved = [s0; s1; s2] /\
    0 <= s0 /\ 0 <= s1 /\ 0 <= s2 /\
    fd_get (fdt st) s0 = None /\ fd_get (fdt st) s1 = None /\
    fd_get (fdt st) s2 = None /\
    s0 <> s1 /\ s0 <> s2 /\ s1 <> s2 /\
    fd_get (fdt st3) s0 = fd_get (fdt st) STDOUT_FILENO /\
    fd_get (fdt st3) s1 = fd_get (fdt st) STDERR_FILENO /\
    fd_get (fdt st3) s2 = fd_get (fdt st) STDIN_FILENO /\
    (forall fd, fd <> s0 -> fd <> s1 -> fd <> s2 ->
                fd <> STDIN_FILENO -> fd <> STDOUT_FILENO ->
                fd <> STDERR_FILENO ->
                fd_get (fdt st3) fd = fd_get (fdt st) fd).
Proof.
  intros (Hin & Hout & Herr) Hcomb H.
  unfold open_files in H.
  apply bind_inv in H as [([r0 s0] & st1 & H0 & H) | (? & _ & Hw)];
    [| discriminate Hw].
  apply bind_inv in H as [([r1 s1] & st2 & H1 & H) | (? & _ & Hw)];
    [| discriminate Hw].
  apply bind_inv in H as [([r2 s2] & st3' & H2 & H) | (? & _ & Hw)];
    [| discriminate Hw].
  inversion H; subst saved st3'. clear H. cbn [fst snd] in *.
  apply turn_frame in H0 as (P0 & N0 & V0 & O0 & F0 & E0 & R0);
    [| intros _; now split | exact Hout].
  cbn [outs] in *.
  assert (Herr1 : fd_get (fdt st1) STDERR_FILENO <> None).
  { rewrite F0; [exact Herr | congruence | discriminate]. }
  apply turn_frame in H1 as (P1 & N1 & V1 & O1 & F1 & E1 & R1);
    [| intros Hx; discriminate Hx | exact Herr1].
  cbn [outs] in *.
  assert (Hin1 : fd_get (fdt st1) STDIN_FILENO <> None).
  { rewrite F0; [exact Hin | congruence | discriminate]. }
  assert (Hin2 : fd_get (fdt st2) STDIN_FILENO <> None).
  { rewrite F1; [exact Hin1 | congruence | discriminate]. }
  apply turn_frame in H2 as (P2 & N2 & V2 & O2 & F2 & E2 & R2);
    [| intros Hx; discriminate Hx | exact Hin2].
  cbn [outs] in *.
  assert (A0 : s0 <> STDIN_FILENO /\ s0 <> STDOUT_FILENO
               /\ s0 <> STDERR_FILENO) by (repeat split; congruence).
  destruct A0 as (A00 & A01 & A02).
  assert (A1 : s1 <> s0 /\ s1 <> STDIN_FILENO /\ s1 <> STDOUT_FILENO
               /\ s1 <> STDERR_FILENO) by (repeat split; congruence).
  destruct A1 as (A1s & A10 & A11 & A12).
  assert (M1 : fd_get (fdt st) s1 = None) by (rewrite <- F0; assumption).
  assert (V0' : fd_get (fdt st2) s0 = fd_get (fdt st) STDOUT_FILENO)
    by (rewrite F1; [exact V0 | congruence | exact A02]).
  assert (O0' : fd_get (fdt st2) STDOUT_FILENO <> None)
    by (rewrite F1; [exact O0 | congruence | discriminate]).
  assert (A2 : s2 <> s0 /\ s2 <> s1 /\ s2 <> STDIN_FILENO
               /\ s2 <> STDOUT_FILENO /\ s2 <> STDERR_FILENO)
    by (repeat split; congruence).
  destruct A2 as (A2a & A2b & A20 & A21 & A22).
  assert (M2 : fd_get (fdt st) s2 = None).
  { rewrite <- F0 by assumption. rewrite <- F1 by assumption. exact N2. }
  exists s0, s1, s2.
  repeat match goal with |- _ /\ _ => split end;
    try assumption; try congruence.
  - rewrite F2 by congruence. exact V0'.
  - rewrite F2 by congruence. rewrite V1. apply F0; [congruence | discriminate].
  - rewrite V2. rewrite F1 by (congruence || discriminate).
    apply F0; [congruence | discriminate].
  - intros fd ? ? ? ? ? ?.
    rewrite F2, F1, F0 by assumption. reflexivity.
Qed.

(** cd with redirections that are not one combined file: when cd
    returns, every descriptor of the shell is what it was before the
    command, the saved copies are closed again and the files opened for
    the redirections are no longer referenced
    (cmd.c:122-127, 50-82, 87-96). *)
Theorem cd_restores_descriptors :
  forall s v level father st rc st',
    verb s = Some v ->
    get_word P (env st) (Some v) = "cd" ->
    std_open (fdt st) ->
    is_combined P s (env st) = false ->
    parse_simple P (Some s) level father st = (Ret rc, st') ->
    same_fds (fdt st') (fdt st).
Proof.
  intros s v level father st rc st' Hv Hc Hstd Hcomb H.
  rewrite (parse_simple_cd _ _ _ _ _ _ Hv Hc) in H.
  apply bind_inv in H as [(saved & st1 & Hopen & H) | (w & _ & Hw)];
    [| discriminate].
  apply bind_inv in H as [(ok & st2 & Hcd & H) | (w & _ & Hw)];
    [| discriminate].
  apply keeps_fdt_shell_cd in Hcd.
  apply bind_inv in H as [([] & st5 & Hfix & H) | (w & _ & Hw)];
    [| discriminate].
  inversion H; subst rc st5; clear H.
  destruct (open_files_saves _ _ _ _ Hstd Hcomb Hopen)
    as (s0 & s1 & s2 & -> & P0 & P1 & P2 & N0 & N1 & N2 & D01 & D02 & D12
        & V0 & V1 & V2 & F).
  rewrite <- Hcd in V0, V1, V2, F.
  destruct Hstd as (Hin & Hout & Herr).
  destruct (fd_get (fdt st) STDOUT_FILENO) as [a1 |] eqn:E1; [| congruence].
  destruct (fd_get (fdt st) STDERR_FILENO) as [a2 |] eqn:E2; [| congruence].
  destruct (fd_get (fdt st) STDIN_FILENO) as [a0 |] eqn:E0; [| congruence].
  assert (Z1 : 0 <= STDOUT_FILENO) by (unfold STDOUT_FILENO; lia).
  assert (Z2 : 0 <= STDERR_FILENO) by (unfold STDERR_FILENO; lia).
  assert (Z0 : 0 <= STDIN_FILENO) by (unfold STDIN_FILENO; lia).
  unfold fix_redirects in Hfix. cbn [nth] in Hfix.
  destruct (restore_one s0 STDOUT_FILENO a1 st2 P0 Z1 V0)
    as (st3 & K3 & _ & T3).
  rewrite K3 in Hfix.
  assert (V1' : fd_get (fdt st3) s1 = Some a2).
  { rewrite T3. eqs. }
  destruct (restore_one s1 STDERR_FILENO a2 st3 P1 Z2 V1')
    as (st4 & K4 & _ & T4).
  rewrite K4 in Hfix.
  assert (V2' : fd_get (fdt st4) s2 = Some a0).
  { rewrite T4, T3. eqs. }
  destruct (restore_one s2 STDIN_FILENO a0 st4 P2 Z0 V2')
    as (st6 & _ & K6 & T6).
  rewrite K6 in Hfix. inversion Hfix; subst st6; clear Hfix.
  intros fd. rewrite T6, T4, T3.
  eqs.
  apply F; assumption.
Qed.

(** The turn for stdout when both redirections read one path
    (cmd.c:59-69, 76-79): stdout and stderr both become the file. *)
Lemma turn_combined s st r1 saved st' :
  is_combined P s (env st) = true ->
  std_open (fdt st) ->
  open_files_turn P s 0 (err s) st = (Ret (r1, saved), st') ->
  0 <= saved /\
  fd_get (fdt st) saved = None /\
  fd_get (fdt st') saved = fd_get (fdt st) STDOUT_FILENO /\
  fd_get (fdt st') STDOUT_FILENO
  = Some (File (get_word P (env st) (out s)) combined_flags) /\
  fd_get (fdt st') STDERR_FILENO
  = Some (File (get_word P (env st) (out s)) combined_flags) /\
  (forall fd, fd <> saved -> fd <> STDOUT_FILENO -> fd <> STDERR_FILENO ->
              fd_get (fdt st') fd = fd_get (fdt st) fd) /\
  env st' = env st /\ r1 = None.
Proof.
  intros Hcomb (Hin & Hout & Herr) H.
  unfold is_combined in Hcomb.
  unfold open_files_turn in H.
  destruct (out s) as [wo |] eqn:Ho; [| discriminate].
  destruct (err s) as [we |] eqn:He; [| discriminate].
  cbn [is_null negb andb] in Hcomb.
  assert (Z1 : 0 <= STDOUT_FILENO) by (unfold STDOUT_FILENO; lia).
  assert (Z2 : 0 <= STDERR_FILENO) by (unfold STDERR_FILENO; lia).
  assert (D12 : STDERR_FILENO <> STDOUT_FILENO) by discriminate.
  assert (D10 : STDIN_FILENO <> STDOUT_FILENO) by discriminate.
  assert (D20 : STDIN_FILENO <> STDERR_FILENO) by discriminate.
  unfold bind at 1 in H. unfold dup at 1 in H.
  destruct (fd_get (fdt st) STDOUT_FILENO) as [a |] eqn:Ha; [| congruence].
  pose proof (lowest_free_unused (fdt st)) as Hn.
  assert (Hn0 : 0 <= Z.of_nat (lowest_free (fdt st))) by lia.
  set (n := Z.of_nat (lowest_free (fdt st))) in *. clearbody n.
  cbv beta iota in H.
  unfold bind at 1 in H. unfold gets at 1 in H. cbv beta iota in H.
  cbn [env record set_log set_fdt] in H.
  cbn [is_null negb andb Nat.eqb] in H. unfold strcmp_eq in H.
  rewrite Hcomb in H.
  set (sta := record (EvDup STDOUT_FILENO n)
                     (set_fdt (fd_set (fdt st) n (Some a)) st)) in *.
  set (path := get_word P (env st) (Some wo)) in *. clearbody path.
  fold combined_flags in H.
  unfold bind at 1 in H. unfold bind at 1 in H. unfold open at 1 in H.
  destruct (sys_open_ok P sta path combined_flags).
  2:{ cbv beta iota in H. unfold bind at 1 in H. unfold dup2 at 1 in H.
      cbn [fdt record set_log set_fdt] in H.
      change (fd_get (fdt sta) (-1)) with (@None ofd) in H.
      cbv beta iota in H. unfold ret at 1 in H. cbv beta iota in H.
      cbn [Z.ltb Z.compare] in H. discriminate H. }
  pose proof (lowest_free_unused (fdt sta)) as Hf.
  assert (Hf0 : 0 <= Z.of_nat (lowest_free (fdt sta))) by lia.
  set (f := Z.of_nat (lowest_free (fdt sta))) in *. clearbody f.
  cbv beta iota in H.
  unfold bind at 1 in H. unfold dup2 at 1 in H.
  subst sta. cbn [fdt record set_log set_fdt] in H, Hf.
  fds. rewrite Z.eqb_refl in H.
  replace (STDERR_FILENO <? 0) with false in H by reflexivity.
  cbv beta iota in H. unfold ret at 1 in H. cbv beta iota in H.
  replace (f <? 0) with false in H by (symmetry; apply Z.ltb_ge; lia).
  rewrite (bind_ret_eq _ _ _ _ _ (DIE_false P _ _)) in H.
  assert (Hfn : f <> n /\ fd_get (fdt st) f = None)
    by (destruct (Z.eqb_spec f n); [discriminate | auto]).
  destruct Hfn as (Hfn & Hf').
  assert (Hf1 : f <> STDOUT_FILENO) by congruence.
  assert (Hf2 : f <> STDERR_FILENO) by congruence.
  assert (Hn1 : n <> STDOUT_FILENO) by congruence.
  assert (Hn2 : n <> STDERR_FILENO) by congruence.
  unfold bind at 1 in H. unfold dup2 at 1 in H.
  cbn [fdt record set_log set_fdt] in H.
  fds. rewrite Z.eqb_refl in H.
  destruct (Z.eqb_spec f STDERR_FILENO) as [? | _]; [contradiction |].
  replace (STDOUT_FILENO <? 0) with false in H by reflexivity.
  cbv beta iota in H.
  unfold bind at 1 in H. unfold close at 1 in H. cbv beta iota in H.
  inversion H; subst r1 saved st'. clear H.
  cbn [fdt record set_log set_fdt env].
  repeat split; auto; try (intros fd ? ? ?); fds; eqs.
Qed.

(** What the three turns of [open_files] leave after a combined
    redirection: the copy saved for stderr is a copy of the file. *)
Lemma open_files_saves_combined s st saved st3 :
  std_open (fdt st) ->
  is_combined P s (env st) = true ->
  open_files P s st = (Ret saved, st3) ->
  exists s0 s1 s2,
    saved = [s0; s1; s2] /\ 0 <= s0 /\ 0 <= s1 /\ 0 <= s2 /\
    fd_get (fdt st) s0 = None /\ fd_get (fdt st) s1 = None /\
    fd_get (fdt st) s2 = None /\
    s0 <> s1 /\ s0 <> s2 /\ s1 <> s2 /\
    fd_get (fdt st3) s0 = fd_get (fdt st) STDOUT_FILENO /\
    fd_get (fdt st3) s1
    = Some (File (get_word P (env st) (out s)) combined_flags) /\
    fd_get (fdt st3) s2 = fd_get (fdt st) STDIN_FILENO /\
    (forall fd, fd <> s0 -> fd <> s1 -> fd <> s2 -> fd <> STDIN_FILENO ->
                fd <> STDOUT_FILENO -> fd <> STDERR_FILENO ->
                fd_get (fdt st3) fd = fd_get (fdt st) fd).
Proof.
  intros Hstd Hcomb H. pose proof Hstd as (Hin & Hout & Herr).
  unfold open_files in H.
  apply bind_inv in H as [([r0 s0] & st1 & H0 & H) | (w & _ & Hw)];
    [| discriminate].
  apply bind_inv in H as [([r1 s1] & st2 & H1 & H) | (w & _ & Hw)];
    [| discriminate].
  apply bind_inv in H as [([r2 s2] & st2' & H2 & H) | (w & _ & Hw)];
    [| discriminate].
  inversion H; subst saved st2'; clear H. cbn [fst snd] in *.
  apply (turn_combined _ _ _ _ _ Hcomb Hstd) in H0
    as (P0 & N0 & V0 & O0 & X0 & F0 & E0 & R0).
  assert (Hin1 : fd_get (fdt st1) STDIN_FILENO <> None).
  { rewrite F0; [exact Hin | congruence | discriminate | discriminate]. }
  apply turn_frame in H1 as (P1 & N1 & V1 & O1 & F1 & E1 & R1);
    [| intros ?; discriminate | cbn [outs]; congruence].
  cbn [outs] in *.
  assert (Hin2 : fd_get (fdt st2) STDIN_FILENO <> None).
  { rewrite F1; [exact Hin1 | congruence | discriminate]. }
  apply turn_frame in H2 as (P2 & N2 & V2 & O2 & F2 & E2 & R2);
    [| intros ?; discriminate | cbn [outs]; exact Hin2].
  cbn [outs] in *.
  assert (A0 : s0 <> STDIN_FILENO /\ s0 <> STDOUT_FILENO
               /\ s0 <> STDERR_FILENO) by (repeat split; congruence).
  destruct A0 as (A00 & A01 & A02).
  assert (A1 : s1 <> s0 /\ s1 <> STDIN_FILENO /\ s1 <> STDOUT_FILENO
               /\ s1 <> STDERR_FILENO) by (repeat split; congruence).
  destruct A1 as (A1s & A10 & A11 & A12).
  assert (M1 : fd_get (fdt st) s1 = None) by (rewrite <- F0; assumption).
  assert (V0' : fd_get (fdt st2) s0 = fd_get (fdt st) STDOUT_FILENO)
    by (rewrite F1; [exact V0 | congruence | exact A02]).
  assert (O0' : fd_get (fdt st2) STDOUT_FILENO <> None)
    by (rewrite F1; [congruence | congruence | discriminate]).
  assert (A2 : s2 <> s0 /\ s2 <> s1 /\ s2 <> STDIN_FILENO
               /\ s2 <> STDOUT_FILENO /\ s2 <> STDERR_FILENO)
    by (repeat split; congruence).
  destruct A2 as (A2a & A2b & A20 & A21 & A22).
  assert (M2 : fd_get (fdt st) s2 = None).
  { rewrite <- F0 by assumption. rewrite <- F1 by assumption. exact N2. }
  exists s0, s1, s2.
  repeat match goal with |- _ /\ _ => split end;
    try assumption; try congruence.
  - rewrite F2 by congruence. exact V0'.
  - rewrite F2 by congruence. rewrite V1. exact X0.
  - rewrite V2. rewrite F1 by (congruence || discriminate).
    apply F0; [congruence | discriminate | discriminate].
  - intros fd ? ? ? ? ? ?.
    rewrite F2, F1, F0 by assumption. reflexivity.
Qed.

(** cd with both redirections on one path (the combined redirection):
    when cd returns, the shell's own stderr is still the file, which
    nothing puts back: the copy saved for stderr was taken after the
    combined turn had already replaced descriptor 2.  Every other
    descriptor is what it was before the command
    (cmd.c:61, 66-69, 93-94, 122-127). *)
Theorem cd_combined_redirect_leaves_stderr_redirected :
  forall s v level father st rc st',
    verb s = Some v ->
    get_word P (env st) (Some v) = "cd" ->
    std_open (fdt st) ->
    is_combined P s (env st) = true ->
    parse_simple P (Some s) level father st = (Ret rc, st') ->
    fd_get (fdt st') STDERR_FILENO
    = Some (File (get_word P (env st) (out s)) combined_flags) /\
    (forall fd, fd <> STDERR_FILENO ->
                fd_get (fdt st') fd = fd_get (fdt st) fd).
Proof.
  intros s v level father st rc st' Hv Hc Hstd Hcomb H.
  rewrite (parse_simple_cd _ _ _ _ _ _ Hv Hc) in H.
  apply bind_inv in H as [(saved & st1 & Hopen & H) | (w & _ & Hw)];
    [| discriminate].
  apply bind_inv in H as [(ok & st2 & Hcd & H) | (w & _ & Hw)];
    [| discriminate].
  apply keeps_fdt_shell_cd in Hcd.
  apply bind_inv in H as [([] & st5 & Hfix & H) | (w & _ & Hw)];
    [| discriminate].
  inversion H; subst rc st5; clear H.
  destruct (open_files_saves_combined _ _ _ _ Hstd Hcomb Hopen)
    as (s0 & s1 & s2 & -> & P0 & P1 & P2 & N0 & N1 & N2 & D01 & D02 & D12
        & V0 & V1 & V2 & F).
  rewrite <- Hcd in V0, V1, V2, F.
  set (file := File (get_word P (env st) (out s)) combined_flags) in *.
  clearbody file.
  destruct Hstd as (Hin & Hout & Herr).
  destruct (fd_get (fdt st) STDOUT_FILENO) as [a1 |] eqn:E1; [| congruence].
  destruct (fd_get (fdt st) STDERR_FILENO) as [a2 |] eqn:E2; [| congruence].
  destruct (fd_get (fdt st) STDIN_FILENO) as [a0 |] eqn:E0; [| congruence].
  assert (Z1 : 0 <= STDOUT_FILENO) by (unfold STDOUT_FILENO; lia).
  assert (Z2 : 0 <= STDERR_FILENO) by (unfold STDERR_FILENO; lia).
  assert (Z0 : 0 <= STDIN_FILENO) by (unfold STDIN_FILENO; lia).
  unfold fix_redirects in Hfix. cbn [nth] in Hfix.
  destruct (restore_one s0 STDOUT_FILENO a1 st2 P0 Z1 V0)
    as (st3 & K3 & _ & T3).
  rewrite K3 in Hfix.
  assert (V1' : fd_get (fdt st3) s1 = Some file).
  { rewrite T3. eqs. }
  destruct (restore_one s1 STDERR_FILENO file st3 P1 Z2 V1')
    as (st4 & K4 & _ & T4).
  rewrite K4 in Hfix.
  assert (V2' : fd_get (fdt st4) s2 = Some a0).
  { rewrite T4, T3. eqs. }
  destruct (restore_one s2 STDIN_FILENO a0 st4 P2 Z0 V2')
    as (st6 & _ & K6 & T6).
  rewrite K6 in Hfix. inversion Hfix; subst st6; clear Hfix.
  split.
  - rewrite T6, T4. eqs.
  - intros fd Hfd. rewrite T6, T4, T3. eqs.
    apply F; assumption.
Qed.

End Restore.

(** Witness: [cd /tmp > f 2> g] leaves the three descriptors of the
    shell as they were. *)
Lemma cd_restores_witness :
  same_fds (fdt (snd (parse_simple D (Some cd_two_files) 0 None demo_state)))
           (fdt demo_state).
Proof.
  refine (cd_restores_descriptors
            D cd_two_files (word "cd") 0 None demo_state 0 _
            eq_refl _ _ _ _).
  - vm_compute; reflexivity.
  - vm_compute. repeat split; discriminate.
  - vm_compute; reflexivity.
  - vm_compute; reflexivity.
Defined.

(** Witness: after [cd /tmp > f 2> f] descriptor 2 of the shell is the
    file [f], and stdout is the terminal again. *)
Lemma cd_combined_witness :
  fd_get (fdt (snd (parse_simple D (Some cd_one_file) 0 None demo_state)))
         STDERR_FILENO
  = Some (File "f" combined_flags) /\
  fd_get (fdt (snd (parse_simple D (Some cd_one_file) 0 None demo_state)))
         STDOUT_FILENO
  = Some (Inherited "stdout").
Proof.
  assert (Hstd : std_open (fdt demo_state))
    by (vm_compute; repeat split; discriminate).
  assert (Hrun : parse_simple D (Some cd_one_file) 0 None demo_state
                 = (Ret 0,
                    snd (parse_simple D (Some cd_one_file) 0 None demo_state)))
    by (vm_compute; reflexivity).
  destruct (cd_combined_redirect_leaves_stderr_redirected
              D cd_one_file (word "cd") 0 None demo_state 0 _
              eq_refl eq_refl Hstd eq_refl Hrun) as (Herr & Hrest).
  split; [exact Herr |].
  rewrite Hrest by discriminate. reflexivity.
Defined.

(** Witness: [exit] on a host where SHELL_EXIT is -100. *)
Lemma exit_witness :
  parse_command D (leaf (simple "exit" None)) 0 None demo_state
  = (Ret (-100), demo_state).
Proof.
  exact (exit_and_quit_return_shell_exit
           D (simple "exit" None) (word "exit") None None 0 None demo_state
           eq_refl (or_introl eq_refl)).
Defined.

(** Witness: [cd /tmp] from /home. *)
Lemma cd_success_witness :
  cwd (snd (parse_simple D (Some (simple "cd" (Some (word "/tmp")))) 0 None
                         demo_state)) = "/tmp".
Proof.
  destruct (cd_success_changes_directory
              D (simple "cd" (Some (word "/tmp"))) (word "cd") (word "/tmp")
              "/tmp" 0 None demo_state
              (fst (parse_simple D (Some (simple "cd" (Some (word "/tmp"))))
                                 0 None demo_state))
              (snd (parse_simple D (Some (simple "cd" (Some (word "/tmp"))))
                                 0 None demo_state))
              eq_refl eq_refl eq_refl eq_refl eq_refl
              (surjective_pairing _))
    as [(_ & Hcwd & _) | (Hr & _)].
  - exact Hcwd.
  - vm_compute in Hr. discriminate Hr.
Defined.

(** ** The arguments [level] and [father] *)

Section Arguments.

Variable P : platform.

Lemma bind_ext {A B : Type} (m m' : M A) (k k' : A -> M B) :
  (forall st, m st = m' st) ->
  (forall a st, k a st = k' a st) ->
  forall st, bind m k st = bind m' k' st.
Proof.
  intros Hm Hk st. unfold bind. rewrite Hm.
  destruct (m' st) as [[a | w] st1]; [apply Hk | reflexivity].
Qed.

Lemma bind_assoc {A B C : Type} (m : M A) (k : A -> M B) (h : B -> M C) st :
  bind (bind m k) h st = bind m (fun a => bind (k a) h) st.
Proof.
  unfold bind. destruct (m st) as [[a | w] st1]; reflexivity.
Qed.

Lemma fork_ext child child' :
  (forall st, child st = child' st) ->
  forall st, fork P child st = fork P child' st.
Proof. intros H st. unfold fork. now rewrite H. Qed.

Lemma child_exit_ext run run' :
  (forall st, run st = run' st) ->
  forall st, child_exit run st = child_exit run' st.
Proof. intros H. unfold child_exit. apply bind_ext; [exact H | reflexivity]. Qed.

Lemma run_in_parallel_ext cmd1 cmd1' cmd2 cmd2' level level' father father' :
  (forall st, cmd1 level father st = cmd1' level' father' st) ->
  (forall st, cmd2 level father st = cmd2' level' father' st) ->
  forall st, run_in_parallel P cmd1 cmd2 level father st
             = run_in_parallel P cmd1' cmd2' level' father' st.
Proof.
  intros H1 H2. unfold run_in_parallel.
  apply bind_ext; [apply fork_ext, child_exit_ext, H1 | intros child1].
  apply bind_ext; [reflexivity | intros _].
  apply bind_ext; [apply fork_ext, child_exit_ext, H2 | reflexivity].
Qed.

Lemma run_on_pipe_ext cmd1 cmd1' cmd2 cmd2' level level' father father' :
  (forall st, cmd1 level father st = cmd1' level' father' st) ->
  (forall st, cmd2 level father st = cmd2' level' father' st) ->
  forall st, run_on_pipe P cmd1 cmd2 level father st
             = run_on_pipe P cmd1' cmd2' level' father' st.
Proof.
  intros H1 H2. unfold run_on_pipe.
  apply bind_ext; [reflexivity | intros [[rc fd0] fd1]].
  apply bind_ext; [reflexivity | intros _].
  apply bind_ext; [| intros child1].
  { apply fork_ext. apply bind_ext; [reflexivity | intros _].
    apply child_exit_ext, H1. }
  apply bind_ext; [reflexivity | intros _].
  apply bind_ext; [| reflexivity].
  apply fork_ext. apply bind_ext; [reflexivity | intros _].
  apply child_exit_ext, H2.
Qed.

Lemma parse_command_ext c :
  forall level father level' father' st,
    parse_command P c level father st = parse_command P c level' father' st.
Proof.
  induction c as [o cmd1 cmd2 scmd IH1 IH2] using command_induction.
  intros level father level' father'.
  cbn [parse_command].
  set (c := Command o cmd1 cmd2 scmd).
  assert (H1 : forall l f l' f' st,
             match cmd1 with
             | Some a => parse_command P a
             | None => fun _ _ => segfault
             end l f st
             = match cmd1 with
               | Some a => parse_command P a
               | None => fun _ _ => segfault
               end l' f' st)
    by (destruct cmd1 as [a |]; [exact IH1 | reflexivity]).
  assert (H2 : forall l f l' f' st,
             match cmd2 with
             | Some b => parse_command P b
             | None => fun _ _ => segfault
             end l f st
             = match cmd2 with
               | Some b => parse_command P b
               | None => fun _ _ => segfault
               end l' f' st)
    by (destruct cmd2 as [b |]; [exact IH2 | reflexivity]).
  set (call1 := match cmd1 with
                | Some a => parse_command P a
                | None => fun _ _ => segfault
                end) in *.
  set (call2 := match cmd2 with
                | Some b => parse_command P b
                | None => fun _ _ => segfault
                end) in *.
  clearbody call1 call2. clear IH1 IH2.
  destruct (is_null cmd1 && is_null cmd2 && is_null scmd); [reflexivity |].
  destruct o.
  - reflexivity.
  - apply bind_ext; [apply H1 | intros _].
    apply bind_ext; [apply H2 | reflexivity].
  - apply bind_ext; [| reflexivity].
    apply run_in_parallel_ext; [apply H1 | apply H2].
  - apply bind_ext; [apply H1 | intros r].
    apply bind_ext; [| reflexivity].
    destruct (r =? 0); [| reflexivity].
    apply bind_ext; [apply H2 | reflexivity].
  - apply bind_ext; [apply H1 | intros r].
    apply bind_ext; [| reflexivity].
    destruct (negb (r =? 0)); [| reflexivity].
    apply bind_ext; [apply H2 | reflexivity].
  - apply bind_ext; [| reflexivity].
    apply run_on_pipe_ext; [apply H1 | apply H2].
  - reflexivity.
Qed.

(** [parse_command] never reads its arguments [level] and [father]:
    they are only handed down ([level++], [c]), so the result and every
    effect of a tree are the same whatever values the caller passes
    (cmd.c:102, 173-174, 213-214, 262-312). *)
Theorem level_and_father_are_ignored :
  forall c level father level' father' st,
    parse_command P c level father st = parse_command P c level' father' st.
Proof. intros c. apply parse_command_ext. Qed.

(** Sequencing is associative: [(A ; B) ; C] and [A ; (B ; C)] run the
    same commands from the same states, end in the same state and
    return the same status, also when one of the three ends the
    process (cmd.c:274-278, 310-311). *)
Theorem sequential_is_associative :
  forall A B C s1 s2 s3 s4 level father st,
    parse_command P
      (Command OP_SEQUENTIAL
         (Some (Command OP_SEQUENTIAL (Some A) (Some B) s1)) (Some C) s2)
      level father st
    = parse_command P
        (Command OP_SEQUENTIAL
           (Some A) (Some (Command OP_SEQUENTIAL (Some B) (Some C) s3)) s4)
        level father st.
Proof.
  intros A B C s1 s2 s3 s4 level father st.
  cbn [parse_command is_null andb].
  rewrite bind_assoc.
  apply bind_ext; [intros st0; apply parse_command_ext | intros _ st1].
  rewrite !bind_assoc.
  apply bind_ext; [intros st0; apply parse_command_ext | intros _ st2].
  unfold bind.
  rewrite (parse_command_ext C (level + 1 + 1) _ (level + 1) 
             (Some (Command OP_SEQUENTIAL
                      (Some (Command OP_SEQUENTIAL (Some A) (Some B) s1))
                      (Some C) s2))).
  unfold ret.
  destruct (parse_command P C _ _ st2) as [[c | w] st3]; reflexivity.
Qed.

End Arguments.

(** ** Fatal failures and the children of a pipe *)

Section Fatal.

Variable P : platform.

(** When fork fails for an external command the shell itself ends
    through DIE: nothing is executed and nothing is waited for; the
    only events are the failed fork and the diagnostic
    (cmd.c:149-150). *)
Theorem external_fork_failure_is_fatal :
  forall s v level father st,
    verb s = Some v ->
    is_builtin_word (get_word P (env st) (Some v)) = false ->
    is_assignment v = false ->
    sys_fork_ok P st = false ->
    exists st',
      parse_simple P (Some s) level father st = (Halt (die_status P), st') /\
      new_events st st' = [(self st, EvDie "fork"); (self st, EvFork (-1))] /\
      next_pid st' = next_pid st /\ fdt st' = fdt st /\
      zombies st' = zombies st.
Proof.
  intros s v level father st Hv Hb Ha Hf.
  rewrite (parse_simple_external P _ _ _ _ _ Hv Hb Ha).
  unfold bind at 1. unfold fork at 1. rewrite Hf.
  cbn [Z.ltb Z.compare]. unfold DIE, bind, emit, halt.
  eexists. split; [reflexivity |].
  split; [| repeat split].
  apply (new_events_app st _ [(self st, EvDie "fork"); (self st, EvFork (-1))]).
  reflexivity.
Qed.

(** When pipe fails a PIPE node ends the process through DIE before
    any fork: no child is created and no descriptor is touched
    (cmd.c:221-222). *)
Theorem pipe_failure_is_fatal :
  forall cmd1 cmd2 scmd level father st,
    is_null cmd1 && is_null cmd2 && is_null scmd = false ->
    sys_pipe_ok P st = false ->
    exists st',
      parse_command P (Command OP_PIPE cmd1 cmd2 scmd) level father st
      = (Halt (die_status P), st') /\
      new_events st st' = [(self st, EvDie "pipe"); (self st, EvPipe (-1))] /\
      next_pid st' = next_pid st /\ fdt st' = fdt st /\
      zombies st' = zombies st.
Proof.
  intros cmd1 cmd2 scmd level father st Hn Hp.
  cbn [parse_command]. rewrite Hn.
  unfold bind at 1. unfold run_on_pipe. unfold bind at 1. unfold pipe at 1.
  rewrite Hp. cbn [Z.ltb Z.compare]. unfold DIE, bind, emit, halt.
  eexists. split; [reflexivity |].
  split; [| repeat split].
  apply (new_events_app st _ [(self st, EvDie "pipe"); (self st, EvPipe (-1))]).
  reflexivity.
Qed.


End Fatal.

(** Witness: [ls] on a host that cannot fork. *)
Lemma fork_failure_witness :
  fst (parse_simple exhausted (Some (simple "ls" None)) 0 None demo_state)
  = Halt (die_status exhausted).
Proof.
  destruct (external_fork_failure_is_fatal
              exhausted (simple "ls" None) (word "ls") 0 None demo_state
              eq_refl eq_refl eq_refl eq_refl) as (st' & H & _).
  rewrite H. reflexivity.
Defined.

(** Witness: [true | true] on a host that cannot make a pipe. *)
Lemma pipe_failure_witness :
  fst (parse_command exhausted (node OP_PIPE cmd_true cmd_true) 0 None
                     demo_state)
  = Halt (die_status exhausted).
Proof.
  destruct (pipe_failure_is_fatal
              exhausted (Some cmd_true) (Some cmd_true) None 0 None demo_state
              eq_refl eq_refl) as (st' & H & _).
  unfold node. rewrite H. reflexivity.
Defined.


(** ** An external command and the children left from before *)

Section Older.

Variable P : platform.

(** An external command waits with a plain wait, which names no child
    (cmd.c:162).  Started by a process that still has one unreported
    child, it returns the exit-code byte of whichever of the two
    children the kernel reports first: when that is the older one, the
    status is not the one of the program just run, and the program's
    own child stays unreported in its turn. *)
Theorem external_command_may_report_older_child :
  forall s v level father st p w rc stc,
    verb s = Some v ->
    is_builtin_word (get_word P (env st) (Some v)) = false ->
    is_assignment v = false ->
    zombies st = [(p, w)] ->
    0 <= next_pid st ->
    sys_fork_ok P st = true ->
    external_child P s (get_word P (env st) (Some v)) (spawn st) = (rc, stc) ->
    let own := (next_pid st, halt_status rc) in
    let second_first := reap_second P (rejoin st stc (halt_status rc)) in
    exists st',
      parse_simple P (Some s) level father st
      = (Ret (WEXITSTATUS (if second_first then snd own else w)), st') /\
      zombies st' = [if second_first then (p, w) else own].
Proof.
  intros s v level father st p w rc stc Hv Hb Ha Hz Hn Hok Hrun own sf.
  rewrite (parse_simple_external P s v level father st Hv Hb Ha).
  assert (Hrun' : external_child P s (get_word P (env st) (Some v)) (spawn st)
                  = (Halt (halt_status rc), stc)).
  { rewrite Hrun. destruct rc as [[] | w']. reflexivity. }
  rewrite (bind_ret_eq _ _ _ _ _ (fork_runs_child P _ _ _ _ Hok Hrun')).
  replace (next_pid st <? 0) with false by (symmetry; apply Z.ltb_ge; lia).
  rewrite (bind_ret_eq _ _ _ _ _ (DIE_false P _ _)).
  unfold bind, wait. subst sf. unfold reap_second.
  set (st2 := rejoin st stc (halt_status rc)).
  assert (Hz2 : zombies st2 = [(p, w); own])
    by (subst st2; cbn [zombies rejoin]; rewrite Hz; reflexivity).
  rewrite Hz2. cbn [List.length].
  pose proof (Nat.mod_upper_bound (sys_reap P st2) 2 ltac:(discriminate))
    as Hlt.
  destruct (sys_reap P st2 mod 2)%nat as [| [| n]]; [| | lia].
  - eexists. split; reflexivity.
  - eexists. split; reflexivity.
Qed.

End Older.

(** Witness: after [broken & true] has left child 102 unreported, [grep]
    (which exits with code 1) is reported with the status 0 of that
    child. *)
Lemma older_child_witness :
  fst (parse_simple D (Some simple_grep) 0 None
         (snd (parse_command D par_broken_true 0 None demo_state)))
  = Ret 0.
Proof.
  set (st := snd (parse_command D par_broken_true 0 None demo_state)).
  assert (Hz : zombies st = [(102, 0)]) by (vm_compute; reflexivity).
  assert (Hn : 0 <= next_pid st) by (vm_compute; discriminate).
  destruct (external_command_may_report_older_child
              D simple_grep (word "grep") 0 None st 102 0
              (fst (external_child D simple_grep "grep" (spawn st)))
              (snd (external_child D simple_grep "grep" (spawn st)))
              eq_refl eq_refl eq_refl Hz Hn eq_refl
              (surjective_pairing _)) as (st' & Hrun & _).
  rewrite Hrun. vm_compute. reflexivity.
Defined.
